(** * Task-management API: the task and user stores, the task controller
      and the token helper, embedded and verified.

    The development follows the backend sources:
    - the migration script ([CREATE TABLE users], [CREATE TABLE tasks]): the
      row types and the constraint checks of section "Schema";
    - [models/Task.js] (class [Task]): module [Task];
    - the task controller: [createTask], [getAllTasks], [getTaskById],
      [updateTask], [deleteTask], [getTaskStats];
    - the user model (class [User]): module [User];
    - [utils/jwt.js]: module [Jwt];
    - [server.js]: the rate-limit options, module [Server];
    - the task card of the frontend ([formatStatus] and the two colour
      tables): module [TaskCard].

    The database behind [pool.query] is a pair of tables, each a list of rows
    in physical order, with the two [SERIAL] sequences.  Every model function
    issues one SQL statement, and a statement runs in three steps, as
    PostgreSQL runs a parameterised query:
    - the parameters are read (section "Parameters of a statement"): a text
      with a NUL character, and an id that is no [INTEGER], are refused;
    - the values assigned to [VARCHAR(n)] columns are cut to the column
      type: a text with more than [n] characters is refused unless all the
      characters beyond the [n]-th are spaces, which are dropped;
    - the statement is executed, written here as the list operation it
      denotes; a [SERIAL] sequence that has run out, and a [NOT NULL],
      [CHECK], [UNIQUE] or foreign-key violation make it fail.
    A statement that fails is a thrown exception and leaves the tables as
    they were.  [CURRENT_TIMESTAMP] is an argument [now] of the functions
    that write.

    A text is the list of its characters, of which the model has the code
    points below 256.  Left out of the model: body fields that are neither
    absent, [null] nor a string, and failures of the connection.  The id of
    the principal comes from a verified token, where it is the id of a stored
    user; it is an integer and is not read again.

    The libraries the sources call are arguments of the model: the hash of
    bcryptjs in [User.create], and the keyed hash, the encoding and the
    reading of time spans of jsonwebtoken in [Jwt]. *)

From Stdlib Require Import ZArith Ascii String List Lia.
From stdpp Require Import base tactics decidable option list numbers strings pretty gmap sorting.

#[local] Set Warnings "-clear-no-such-hyp".

Local Open Scope Z_scope.
Local Open Scope string_scope.

(** ** JavaScript values of the request body *)

(** A field of [req.body] as the model functions see it: absent
    ([undefined]), [null], or a string.  The functions under study only ever
    compare a field with [undefined] and hand it to the SQL driver. *)
Inductive jsval : Type :=
  | JUndefined
  | JNull
  | JString (s : string).

#[global] Instance jsval_eq_dec : EqDecision jsval.
Proof. solve_decision. Defined.

(** A text cell of a table: [None] is SQL [NULL]. *)
Definition sqltext : Type := option string.

(** What the driver sends for a parameter: [undefined] and [null] both
    become [NULL]. *)
Definition sql_param (v : jsval) : sqltext :=
  match v with
  | JString s => Some s
  | JUndefined | JNull => None
  end.

(** A default in a destructuring pattern ([status = 'pending']): it applies
    to [undefined] only, [null] is kept. *)
Definition default_param (v : jsval) (d : string) : jsval :=
  match v with
  | JUndefined => JString d
  | JNull | JString _ => v
  end.

(** [v !== undefined] *)
Definition is_defined (v : jsval) : bool :=
  match v with
  | JUndefined => false
  | JNull | JString _ => true
  end.

(** ** Exceptions *)

(** The errors of PostgreSQL carry their condition name; the limit of the
    column type comes with [StringDataRightTruncation], the name of the
    sequence with [SequenceGeneratorLimitExceeded]. *)
Inductive exn : Type :=
  | NotNullViolation (column : string)
  | CheckViolation (column : string)
  | ForeignKeyViolation (column : string)
  | UniqueViolation (column : string)
  | StringDataRightTruncation (limit : nat)
  | CharacterNotInRepertoire
  | NumericValueOutOfRange
  | InvalidTextRepresentation
  | SequenceGeneratorLimitExceeded (sequence : string)
  | IllegalArguments
  | InvalidTimespan
  | JsonWebTokenError
  | TokenExpiredError
  | TypeError.

#[global] Instance exn_eq_dec : EqDecision exn.
Proof. solve_decision. Defined.

(** The outcome of an [await]ed call: a value, or a thrown exception. *)
Inductive js (A : Type) : Type :=
  | Return (a : A)
  | Throw (e : exn).
Arguments Return {A} a.
Arguments Throw {A} e.

#[global] Instance js_eq_dec {A : Type} `{EqDecision A} : EqDecision (js A).
Proof. solve_decision. Defined.

(** Sequencing: the first exception ends the computation. *)
#[global] Instance js_ret : MRet js := fun A a => Return a.

#[global] Instance js_bind : MBind js := fun A B k m =>
  match m with
  | Return a => k a
  | Throw e => Throw e
  end.

(** ** Parameters of a statement *)

(** The first [n] characters of a text, and the rest. *)
Fixpoint string_take (n : nat) (s : string) : string :=
  match n, s with
  | S n', String c rest => String c (string_take n' rest)
  | _, _ => EmptyString
  end.

Fixpoint string_drop (n : nat) (s : string) : string :=
  match n, s with
  | S n', String _ rest => string_drop n' rest
  | _, _ => s
  end.

Fixpoint all_spaces (s : string) : bool :=
  match s with
  | EmptyString => true
  | String c rest => Ascii.eqb c " " && all_spaces rest
  end.

(** The character with code 0, which no text of the database holds. *)
Fixpoint has_nul (s : string) : bool :=
  match s with
  | EmptyString => false
  | String c rest => Ascii.eqb c zero || has_nul rest
  end.

(** A text parameter as the server reads it: [undefined] and [null] are
    [NULL], a string with a NUL character is refused. *)
Definition bind_text (v : jsval) : js sqltext :=
  match v with
  | JString s => if has_nul s then Throw CharacterNotInRepertoire else Return (Some s)
  | JUndefined | JNull => Return None
  end.

(** Assignment to a column of type [VARCHAR(n)]: a text within the limit is
    kept; a longer one is cut to [n] characters when it only loses spaces
    and refused otherwise.  [NULL] passes. *)
Definition to_varchar (n : nat) (v : sqltext) : js sqltext :=
  match v with
  | Some s =>
      if all_spaces (string_drop n s) then Return (Some (string_take n s))
      else Throw (StringDataRightTruncation n)
  | None => Return None
  end.

(** The range of the type [INTEGER]. *)
Definition int4_min : Z := -2147483648.
Definition int4_max : Z := 2147483647.

Definition in_int4 (n : Z) : bool := bool_decide (int4_min <= n <= int4_max).

(** An id as it reaches a statement: the [:id] segment of the route, a
    text.  The integer input of PostgreSQL reads it either as an integer,
    of any size, or as no integer at all. *)
Inductive id_param : Type :=
  | IntegerText (n : Z)
  | OtherText.

#[global] Instance id_param_eq_dec : EqDecision id_param.
Proof. solve_decision. Defined.

Coercion IntegerText : Z >-> id_param.

(** An id parameter compared with an [INTEGER] column: it has to be an
    integer of that type. *)
Definition bind_int4 (p : id_param) : js Z :=
  match p with
  | IntegerText n => if in_int4 n then Return n else Throw NumericValueOutOfRange
  | OtherText => Throw InvalidTextRepresentation
  end.

(** The parameters of an [UPDATE ... SET col = $1, ... WHERE id = $n]: the
    texts are read in order, then the id, and then each value is cut to the
    type of its column; [limit] gives the [n] of a [VARCHAR(n)] column. *)
Definition bind_set (cv : string * jsval) : js (string * sqltext) :=
  v ← bind_text cv.2; mret (cv.1, v).

Definition assign_set (limit : string -> option nat) (cv : string * sqltext)
    : js (string * sqltext) :=
  match limit cv.1 with
  | Some n => v ← to_varchar n cv.2; mret (cv.1, v)
  | None => mret cv
  end.

Definition prepare_update (limit : string -> option nat)
    (updates : list (string * jsval)) (id : id_param) : js (list (string * sqltext) * Z) :=
  bound ← mapM bind_set updates;
  id ← bind_int4 id;
  sets ← mapM (assign_set limit) bound;
  mret (sets, id).

(** ** Schema *)

(** [CREATE TABLE users]: [id SERIAL PRIMARY KEY]; [name], [email] and
    [password] are [VARCHAR(255) NOT NULL], [email] is [UNIQUE]; [role] is a
    [VARCHAR(50)] with a [CHECK] and may be [NULL]. *)
Record user_row : Type := UserRow {
  u_id : Z;
  u_name : sqltext;
  u_email : sqltext;
  u_password : sqltext;
  u_role : sqltext;
  u_created_at : Z;
  u_updated_at : Z
}.

(** [CREATE TABLE tasks]: [title] is [VARCHAR(255) NOT NULL], [description]
    is [TEXT]; [status] and [priority] are [VARCHAR(50)] with a [CHECK] and a
    [DEFAULT] but no [NOT NULL]; [user_id] references [users(id)] with
    [ON DELETE CASCADE]. *)
Record task_row : Type := TaskRow {
  t_id : Z;
  t_title : sqltext;
  t_description : sqltext;
  t_status : sqltext;
  t_priority : sqltext;
  t_user_id : Z;
  t_created_at : Z;
  t_updated_at : Z
}.

#[global] Instance user_row_eq_dec : EqDecision user_row.
Proof. solve_decision. Defined.
#[global] Instance task_row_eq_dec : EqDecision task_row.
Proof. solve_decision. Defined.

(** The database: both tables in physical order and the last value handed out
    by each [SERIAL] sequence. *)
Record db : Type := Db {
  users : list user_row;
  tasks : list task_row;
  users_id_seq : Z;
  tasks_id_seq : Z
}.

Definition with_tasks (d : db) (ts : list task_row) : db :=
  {| users := users d; tasks := ts;
     users_id_seq := users_id_seq d; tasks_id_seq := tasks_id_seq d |}.

Definition with_users (d : db) (us : list user_row) : db :=
  {| users := us; tasks := tasks d;
     users_id_seq := users_id_seq d; tasks_id_seq := tasks_id_seq d |}.

(** A sequence moved on by one. *)
Definition advance_tasks_seq (d : db) : db :=
  {| users := users d; tasks := tasks d;
     users_id_seq := users_id_seq d; tasks_id_seq := tasks_id_seq d + 1 |}.

Definition advance_users_seq (d : db) : db :=
  {| users := users d; tasks := tasks d;
     users_id_seq := users_id_seq d + 1; tasks_id_seq := tasks_id_seq d |}.

(** [nextval] of the tasks sequence, an [INTEGER] sequence: it fails once
    the last value of the type has been handed out; a value it hands out is
    not taken back when the statement fails later. *)
Definition nextval_tasks (d : db) : js (Z * db) :=
  if bool_decide (tasks_id_seq d < int4_max)
  then Return (tasks_id_seq d + 1, advance_tasks_seq d)
  else Throw (SequenceGeneratorLimitExceeded "tasks_id_seq").

Definition nextval_users (d : db) : js (Z * db) :=
  if bool_decide (users_id_seq d < int4_max)
  then Return (users_id_seq d + 1, advance_users_seq d)
  else Throw (SequenceGeneratorLimitExceeded "users_id_seq").

(** [CHECK (col IN (...))]: a [NULL] cell passes, as in SQL. *)
Definition check_in (allowed : list string) (v : sqltext) : bool :=
  match v with
  | None => true
  | Some s => bool_decide (s ∈ allowed)
  end.

Definition task_statuses : list string := ["pending"; "in_progress"; "completed"].
Definition task_priorities : list string := ["low"; "medium"; "high"].
Definition user_roles : list string := ["user"; "admin"].

(** A cell of type [VARCHAR(n)] holds at most [n] characters. *)
Definition varchar_cell (n : nat) (v : sqltext) : bool :=
  match v with
  | None => true
  | Some s => bool_decide (String.length s <= n)%nat
  end.

(** The first of the listed violations, if any. *)
Fixpoint first_of (checks : list (bool * exn)) : option exn :=
  match checks with
  | [] => None
  | (ok, e) :: rest => if ok then first_of rest else Some e
  end.

(** What a row of [tasks] has to satisfy: the column types, then the
    constraints in the order PostgreSQL checks them, [NOT NULL] first and
    the [CHECK]s by name ([tasks_priority_check] before
    [tasks_status_check]). *)
Definition task_row_violation (r : task_row) : option exn :=
  first_of
    [ (varchar_cell 255 (t_title r), StringDataRightTruncation 255);
      (varchar_cell 50 (t_status r), StringDataRightTruncation 50);
      (varchar_cell 50 (t_priority r), StringDataRightTruncation 50);
      (bool_decide (is_Some (t_title r)), NotNullViolation "title");
      (check_in task_priorities (t_priority r), CheckViolation "priority");
      (check_in task_statuses (t_status r), CheckViolation "status") ].

(** The foreign key [tasks.user_id -> users.id]. *)
Definition task_fk_violation (us : list user_row) (r : task_row) : option exn :=
  if bool_decide (t_user_id r ∈ u_id <$> us) then None
  else Some (ForeignKeyViolation "user_id").

(** What a row of [users] has to satisfy: the column types, the three
    [NOT NULL]s in column order, the [CHECK] of [role]. *)
Definition user_row_violation (r : user_row) : option exn :=
  first_of
    [ (varchar_cell 255 (u_name r), StringDataRightTruncation 255);
      (varchar_cell 255 (u_email r), StringDataRightTruncation 255);
      (varchar_cell 255 (u_password r), StringDataRightTruncation 255);
      (varchar_cell 50 (u_role r), StringDataRightTruncation 50);
      (bool_decide (is_Some (u_name r)), NotNullViolation "name");
      (bool_decide (is_Some (u_email r)), NotNullViolation "email");
      (bool_decide (is_Some (u_password r)), NotNullViolation "password");
      (check_in user_roles (u_role r), CheckViolation "role") ].

(** The first violation in a list of rows. *)
Definition first_violation {A : Type} (viol : A -> option exn) (rows : list A) : option exn :=
  head (omap viol rows).

(** ** Request and response shapes *)

(** The four task fields of a request body, as destructured by the
    controller and by [Task.create] / [Task.update]. *)
Record task_fields : Type := TaskFields {
  title : jsval;
  description : jsval;
  status : jsval;
  priority : jsval
}.

(** [req.user], set from the verified token: user id and role. *)
Record principal : Type := Principal {
  p_id : Z;
  p_role : string
}.

(** A row of [tasks JOIN users]: [t.*] with [u.name as user_name] and
    [u.email as user_email]. *)
Record task_view : Type := TaskView {
  tv_task : task_row;
  tv_user_name : sqltext;
  tv_user_email : sqltext
}.

(** The single row of the aggregate query of [Task.getStats]; the counts
    are kept as integers. *)
Record stats : Type := Stats {
  total : Z;
  pending : Z;
  in_progress : Z;
  completed : Z
}.

(** ** models/Task.js *)

Module Task.

(** The typed columns of [tasks]: [title VARCHAR(255)], [status] and
    [priority VARCHAR(50)]; [description] is [TEXT]. *)
Definition column_limit (col : string) : option nat :=
  if bool_decide (col = "title") then Some 255%nat
  else if bool_decide (col = "status") then Some 50%nat
  else if bool_decide (col = "priority") then Some 50%nat
  else None.

(** The four text parameters of the [INSERT], read and cut to the column
    types. *)
Definition prepare_insert (title description status priority : jsval)
    : js (sqltext * sqltext * sqltext * sqltext) :=
  ttl ← bind_text title;
  descr ← bind_text description;
  st ← bind_text status;
  prio ← bind_text priority;
  ttl ← to_varchar 255 ttl;
  st ← to_varchar 50 st;
  prio ← to_varchar 50 prio;
  mret (ttl, descr, st, prio).

(** [INSERT INTO tasks (title, description, status, priority, user_id)
    VALUES ($1, $2, $3, $4, $5) RETURNING *] at time [now]: the id comes
    from the sequence, both timestamps from [CURRENT_TIMESTAMP]. *)
Definition insert_returning (now : Z) (title description status priority : jsval) (uid : Z)
    (d : db) : js (list task_row) * db :=
  match prepare_insert title description status priority with
  | Throw e => (Throw e, d)
  | Return (ttl, descr, st, prio) =>
      match nextval_tasks d with
      | Throw e => (Throw e, d)
      | Return (new_id, d1) =>
          let r := {| t_id := new_id; t_title := ttl; t_description := descr;
                      t_status := st; t_priority := prio; t_user_id := uid;
                      t_created_at := now; t_updated_at := now |} in
          match task_row_violation r with
          | Some e => (Throw e, d1)
          | None =>
              match task_fk_violation (users d1) r with
              | Some e => (Throw e, d1)
              | None => (Return [r], with_tasks d1 (tasks d1 ++ [r]))
              end
          end
      end
  end.

(** [result.rows[0]] *)
Definition first_row {A : Type} (res : js (list A)) : js (option A) :=
  match res with
  | Return rows => Return (head rows)
  | Throw e => Throw e
  end.

Definition create (now : Z) (f : task_fields) (user_id : Z) (d : db)
    : js (option task_row) * db :=
  let status := default_param (status f) "pending" in
  let priority := default_param (priority f) "medium" in
  let '(result, d') :=
    insert_returning now (title f) (description f) status priority user_id d in
  (first_row result, d').

(** [FROM tasks t JOIN users u ON t.user_id = u.id]: one joined row per
    pair of a task and a user with that id. *)
Definition join_users (us : list user_row) (t : task_row) : list task_view :=
  (fun u => {| tv_task := t; tv_user_name := u_name u; tv_user_email := u_email u |})
    <$> filter (fun u => t_user_id t = u_id u) us.

Definition tasks_join_users (d : db) : list task_view :=
  tasks d ≫= join_users (users d).

(** [ORDER BY t.created_at DESC]: the later row first.  SQL leaves the
    order of rows with equal keys open; the sort used here fixes one such
    order, and nothing below depends on which. *)
Definition created_desc (v w : task_view) : Prop :=
  t_created_at (tv_task w) <= t_created_at (tv_task v).

#[global] Instance created_desc_dec v w : Decision (created_desc v w).
Proof. unfold created_desc. apply _. Defined.

Definition findAll (userId : Z) (isAdmin : bool) (d : db) : js (list task_view) :=
  let joined := tasks_join_users d in
  let selected :=
    if negb isAdmin
    then filter (fun v => t_user_id (tv_task v) = userId) joined
    else joined in
  Return (merge_sort created_desc selected).

(** The [WHERE] clause shared by the single-task statements:
    [id = $1], and [AND user_id = $2] appended when [!isAdmin]. *)
Definition where_id (id userId : Z) (isAdmin : bool) (r : task_row) : bool :=
  bool_decide (t_id r = id) &&
  (if negb isAdmin then bool_decide (t_user_id r = userId) else true).

Definition findById (id : id_param) (userId : Z) (isAdmin : bool) (d : db)
    : js (option task_view) :=
  id ← bind_int4 id;
  let joined := tasks_join_users d in
  let selected := filter (fun v => where_id id userId isAdmin (tv_task v) = true) joined in
  first_row (Return selected).

(** One [col = $n] item of the [SET] list. *)
Definition set_column (col : string) (v : sqltext) (r : task_row) : task_row :=
  if bool_decide (col = "title") then
    {| t_id := t_id r; t_title := v; t_description := t_description r;
       t_status := t_status r; t_priority := t_priority r; t_user_id := t_user_id r;
       t_created_at := t_created_at r; t_updated_at := t_updated_at r |}
  else if bool_decide (col = "description") then
    {| t_id := t_id r; t_title := t_title r; t_description := v;
       t_status := t_status r; t_priority := t_priority r; t_user_id := t_user_id r;
       t_created_at := t_created_at r; t_updated_at := t_updated_at r |}
  else if bool_decide (col = "status") then
    {| t_id := t_id r; t_title := t_title r; t_description := t_description r;
       t_status := v; t_priority := t_priority r; t_user_id := t_user_id r;
       t_created_at := t_created_at r; t_updated_at := t_updated_at r |}
  else if bool_decide (col = "priority") then
    {| t_id := t_id r; t_title := t_title r; t_description := t_description r;
       t_status := t_status r; t_priority := v; t_user_id := t_user_id r;
       t_created_at := t_created_at r; t_updated_at := t_updated_at r |}
  else r.

(** [updated_at = CURRENT_TIMESTAMP] *)
Definition set_updated_at (now : Z) (r : task_row) : task_row :=
  {| t_id := t_id r; t_title := t_title r; t_description := t_description r;
     t_status := t_status r; t_priority := t_priority r; t_user_id := t_user_id r;
     t_created_at := t_created_at r; t_updated_at := now |}.

(** The whole [SET] list applied to one row. *)
Definition apply_updates (now : Z) (updates : list (string * sqltext)) (r : task_row) : task_row :=
  set_updated_at now (foldl (fun r' cv => set_column cv.1 cv.2 r') r updates).

(** [UPDATE tasks SET ... WHERE ... RETURNING *]: every row the [WHERE]
    clause selects is rewritten in place; if a new row breaks a constraint
    the statement fails and changes nothing. *)
Definition update_returning (now : Z) (updates : list (string * sqltext))
    (where_ : task_row -> bool) (d : db) : js (list task_row) * db :=
  let updated := apply_updates now updates <$> filter (fun r => where_ r = true) (tasks d) in
  match first_violation task_row_violation updated with
  | Some e => (Throw e, d)
  | None =>
      (Return updated,
       with_tasks d ((fun r => if where_ r then apply_updates now updates r else r) <$> tasks d))
  end.

(** [if (v !== undefined) { updates.push(`col = $n`); values.push(v); }] *)
Definition push_if_defined (col : string) (v : jsval)
    (updates : list (string * jsval)) : list (string * jsval) :=
  if is_defined v then updates ++ [(col, v)] else updates.

(** The [updates] array (with its [values]) once the four [if]s have run. *)
Definition collect_updates (f : task_fields) : list (string * jsval) :=
  let updates := [] in
  let updates := push_if_defined "title" (title f) updates in
  let updates := push_if_defined "description" (description f) updates in
  let updates := push_if_defined "status" (status f) updates in
  let updates := push_if_defined "priority" (priority f) updates in
  updates.

Definition update (now : Z) (id : id_param) (userId : Z) (isAdmin : bool)
    (f : task_fields) (d : db) : js (option task_row) * db :=
  let updates := collect_updates f in
  if bool_decide (length updates = 0%nat) then (Return None, d)
  else
    match prepare_update column_limit updates id with
    | Throw e => (Throw e, d)
    | Return (sets, id) =>
        let '(result, d') := update_returning now sets (where_id id userId isAdmin) d in
        (first_row result, d')
    end.

(** [DELETE FROM tasks WHERE id = $1 [AND user_id = $2] RETURNING id] *)
Definition delete (id : id_param) (userId : Z) (isAdmin : bool) (d : db)
    : js (option Z) * db :=
  match bind_int4 id with
  | Throw e => (Throw e, d)
  | Return id =>
      let where_ := where_id id userId isAdmin in
      let deleted := filter (fun r => where_ r = true) (tasks d) in
      (first_row (Return (t_id <$> deleted)),
       with_tasks d (filter (fun r => where_ r = false) (tasks d)))
  end.

(** [COUNT(CASE WHEN status = s THEN 1 END)]: the rows whose status is
    [s]; a [NULL] status matches no [s]. *)
Definition count_status (s : string) (rows : list task_row) : Z :=
  Z.of_nat (length (filter (fun r => t_status r = Some s) rows)).

Definition getStats (userId : Z) (isAdmin : bool) (d : db) : js (option stats) :=
  let rows :=
    if negb isAdmin
    then filter (fun r => t_user_id r = userId) (tasks d)
    else tasks d in
  first_row (Return [ {| total := Z.of_nat (length rows);
                         pending := count_status "pending" rows;
                         in_progress := count_status "in_progress" rows;
                         completed := count_status "completed" rows |} ]).

End Task.

(** ** The task controller *)

(** [req]: the principal set by the authentication middleware, the [:id]
    route parameter, and the JSON body. *)
Record request : Type := Request {
  user : principal;
  params_id : id_param;
  body : task_fields
}.
(** The [data] member of the response envelope. *)
Inductive data : Type :=
  | NoData
  | DataTask (task : option task_row)
  | DataTaskView (task : task_view)
  | DataTasks (tasks : list task_view) (count : Z)
  | DataStats (stats : option stats).

(** [res.status(code).json({ success, message, data, error })] *)
Record response : Type := Response {
  res_status : Z;
  res_success : bool;
  res_message : option string;
  res_data : data;
  res_error : option exn
}.

Definition json_ok (code : Z) (message : option string) (dt : data) : response :=
  {| res_status := code; res_success := true; res_message := message;
     res_data := dt; res_error := None |}.

Definition json_fail (code : Z) (message : string) (e : option exn) : response :=
  {| res_status := code; res_success := false; res_message := Some message;
     res_data := NoData; res_error := e |}.

(** [req.user.role === 'admin'] *)
Definition isAdmin_of (req : request) : bool :=
  bool_decide (p_role (user req) = "admin").

Definition createTask (now : Z) (req : request) (d : db) : response * db :=
  let f := body req in
  let userId := p_id (user req) in
  match Task.create now
          {| title := title f; description := description f;
             status := status f; priority := priority f |} userId d with
  | (Return task, d') => (json_ok 201 (Some "Task created successfully") (DataTask task), d')
  | (Throw error, d') => (json_fail 500 "Failed to create task" (Some error), d')
  end.

Definition getAllTasks (req : request) (d : db) : response :=
  let userId := p_id (user req) in
  let isAdmin := isAdmin_of req in
  match Task.findAll userId isAdmin d with
  | Return tasks => json_ok 200 None (DataTasks tasks (Z.of_nat (length tasks)))
  | Throw error => json_fail 500 "Failed to get tasks" (Some error)
  end.

Definition getTaskById (req : request) (d : db) : response :=
  let id := params_id req in
  let userId := p_id (user req) in
  let isAdmin := isAdmin_of req in
  match Task.findById id userId isAdmin d with
  | Return None => json_fail 404 "Task not found" None
  | Return (Some task) => json_ok 200 None (DataTaskView task)
  | Throw error => json_fail 500 "Failed to get task" (Some error)
  end.

Definition updateTask (now : Z) (req : request) (d : db) : response * db :=
  let id := params_id req in
  let f := body req in
  let userId := p_id (user req) in
  let isAdmin := isAdmin_of req in
  match Task.update now id userId isAdmin
          {| title := title f; description := description f;
             status := status f; priority := priority f |} d with
  | (Return None, d') =>
      (json_fail 404 "Task not found or you do not have permission to update it" None, d')
  | (Return (Some task), d') =>
      (json_ok 200 (Some "Task updated successfully") (DataTask (Some task)), d')
  | (Throw error, d') => (json_fail 500 "Failed to update task" (Some error), d')
  end.

Definition deleteTask (req : request) (d : db) : response * db :=
  let id := params_id req in
  let userId := p_id (user req) in
  let isAdmin := isAdmin_of req in
  match Task.delete id userId isAdmin d with
  | (Return None, d') =>
      (json_fail 404 "Task not found or you do not have permission to delete it" None, d')
  | (Return (Some _), d') => (json_ok 200 (Some "Task deleted successfully") NoData, d')
  | (Throw error, d') => (json_fail 500 "Failed to delete task" (Some error), d')
  end.

Definition getTaskStats (req : request) (d : db) : response :=
  let userId := p_id (user req) in
  let isAdmin := isAdmin_of req in
  match Task.getStats userId isAdmin d with
  | Return stats => json_ok 200 None (DataStats stats)
  | Throw error => json_fail 500 "Failed to get task statistics" (Some error)
  end.

(** ** The user model *)

(** A cell of a result row. *)
Inductive sqlval : Type :=
  | VInt (n : Z)
  | VText (s : string)
  | VTimestamp (t : Z)
  | VNull.

#[global] Instance sqlval_eq_dec : EqDecision sqlval.
Proof. solve_decision. Defined.

Definition text_cell (v : sqltext) : sqlval :=
  match v with
  | Some s => VText s
  | None => VNull
  end.

(** A result row as the driver builds it: an object from column names to
    cells, holding exactly the columns of the select list. *)
Abbreviation result_row := (gmap string sqlval).


Module User.

(** The columns of [users], in table order: what [SELECT *] expands to. *)
Definition all_columns : list string :=
  ["id"; "name"; "email"; "password"; "role"; "created_at"; "updated_at"].

Definition cell (u : user_row) (col : string) : option sqlval :=
  if bool_decide (col = "id") then Some (VInt (u_id u))
  else if bool_decide (col = "name") then Some (text_cell (u_name u))
  else if bool_decide (col = "email") then Some (text_cell (u_email u))
  else if bool_decide (col = "password") then Some (text_cell (u_password u))
  else if bool_decide (col = "role") then Some (text_cell (u_role u))
  else if bool_decide (col = "created_at") then Some (VTimestamp (u_created_at u))
  else if bool_decide (col = "updated_at") then Some (VTimestamp (u_updated_at u))
  else None.

(** The select list [cols] evaluated on one row. *)
Definition select (cols : list string) (u : user_row) : result_row :=
  list_to_map (omap (fun col => pair col <$> cell u col) cols).

(** [col = $n] in a [WHERE] clause: never true on [NULL]. *)
Definition sql_eq (c v : sqltext) : bool :=
  match c, v with
  | Some a, Some b => bool_decide (a = b)
  | _, _ => false
  end.

(** The [UNIQUE] constraint on [email] for a row [r] against the other rows
    of the table. *)
Definition email_violation (others : list user_row) (r : user_row) : option exn :=
  if bool_decide (Exists (fun u => sql_eq (u_email u) (u_email r) = true) others)
  then Some (UniqueViolation "email") else None.

(** The typed columns of [users] a statement assigns: [name] and [email]
    are [VARCHAR(255)], [role] is [VARCHAR(50)]. *)
Definition column_limit (col : string) : option nat :=
  if bool_decide (col = "name") then Some 255%nat
  else if bool_decide (col = "email") then Some 255%nat
  else if bool_decide (col = "role") then Some 50%nat
  else None.

(** The four text parameters of the [INSERT], read and cut to the column
    types. *)
Definition prepare_insert (name email password role : jsval)
    : js (sqltext * sqltext * sqltext * sqltext) :=
  nm ← bind_text name;
  em ← bind_text email;
  pw ← bind_text password;
  rl ← bind_text role;
  nm ← to_varchar 255 nm;
  em ← to_varchar 255 em;
  pw ← to_varchar 255 pw;
  rl ← to_varchar 50 rl;
  mret (nm, em, pw, rl).

(** [INSERT INTO users (name, email, password, role) VALUES ($1, $2, $3, $4)
    RETURNING cols] *)
Definition insert_returning (now : Z) (cols : list string)
    (name email password role : jsval) (d : db) : js (list result_row) * db :=
  match prepare_insert name email password role with
  | Throw e => (Throw e, d)
  | Return (nm, em, pw, rl) =>
      match nextval_users d with
      | Throw e => (Throw e, d)
      | Return (new_id, d1) =>
          let r := {| u_id := new_id; u_name := nm; u_email := em; u_password := pw;
                      u_role := rl; u_created_at := now; u_updated_at := now |} in
          match user_row_violation r with
          | Some e => (Throw e, d1)
          | None =>
              match email_violation (users d1) r with
              | Some e => (Throw e, d1)
              | None => (Return [select cols r], with_users d1 (users d1 ++ [r]))
              end
          end
      end
  end.

Section Bcrypt.

(** [bcrypt.hash(s, rounds)] of bcryptjs, with the salt it draws made an
    argument.  The function itself belongs to the library. *)
Variable bcrypt_hash : string -> Z -> string -> string.

Definition create (now : Z) (salt : string) (name email password role : jsval) (d : db)
    : js (option result_row) * db :=
  let role := default_param role "user" in
  match password with
  | JString plain =>
      let hashedPassword := bcrypt_hash plain 10 salt in
      let '(result, d') :=
        insert_returning now ["id"; "name"; "email"; "role"; "created_at"]
          name email (JString hashedPassword) role d in
      (Task.first_row result, d')
  | JUndefined | JNull => (Throw IllegalArguments, d)
  end.

(** [bcrypt.compare(s, hash)] *)
Variable bcrypt_compare : string -> string -> bool.

Definition verifyPassword (plainPassword hashedPassword : string) : bool :=
  bcrypt_compare plainPassword hashedPassword.

End Bcrypt.

(** [SELECT * FROM users WHERE email = $1]: the parameter is compared as a
    text, of any length. *)
Definition findByEmail (email : jsval) (d : db) : js (option result_row) :=
  email ← bind_text email;
  let rows := filter (fun u => sql_eq (u_email u) email = true) (users d) in
  Task.first_row (Return (select all_columns <$> rows)).

Definition findById (id : id_param) (d : db) : js (option result_row) :=
  id ← bind_int4 id;
  let rows := filter (fun u => u_id u = id) (users d) in
  Task.first_row (Return (select ["id"; "name"; "email"; "role"; "created_at"] <$> rows)).

Definition created_desc (u v : user_row) : Prop := u_created_at v <= u_created_at u.

#[global] Instance created_desc_dec u v : Decision (created_desc u v).
Proof. unfold created_desc. apply _. Defined.

Definition findAll (d : db) : js (list result_row) :=
  Return (select ["id"; "name"; "email"; "role"; "created_at"]
            <$> merge_sort created_desc (users d)).

Definition set_column (col : string) (v : sqltext) (r : user_row) : user_row :=
  if bool_decide (col = "name") then
    {| u_id := u_id r; u_name := v; u_email := u_email r; u_password := u_password r;
       u_role := u_role r; u_created_at := u_created_at r; u_updated_at := u_updated_at r |}
  else if bool_decide (col = "email") then
    {| u_id := u_id r; u_name := u_name r; u_email := v; u_password := u_password r;
       u_role := u_role r; u_created_at := u_created_at r; u_updated_at := u_updated_at r |}
  else if bool_decide (col = "role") then
    {| u_id := u_id r; u_name := u_name r; u_email := u_email r; u_password := u_password r;
       u_role := v; u_created_at := u_created_at r; u_updated_at := u_updated_at r |}
  else r.

Definition set_updated_at (now : Z) (r : user_row) : user_row :=
  {| u_id := u_id r; u_name := u_name r; u_email := u_email r; u_password := u_password r;
     u_role := u_role r; u_created_at := u_created_at r; u_updated_at := now |}.

Definition apply_updates (now : Z) (updates : list (string * sqltext)) (r : user_row) : user_row :=
  set_updated_at now (foldl (fun r' cv => set_column cv.1 cv.2 r') r updates).

(** [UPDATE users SET ... WHERE id = $n RETURNING cols] *)
Definition update_returning (now : Z) (cols : list string) (updates : list (string * sqltext))
    (id : Z) (d : db) : js (list result_row) * db :=
  let updated := apply_updates now updates <$> filter (fun r => u_id r = id) (users d) in
  let others := filter (fun r => u_id r <> id) (users d) in
  match first_violation user_row_violation updated with
  | Some e => (Throw e, d)
  | None =>
      match first_violation (email_violation others) updated with
      | Some e => (Throw e, d)
      | None =>
          (Return (select cols <$> updated),
           with_users d ((fun r => if bool_decide (u_id r = id)
                                   then apply_updates now updates r else r) <$> users d))
      end
  end.

Definition update (now : Z) (id : id_param) (name email role : jsval) (d : db)
    : js (option result_row) * db :=
  let updates := [] in
  let updates := Task.push_if_defined "name" name updates in
  let updates := Task.push_if_defined "email" email updates in
  let updates := Task.push_if_defined "role" role updates in
  if bool_decide (length updates = 0%nat) then (Return None, d)
  else
    match prepare_update column_limit updates id with
    | Throw e => (Throw e, d)
    | Return (sets, id) =>
        let '(result, d') :=
          update_returning now ["id"; "name"; "email"; "role"; "updated_at"] sets id d in
        (Task.first_row result, d')
    end.

(** [DELETE FROM users WHERE id = $1 RETURNING id], with the cascade of the
    foreign key of [tasks]. *)
Definition delete (id : id_param) (d : db) : js (option result_row) * db :=
  match bind_int4 id with
  | Throw e => (Throw e, d)
  | Return id =>
      let deleted := filter (fun u => u_id u = id) (users d) in
      (Task.first_row (Return (select ["id"] <$> deleted)),
       {| users := filter (fun u => u_id u <> id) (users d);
          tasks := filter (fun t => t_user_id t <> id) (tasks d);
          users_id_seq := users_id_seq d; tasks_id_seq := tasks_id_seq d |})
  end.

End User.

(** ** utils/jwt.js *)

Module Jwt.

(** The registered claims [jwt.sign] adds to the payload, in seconds. *)
Record claims : Type := Claims {
  payload : principal;
  iat : Z;
  exp : Z
}.

(** A compact token, by its parts: the claims segment and the signature
    segment.  The header is the fixed [{alg: HS256, typ: JWT}]. *)
Record token : Type := Token {
  tk_claims : claims;
  tk_signature : string
}.

Section Jsonwebtoken.

(** The keyed hash of the library, and the text it is taken over (the
    encoded header and claims joined by a dot). *)
Variable hmac_sha256 : string -> string -> string.
Variable signing_input : claims -> string.

(** The reading of an [expiresIn] text by the library: the expiry, in
    seconds, of a token issued at [iat], or nothing for a text it cannot
    read as a time span (['24h'] is a day; digits alone count
    milliseconds). *)
Variable timespan : string -> Z -> option Z.

(** [process.env.JWT_SECRET] and [process.env.JWT_EXPIRE] *)
Variable env_JWT_SECRET : option string.
Variable env_JWT_EXPIRE : option string.

(** [process.env.X || fallback]: the fallback also replaces an empty value. *)
Definition env_or (v : option string) (fallback : string) : string :=
  match v with
  | Some EmptyString | None => fallback
  | Some s => s
  end.

Definition JWT_SECRET : string := env_or env_JWT_SECRET "your-super-secret-jwt-key".
Definition JWT_EXPIRE : string := env_or env_JWT_EXPIRE "24h".

(** [Math.floor(Date.now() / 1000)] *)
Definition clock_timestamp (now_ms : Z) : Z := now_ms / 1000.

(** [jwt.sign(payload, secret, { expiresIn })] at wall-clock time [now_ms]:
    it throws on an [expiresIn] the library cannot read. *)
Definition sign (now_ms : Z) (p : principal) (secret : string) (expiresIn : string)
    : js token :=
  let timestamp := clock_timestamp now_ms in
  match timespan expiresIn timestamp with
  | None => Throw InvalidTimespan
  | Some expiry =>
      let c := {| payload := p; iat := timestamp; exp := expiry |} in
      Return {| tk_claims := c; tk_signature := hmac_sha256 secret (signing_input c) |}
  end.

(** [jwt.verify(token, secret)]: the signature is recomputed and compared,
    then the expiry is checked against the clock; either failure throws. *)
Definition verify (now_ms : Z) (t : token) (secret : string) : js claims :=
  if negb (bool_decide (tk_signature t = hmac_sha256 secret (signing_input (tk_claims t))))
  then Throw JsonWebTokenError
  else if bool_decide (exp (tk_claims t) <= clock_timestamp now_ms)
  then Throw TokenExpiredError
  else Return (tk_claims t).

Definition generateToken (now_ms : Z) (p : principal) : js token :=
  sign now_ms p JWT_SECRET JWT_EXPIRE.

(** [try { return jwt.verify(token, JWT_SECRET) } catch (error) { return null }] *)
Definition verifyToken (now_ms : Z) (t : token) : option claims :=
  match verify now_ms t JWT_SECRET with
  | Return decoded => Some decoded
  | Throw error => None
  end.

End Jsonwebtoken.

End Jwt.

(** ** server.js *)

Module Server.

(** The options handed to [rateLimit]; the middleware itself, its store and
    its timers belong to the express-rate-limit package. *)
Record rate_limit_options : Type := RateLimitOptions {
  windowMs : Z;
  max : Z;
  message : string
}.

Definition limiter : rate_limit_options :=
  {| windowMs := 15 * 60 * 1000;
     max := 100;
     message := "Too many requests from this IP, please try again later." |}.

End Server.

(** ** The task card of the frontend *)

Module TaskCard.

Definition getPriorityColor (priority : string) : string :=
  if bool_decide (priority = "high") then "#ef4444"
  else if bool_decide (priority = "medium") then "#f59e0b"
  else if bool_decide (priority = "low") then "#10b981"
  else "#6b7280".

Definition getStatusColor (status : string) : string :=
  if bool_decide (status = "completed") then "#10b981"
  else if bool_decide (status = "in_progress") then "#3b82f6"
  else if bool_decide (status = "pending") then "#6b7280"
  else "#6b7280".

(** The class [\w] of a regular expression: the letters [a-z] and [A-Z],
    the digits and the underscore, and no character beyond these. *)
Definition is_word (c : ascii) : bool :=
  let n := N_of_ascii c in
  ((48 <=? n) && (n <=? 57) || (65 <=? n) && (n <=? 90) ||
   (97 <=? n) && (n <=? 122) || (n =? 95))%N.

(** One of the letters [a-z]. *)
Definition is_lower (c : ascii) : bool :=
  let n := N_of_ascii c in ((97 <=? n) && (n <=? 122))%N.

(** [l.toUpperCase()] on one character that [\w] matched: a letter [a-z]
    becomes the letter [A-Z], any other such character stays. *)
Definition toUpperCase (c : ascii) : ascii :=
  if is_lower c then ascii_of_N (N_of_ascii c - 32) else c.

(** [s.replace(from, to)] with a one-character string pattern: the first
    occurrence only. *)
Fixpoint replace_first (from to : ascii) (s : string) : string :=
  match s with
  | EmptyString => EmptyString
  | String c rest =>
      if Ascii.eqb c from then String to rest
      else String c (replace_first from to rest)
  end.

(** [s.replace(/\b\w/g, l => l.toUpperCase())]: a word character that
    follows no word character starts a word and is put in upper case;
    [after_word] tells whether the character before was a word character. *)
Fixpoint upcase_word_starts (after_word : bool) (s : string) : string :=
  match s with
  | EmptyString => EmptyString
  | String c rest =>
      String (if is_word c && negb after_word then toUpperCase c else c)
             (upcase_word_starts (is_word c) rest)
  end.

(** [task.status] is a cell of the [status] column, a text or [null]; the
    method call on [null] throws. *)
Definition formatStatus (status : sqltext) : js string :=
  match status with
  | None => Throw TypeError
  | Some status => Return (upcase_word_starts false (replace_first "_" " " status))
  end.

(** The number of underscores of a text. *)
Fixpoint underscores (s : string) : nat :=
  match s with
  | EmptyString => 0
  | String c rest => (if Ascii.eqb c "_" then 1 else 0) + underscores rest
  end.

(** The character before a position, if any, is a word character. *)
Definition follows_word (s : string) (i : nat) : bool :=
  match i with
  | O => false
  | S j => match String.get j s with Some c => is_word c | None => false end
  end.

(** The character at a position starts a word: it is a word character and
    follows none. *)
Definition starts_word (s : string) (i : nat) : bool :=
  match String.get i s with
  | Some c => is_word c && negb (follows_word s i)
  | None => false
  end.

(** The character at a position is the first underscore of the text. *)
Definition first_underscore (s : string) (i : nat) : bool :=
  match String.get i s with
  | Some c => Ascii.eqb c "_" && Nat.eqb (underscores (string_take i s)) 0
  | None => false
  end.

End TaskCard.

(** ** Integrity of the database *)

(** What the schema enforces on every state the statements above can
    reach: the primary keys, the foreign key of [tasks], the row constraints,
    the [UNIQUE] email, ids that the sequences have issued, and sequences
    within the type [INTEGER]. *)
Record db_ok (d : db) : Prop := DbOk {
  users_pkey : NoDup (u_id <$> users d);
  tasks_pkey : NoDup (t_id <$> tasks d);
  tasks_user_id_fkey : Forall (fun t => t_user_id t ∈ u_id <$> users d) (tasks d);
  users_id_issued : Forall (fun u => 1 <= u_id u <= users_id_seq d) (users d);
  tasks_id_issued : Forall (fun t => 1 <= t_id t <= tasks_id_seq d) (tasks d);
  users_id_seq_range : 0 <= users_id_seq d <= int4_max;
  tasks_id_seq_range : 0 <= tasks_id_seq d <= int4_max;
  tasks_rows_valid : Forall (fun t => task_row_violation t = None) (tasks d);
  users_rows_valid : Forall (fun u => user_row_violation u = None) (users d);
  users_email_key : NoDup (u_email <$> users d)
}.

#[global] Instance db_ok_dec (d : db) : Decision (db_ok d).
Proof.
  destruct (decide (NoDup (u_id <$> users d))); [|right; by intros []].
  destruct (decide (NoDup (t_id <$> tasks d))); [|right; by intros []].
  destruct (decide (Forall (fun t => t_user_id t ∈ u_id <$> users d) (tasks d)));
    [|right; by intros []].
  destruct (decide (Forall (fun u => 1 <= u_id u <= users_id_seq d) (users d)));
    [|right; by intros []].
  destruct (decide (Forall (fun t => 1 <= t_id t <= tasks_id_seq d) (tasks d)));
    [|right; by intros []].
  destruct (decide (0 <= users_id_seq d <= int4_max)); [|right; by intros []].
  destruct (decide (0 <= tasks_id_seq d <= int4_max)); [|right; by intros []].
  destruct (decide (Forall (fun t => task_row_violation t = None) (tasks d)));
    [|right; by intros []].
  destruct (decide (Forall (fun u => user_row_violation u = None) (users d)));
    [|right; by intros []].
  destruct (decide (NoDup (u_email <$> users d))); [|right; by intros []].
  left; by constructor.
Defined.

(** ** The authorization rule *)

(** Permit if the principal is an administrator or owns the resource. *)
Definition permitted (p : principal) (t : task_row) : Prop :=
  p_role p = "admin" \/ p_id p = t_user_id t.

#[global] Instance permitted_dec p t : Decision (permitted p t).
Proof. unfold permitted. apply _. Defined.

(** The id [id] is read as the id of a stored task, and the rule permits
    [p] on that task. *)
Definition accessible (d : db) (p : principal) (id : id_param) : Prop :=
  exists t, t ∈ tasks d /\ bind_int4 id = Return (t_id t) /\ permitted p t.

(** The id is an integer of the type [INTEGER]. *)
Definition id_readable (id : id_param) : Prop :=
  exists n, bind_int4 id = Return n.

(** The request names at least one of the four fields. *)
Definition has_updates (f : task_fields) : Prop :=
  title f <> JUndefined \/ description f <> JUndefined \/
  status f <> JUndefined \/ priority f <> JUndefined.

(** A value the server reads as a text: absent, [null], or a string
    without a NUL character. *)
Definition text_readable (v : jsval) : bool :=
  match v with
  | JString s => negb (has_nul s)
  | JUndefined | JNull => true
  end.

(** A value a [VARCHAR(n)] column takes: readable, and with nothing but
    spaces beyond the [n]-th character. *)
Definition varchar_accepts (n : nat) (v : jsval) : bool :=
  match v with
  | JString s => negb (has_nul s) && all_spaces (string_drop n s)
  | JUndefined | JNull => true
  end.

(** The cell a [VARCHAR(n)] column stores for a value it takes: the first
    [n] characters, which is the whole text when it has no more. *)
Definition stored (n : nat) (v : jsval) : sqltext :=
  match v with
  | JString s => Some (string_take n s)
  | JUndefined | JNull => None
  end.

(** The four fields of a request are values their columns take. *)
Definition storable (f : task_fields) : Prop :=
  varchar_accepts 255 (title f) = true /\
  text_readable (description f) = true /\
  varchar_accepts 50 (status f) = true /\
  varchar_accepts 50 (priority f) = true.

(** The values of the request pass the constraints of [tasks]: a title that
    is not [null] and that the column takes, a readable description, and a
    status and a priority that are absent, [null] or allowed. *)
Definition valid_values (f : task_fields) : Prop :=
  title f <> JNull /\
  varchar_accepts 255 (title f) = true /\
  text_readable (description f) = true /\
  check_in task_statuses (sql_param (status f)) = true /\
  check_in task_priorities (sql_param (priority f)) = true.

#[global] Instance accessible_dec (d : db) (p : principal) (id : id_param) :
  Decision (accessible d p id).
Proof.
  refine (cast_if (decide (Exists (fun t => bind_int4 id = Return (t_id t) /\ permitted p t)
                             (tasks d))));
    unfold accessible; rewrite Exists_exists in *; naive_solver.
Defined.

#[global] Instance id_readable_dec (id : id_param) : Decision (id_readable id).
Proof.
  refine (cast_if (decide (is_Some (match bind_int4 id with Return n => Some n | Throw _ => None end))));
    unfold id_readable; destruct (bind_int4 id); rewrite ?is_Some_alt in *; naive_solver.
Defined.

#[global] Instance has_updates_dec (f : task_fields) : Decision (has_updates f).
Proof. unfold has_updates. apply _. Defined.

#[global] Instance storable_dec (f : task_fields) : Decision (storable f).
Proof. unfold storable. apply _. Defined.

#[global] Instance valid_values_dec (f : task_fields) : Decision (valid_values f).
Proof. unfold valid_values. apply _. Defined.

(** The two not-found answers of the controller. *)
Definition update_not_found : response :=
  json_fail 404 "Task not found or you do not have permission to update it" None.

Definition delete_not_found : response :=
  json_fail 404 "Task not found or you do not have permission to delete it" None.

(** The partial update as the specification words it: a field present in
    the request takes the request's value, as its column stores it, an
    omitted field keeps the stored one, and [updated_at] becomes the current
    time. *)
Definition patch_field (store : string -> string) (v : jsval) (old : sqltext) : sqltext :=
  match v with
  | JUndefined => old
  | JNull => None
  | JString s => Some (store s)
  end.

Definition patched (now : Z) (f : task_fields) (t : task_row) : task_row :=
  {| t_id := t_id t;
     t_title := patch_field (string_take 255) (title f) (t_title t);
     t_description := patch_field (fun s => s) (description f) (t_description t);
     t_status := patch_field (string_take 50) (status f) (t_status t);
     t_priority := patch_field (string_take 50) (priority f) (t_priority t);
     t_user_id := t_user_id t;
     t_created_at := t_created_at t;
     t_updated_at := now |}.

(** The [SET] list of an update once its values are cut to the column
    types. *)
Definition stored_updates (f : task_fields) : list (string * sqltext) :=
  (if is_defined (title f) then [("title", stored 255 (title f))] else []) ++
  (if is_defined (description f) then [("description", sql_param (description f))] else []) ++
  (if is_defined (status f) then [("status", stored 50 (status f))] else []) ++
  (if is_defined (priority f) then [("priority", stored 50 (priority f))] else []).

(** ** A small database for the examples *)

Definition demo_user (id : Z) (name email role : string) (at_ : Z) : user_row :=
  {| u_id := id; u_name := Some name; u_email := Some email;
     u_password := Some "$2a$10$N9qo8uLOickgx2ZMRZoMye"; u_role := Some role;
     u_created_at := at_; u_updated_at := at_ |}.

Definition demo_task (id : Z) (ttl st prio : string) (owner at_ : Z) : task_row :=
  {| t_id := id; t_title := Some ttl; t_description := None; t_status := Some st;
     t_priority := Some prio; t_user_id := owner; t_created_at := at_; t_updated_at := at_ |}.

(** Two members, one administrator, three tasks. *)
Definition demo_db : db :=
  {| users := [ demo_user 1 "Alice" "alice@x.com" "user" 10;
                demo_user 2 "Bob" "bob@x.com" "user" 20;
                demo_user 3 "Root" "root@x.com" "admin" 30 ];
     tasks := [ demo_task 1 "write report" "pending" "high" 1 100;
                demo_task 2 "fix login" "in_progress" "medium" 2 200;
                demo_task 3 "call client" "completed" "low" 1 300 ];
     users_id_seq := 3;
     tasks_id_seq := 3 |}.

Definition alice : principal := {| p_id := 1; p_role := "user" |}.
Definition bob : principal := {| p_id := 2; p_role := "user" |}.
Definition root : principal := {| p_id := 3; p_role := "admin" |}.

Definition no_fields : task_fields :=
  {| title := JUndefined; description := JUndefined;
     status := JUndefined; priority := JUndefined |}.

Definition status_only (s : string) : task_fields :=
  {| title := JUndefined; description := JUndefined;
     status := JString s; priority := JUndefined |}.

Definition title_only (s : string) : task_fields :=
  {| title := JString s; description := JUndefined;
     status := JUndefined; priority := JUndefined |}.

(** A text of [n] letters. *)
Fixpoint letters (n : nat) : string :=
  match n with
  | O => EmptyString
  | S n' => String "a" (letters n')
  end.

(** The row a create request asks for, with the id the sequence issues:
    owned by the principal, [pending] and [medium] where the request leaves
    status and priority out, each text as its column stores it. *)
Definition created (now : Z) (f : task_fields) (owner : Z) (id : Z) : task_row :=
  {| t_id := id;
     t_title := stored 255 (title f);
     t_description := sql_param (description f);
     t_status := match status f with JUndefined => Some "pending" | v => stored 50 v end;
     t_priority := match priority f with JUndefined => Some "medium" | v => stored 50 v end;
     t_user_id := owner;
     t_created_at := now;
     t_updated_at := now |}.

(** A create request the table accepts: a string title that the column
    takes, a readable description, and a status and a priority that are
    absent, [null] or allowed. *)
Definition valid_new (f : task_fields) : Prop :=
  (exists s, title f = JString s) /\
  varchar_accepts 255 (title f) = true /\
  text_readable (description f) = true /\
  check_in task_statuses (sql_param (status f)) = true /\
  check_in task_priorities (sql_param (priority f)) = true.

(** A result row that shows exactly the columns [cols] and no password. *)
Definition shows_only (cols : list string) (row : result_row) : Prop :=
  dom row = list_to_set cols /\ row !! "password" = None.

(** A stand-in for the library hash in the examples: the modular-crypt
    prefix, the salt, and the plaintext reversed. *)
Definition demo_hash (plain : string) (rounds : Z) (salt : string) : string :=
  "$2a$10$" +:+ salt +:+ String.string_of_list_ascii (rev (String.list_ascii_of_string plain)).

(** Stand-ins for the keyed hash and the token encoding in the examples. *)
Definition demo_hmac (key message : string) : string := key +:+ "/" +:+ message.

Definition demo_signing_input (c : Jwt.claims) : string :=
  pretty (p_id (Jwt.payload c)) +:+ "." +:+ p_role (Jwt.payload c) +:+ "." +:+
  pretty (Jwt.iat c) +:+ "." +:+ pretty (Jwt.exp c).

(** A stand-in for the reading of time spans in the examples: it knows
    ['24h'] and ['1h'], and digits alone as milliseconds are left out. *)
Definition demo_timespan (text : string) (iat : Z) : option Z :=
  if bool_decide (text = "24h") then Some (iat + 86400)
  else if bool_decide (text = "1h") then Some (iat + 3600)
  else None.

(** ** Runs of the store *)

(** The calls that write to the database. *)
Inductive call : Type :=
  | CallCreateTask (now : Z) (req : request)
  | CallUpdateTask (now : Z) (req : request)
  | CallDeleteTask (req : request)
  | CallUserCreate (now : Z) (salt : string) (name email password role : jsval)
  | CallUserUpdate (now : Z) (id : id_param) (name email role : jsval)
  | CallUserDelete (id : id_param).

Definition run (bcrypt_hash : string -> Z -> string -> string) (c : call) (d : db) : db :=
  match c with
  | CallCreateTask now req => (createTask now req d).2
  | CallUpdateTask now req => (updateTask now req d).2
  | CallDeleteTask req => (deleteTask req d).2
  | CallUserCreate now salt name email password role =>
      (User.create bcrypt_hash now salt name email password role d).2
  | CallUserUpdate now id name email role => (User.update now id name email role d).2
  | CallUserDelete id => (User.delete id d).2
  end.

(** The database right after the migration. *)
Definition empty_db : db :=
  {| users := []; tasks := []; users_id_seq := 0; tasks_id_seq := 0 |}.

(** The states a sequence of calls can lead to. *)
Inductive reachable (bcrypt_hash : string -> Z -> string -> string) : db -> Prop :=
  | reachable_empty : reachable bcrypt_hash empty_db
  | reachable_call (d : db) (c : call) :
      reachable bcrypt_hash d -> reachable bcrypt_hash (run bcrypt_hash c d).

(** The three reading handlers answer a request the same way on two
    databases. *)
Definition same_answers (req : request) (d d' : db) : Prop :=
  getAllTasks req d' = getAllTasks req d /\
  getTaskById req d' = getTaskById req d /\
  getTaskStats req d' = getTaskStats req d.

(** The password cell of a user row is an output of the library hash at
    cost 10, as the [VARCHAR(255)] column stores it: the output itself when
    it has at most 255 characters, as the 60 characters of a bcrypt hash. *)
Definition password_hashed (bcrypt_hash : string -> Z -> string -> string)
    (u : user_row) : Prop :=
  exists plain salt,
    u_password u = Some (string_take 255 (bcrypt_hash plain 10 salt)) /\
    ((String.length (bcrypt_hash plain 10%Z salt) <= 255)%nat ->
     u_password u = Some (bcrypt_hash plain 10 salt)).

(** A short run for the examples: Carol registers, then creates a task. *)
Definition demo_run : list call :=
  [ CallUserCreate 10 "N9qo8uLOickgx2ZMRZoMye"
      (JString "Carol") (JString "carol@x.com") (JString "secret1") JUndefined;
    CallCreateTask 20
      {| user := {| p_id := 1; p_role := "user" |}; params_id := 0;
         body := {| title := JString "plan sprint"; description := JUndefined;
                    status := JUndefined; priority := JString "high" |} |} ].

Definition run_all (bcrypt_hash : string -> Z -> string -> string)
    (cs : list call) (d : db) : db :=
  foldl (fun d' c => run bcrypt_hash c d') d cs.

(** The user row a partial update asks for: name, email and role taken
    from the request where it names them, as their columns store them,
    [updated_at] set, the rest kept. *)
Definition user_patched (now : Z) (name email role : jsval) (u : user_row) : user_row :=
  {| u_id := u_id u;
     u_name := patch_field (string_take 255) name (u_name u);
     u_email := patch_field (string_take 255) email (u_email u);
     u_password := u_password u;
     u_role := patch_field (string_take 50) role (u_role u);
     u_created_at := u_created_at u;
     u_updated_at := now |}.

(** The name, email and role of a request are values their columns take. *)
Definition user_storable (name email role : jsval) : Prop :=
  varchar_accepts 255 name = true /\
  varchar_accepts 255 email = true /\
  varchar_accepts 50 role = true.

#[global] Instance user_storable_dec (name email role : jsval) :
  Decision (user_storable name email role).
Proof. unfold user_storable. apply _. Defined.

(** The [SET] list of a user update once its values are cut to the column
    types. *)
Definition user_stored_updates (name email role : jsval) : list (string * sqltext) :=
  (if is_defined name then [("name", stored 255 name)] else []) ++
  (if is_defined email then [("email", stored 255 email)] else []) ++
  (if is_defined role then [("role", stored 50 role)] else []).

(** * Properties *)

(** ** Texts and the parameters of a statement *)

Lemma string_take_all (n : nat) (s : string) :
  (String.length s <= n)%nat -> string_take n s = s.
Proof.
  revert n. induction s as [|c s IH]; intros [|n] Hlen; simpl in *; try done; try lia.
  f_equal. apply IH. lia.
Qed.

Lemma string_take_length (n : nat) (s : string) :
  (String.length (string_take n s) <= n)%nat.
Proof.
  revert n. induction s as [|c s IH]; intros [|n]; simpl; try lia.
  specialize (IH n). lia.
Qed.

(** A text that was cut has all [n] characters. *)
Lemma string_take_short (n : nat) (s : string) :
  (String.length (string_take n s) < n)%nat -> string_take n s = s.
Proof.
  revert n. induction s as [|c s IH]; intros [|n] Hlen; simpl in *; try done; try lia.
  f_equal. apply IH. lia.
Qed.

Lemma string_drop_all (n : nat) (s : string) :
  (String.length s <= n)%nat -> string_drop n s = EmptyString.
Proof.
  revert n. induction s as [|c s IH]; intros [|n] Hlen; simpl in *; try done; try lia.
  apply IH. lia.
Qed.

Lemma string_take_idemp (n : nat) (s : string) :
  string_take n (string_take n s) = string_take n s.
Proof. apply string_take_all, string_take_length. Qed.

Lemma string_drop_take (n : nat) (s : string) :
  string_drop n (string_take n s) = EmptyString.
Proof. apply string_drop_all, string_take_length. Qed.

Lemma has_nul_take (n : nat) (s : string) :
  has_nul s = false -> has_nul (string_take n s) = false.
Proof.
  revert n. induction s as [|c s IH]; intros [|n]; simpl; try done.
  intros [-> Hs]%orb_false_iff. simpl. by apply IH.
Qed.

#[global] Arguments string_take : simpl never.
#[global] Arguments string_drop : simpl never.

(** A text within the limit is a value the column takes and stores as it
    is. *)
Lemma varchar_accepts_short (n : nat) (s : string) :
  has_nul s = false -> (String.length s <= n)%nat ->
  varchar_accepts n (JString s) = true /\ stored n (JString s) = Some s.
Proof.
  intros Hnul Hlen. simpl. by rewrite Hnul, string_drop_all, string_take_all.
Qed.

Lemma varchar_accepts_readable (n : nat) (v : jsval) :
  varchar_accepts n v = true -> text_readable v = true.
Proof. destruct v; simpl; [done|done|]. by intros [? _]%andb_true_iff. Qed.

Lemma varchar_cell_stored (n : nat) (v : jsval) : varchar_cell n (stored n v) = true.
Proof.
  destruct v; simpl; [done|done|]. apply bool_decide_eq_true, string_take_length.
Qed.

(** The stored form of a value the column takes is again such a value, and
    is stored as it is. *)
Lemma stored_again (n : nat) (v : jsval) (s : string) :
  varchar_accepts n v = true -> stored n v = Some s ->
  varchar_accepts n (JString s) = true /\ stored n (JString s) = Some s.
Proof.
  destruct v as [| |s0]; simpl; [done|done|].
  intros [Hnul _]%andb_true_iff [= <-].
  rewrite string_drop_take, string_take_idemp, has_nul_take; [done|].
  by destruct (has_nul s0).
Qed.

(** A list of allowed values, all shorter than the column: a value is
    allowed exactly when its stored form is. *)
Lemma check_in_stored (n : nat) (allowed : list string) (v : jsval) :
  Forall (fun a => (String.length a < n)%nat) allowed ->
  check_in allowed (stored n v) = check_in allowed (sql_param v).
Proof.
  intros Hall. destruct v as [| |s]; simpl; [done|done|].
  apply bool_decide_ext. rewrite Forall_forall in Hall. split; intros Hin.
  - rewrite <- (string_take_short n s); [done|].
    by apply Hall.
  - rewrite string_take_all; [done|]. apply Hall in Hin. lia.
Qed.

Lemma check_in_allowed_accepts (n : nat) (allowed : list string) (v : jsval) :
  Forall (fun a => has_nul a = false /\ (String.length a <= n)%nat) allowed ->
  check_in allowed (sql_param v) = true -> varchar_accepts n v = true.
Proof.
  intros Hall. destruct v as [| |s]; simpl; [done|done|].
  intros Hin%bool_decide_eq_true. rewrite Forall_forall in Hall.
  destruct (Hall s Hin) as [-> Hlen]. by rewrite string_drop_all.
Qed.

Lemma task_statuses_short :
  Forall (fun a => (String.length a < 50)%nat) task_statuses /\
  Forall (fun a => has_nul a = false /\ (String.length a <= 50)%nat) task_statuses.
Proof. split; repeat constructor; simpl; lia. Qed.

Lemma task_priorities_short :
  Forall (fun a => (String.length a < 50)%nat) task_priorities /\
  Forall (fun a => has_nul a = false /\ (String.length a <= 50)%nat) task_priorities.
Proof. split; repeat constructor; simpl; lia. Qed.

Lemma user_roles_short :
  Forall (fun a => (String.length a < 50)%nat) user_roles /\
  Forall (fun a => has_nul a = false /\ (String.length a <= 50)%nat) user_roles.
Proof. split; repeat constructor; simpl; lia. Qed.

Lemma valid_values_storable (f : task_fields) : valid_values f -> storable f.
Proof.
  intros (_ & Ht & Hd & Hs & Hp). repeat split; [done|done| |].
  - by apply (check_in_allowed_accepts 50 task_statuses), Hs; apply task_statuses_short.
  - by apply (check_in_allowed_accepts 50 task_priorities), Hp; apply task_priorities_short.
Qed.

Lemma bind_text_readable (v : jsval) :
  bind_text v = if text_readable v then Return (sql_param v) else Throw CharacterNotInRepertoire.
Proof. destruct v as [| |s]; simpl; [done|done|]. by destruct (has_nul s). Qed.

Lemma bind_int4_readable (id : id_param) (n : Z) :
  bind_int4 id = Return n <-> id = IntegerText n /\ in_int4 n = true.
Proof.
  destruct id as [m|]; simpl.
  - destruct (in_int4 m) eqn:Hm; split.
    + intros [= ->]. done.
    + by intros [[= ->] _].
    + done.
    + intros [[= ->] Hn]. congruence.
  - split; [done | by intros [? _]].
Qed.

Lemma bind_int4_stored (n : Z) : in_int4 n = true -> bind_int4 n = Return n.
Proof. intros Hn. simpl. by rewrite Hn. Qed.

(** What the parameters of the [INSERT] of a task come to. *)
Lemma task_prepare_insert_spec (ttl descr st prio : jsval) :
  match Task.prepare_insert ttl descr st prio with
  | Return x =>
      (varchar_accepts 255 ttl = true /\ text_readable descr = true /\
       varchar_accepts 50 st = true /\ varchar_accepts 50 prio = true) /\
      x = (stored 255 ttl, sql_param descr, stored 50 st, stored 50 prio)
  | Throw _ =>
      ~ (varchar_accepts 255 ttl = true /\ text_readable descr = true /\
         varchar_accepts 50 st = true /\ varchar_accepts 50 prio = true)
  end.
Proof.
  unfold Task.prepare_insert.
  destruct ttl as [| |ttl], descr as [| |descr], st as [| |st], prio as [| |prio];
    cbn -[string_take string_drop];
    repeat match goal with
      | |- context [has_nul ?s] => destruct (has_nul s); cbn -[string_take string_drop]
      | |- context [all_spaces ?s] => destruct (all_spaces s); cbn -[string_take string_drop]
      end; naive_solver.
Qed.

Lemma task_assign_title (v : sqltext) :
  assign_set Task.column_limit ("title", v) = (v' ← to_varchar 255 v; mret ("title", v')).
Proof. reflexivity. Qed.

Lemma task_assign_description (v : sqltext) :
  assign_set Task.column_limit ("description", v) = Return ("description", v).
Proof. reflexivity. Qed.

Lemma task_assign_status (v : sqltext) :
  assign_set Task.column_limit ("status", v) = (v' ← to_varchar 50 v; mret ("status", v')).
Proof. reflexivity. Qed.

Lemma task_assign_priority (v : sqltext) :
  assign_set Task.column_limit ("priority", v) = (v' ← to_varchar 50 v; mret ("priority", v')).
Proof. reflexivity. Qed.

(** What the parameters of the [UPDATE] of a task come to. *)
Lemma task_prepare_update_spec (f : task_fields) (id : id_param) :
  match prepare_update Task.column_limit (Task.collect_updates f) id with
  | Return (sets, n) => storable f /\ bind_int4 id = Return n /\ sets = stored_updates f
  | Throw _ => ~ storable f \/ ~ id_readable id
  end.
Proof.
  unfold prepare_update, storable, stored_updates, id_readable.
  destruct (bind_int4 id) as [n|e];
  destruct f as [[| |ttl] [| |descr] [| |st] [| |prio]];
    cbn -[string_take string_drop assign_set];
    repeat match goal with
      | |- context [has_nul ?s] =>
          destruct (has_nul s); cbn -[string_take string_drop assign_set]
      end;
    rewrite ?task_assign_title, ?task_assign_description, ?task_assign_status,
      ?task_assign_priority;
    cbn -[string_take string_drop];
    repeat match goal with
      | |- context [all_spaces ?s] => destruct (all_spaces s); cbn -[string_take string_drop]
      end;
    first [ by repeat split
          | left; by intros (? & ? & ? & ?)
          | right; by intros [? ?] ].
Qed.

(** ** Lists with a key *)

Section keyed.
Context {A K : Type} `{EqDecision K} (key : A -> K).

Lemma filter_key_miss (P : A -> Prop) `{forall x, Decision (P x)} (l : list A) :
  (forall x, x ∈ l -> ~ P x) -> filter P l = [].
Proof.
  induction l as [|a l IH]; intros Hno; [done|].
  rewrite filter_cons_False; [|apply Hno; left].
  apply IH. intros x Hx. apply Hno. by right.
Qed.

Lemma filter_key_hit (P : A -> Prop) `{forall x, Decision (P x)} (l : list A) (x : A) :
  NoDup (key <$> l) -> x ∈ l -> P x -> (forall y, y ∈ l -> P y -> key y = key x) ->
  filter P l = [x].
Proof.
  induction l as [|a l IH]; intros Hnd Hin HP Hkey; [by apply elem_of_nil in Hin|].
  rewrite fmap_cons in Hnd. apply NoDup_cons in Hnd as [Hfresh Hnd].
  apply elem_of_cons in Hin as [->|Hin].
  - rewrite filter_cons_True by done. f_equal.
    apply filter_key_miss. intros y Hy HPy. apply Hfresh.
    rewrite <- (Hkey y); [by apply list_elem_of_fmap_2 | by right | done].
  - rewrite filter_cons_False.
    + apply IH; try done. intros y Hy. apply Hkey. by right.
    + intros HPa. apply Hfresh. rewrite (Hkey a); [by apply list_elem_of_fmap_2 | left | done].
Qed.

End keyed.

(** ** The join of tasks with their owners *)

Lemma filter_fmap_tv_task (P : task_row -> Prop) `{forall t, Decision (P t)}
    (vs : list task_view) :
  tv_task <$> filter (fun v => P (tv_task v)) vs = filter P (tv_task <$> vs).
Proof.
  induction vs as [|v vs IH]; [done|].
  rewrite fmap_cons. destruct (decide (P (tv_task v))) as [HP|HP].
  - rewrite !filter_cons_True by done. rewrite fmap_cons. by f_equal.
  - by rewrite !filter_cons_False by done.
Qed.

Section join.
Context (d : db) (Hok : db_ok d).

(** Under the foreign key and the primary key of [users], a task joins with
    exactly one user row: its owner's. *)
Lemma join_users_owner (t : task_row) :
  t ∈ tasks d ->
  exists u, u ∈ users d /\ u_id u = t_user_id t /\
    Task.join_users (users d) t =
      [ {| tv_task := t; tv_user_name := u_name u; tv_user_email := u_email u |} ].
Proof.
  intros Hin.
  pose proof (tasks_user_id_fkey d Hok) as Hfk.
  rewrite Forall_forall in Hfk. apply Hfk in Hin as Hown.
  apply list_elem_of_fmap in Hown as (u & Hid & Hu).
  exists u. split; [done|]. split; [done|].
  unfold Task.join_users.
  rewrite (filter_key_hit u_id _ (users d) u); [done| |done|done|].
  - apply (users_pkey d Hok).
  - intros y _ Hy. congruence.
Qed.

Lemma tasks_join_users_tasks : tv_task <$> Task.tasks_join_users d = tasks d.
Proof.
  unfold Task.tasks_join_users.
  assert (Hsub : forall t, t ∈ tasks d -> t ∈ tasks d) by done.
  revert Hsub. generalize (tasks d) at 1 3 4 as ts.
  induction ts as [|t ts IH]; intros Hsub; [done|].
  rewrite bind_cons, fmap_app, IH by (intros; apply Hsub; by right).
  destruct (join_users_owner t) as (u & _ & _ & ->); [apply Hsub; left|done].
Qed.

Lemma findAll_returns (userId : Z) (isAdmin : bool) :
  exists vs, Task.findAll userId isAdmin d = Return vs /\
    tv_task <$> vs ≡ₚ
      (if isAdmin then tasks d else filter (fun t => t_user_id t = userId) (tasks d)) /\
    StronglySorted Task.created_desc vs.
Proof.
  unfold Task.findAll. eexists. split; [done|]. split.
  - rewrite merge_sort_Permutation. destruct isAdmin; simpl.
    + by rewrite tasks_join_users_tasks.
    + pose proof (filter_fmap_tv_task (fun t => t_user_id t = userId)
                    (Task.tasks_join_users d)) as Hf.
      simpl in Hf. by rewrite Hf, tasks_join_users_tasks.
  - apply StronglySorted_merge_sort.
    + intros x y z. unfold Task.created_desc. lia.
    + intros x y. unfold Task.created_desc. lia.
Qed.

End join.

(** ** The single-task statements *)

Lemma where_id_true (id userId : Z) (isAdmin : bool) (r : task_row) :
  Task.where_id id userId isAdmin r = true <->
  t_id r = id /\ (isAdmin = true \/ t_user_id r = userId).
Proof.
  unfold Task.where_id. rewrite andb_true_iff, bool_decide_eq_true.
  destruct isAdmin; simpl; [|rewrite bool_decide_eq_true]; naive_solver.
Qed.

(** The rule of the controllers, [isAdmin_of], is the authorization rule. *)
Lemma where_id_permitted (req : request) (id : Z) (r : task_row) :
  Task.where_id id (p_id (user req)) (isAdmin_of req) r = true <->
  t_id r = id /\ permitted (user req) r.
Proof.
  rewrite where_id_true. unfold isAdmin_of, permitted.
  rewrite bool_decide_eq_true. naive_solver.
Qed.

Lemma collect_updates_nil (f : task_fields) :
  Task.collect_updates f = [] <-> ~ has_updates f.
Proof.
  unfold has_updates. destruct f as [[| |?] [| |?] [| |?] [| |?]]; simpl;
    (split; [intros Hnil; try discriminate Hnil; naive_solver | naive_solver]).
Qed.

Lemma task_prepare_update_ok (f : task_fields) (id : id_param) (n : Z) :
  storable f -> bind_int4 id = Return n ->
  prepare_update Task.column_limit (Task.collect_updates f) id = Return (stored_updates f, n).
Proof.
  intros Hst Hid. pose proof (task_prepare_update_spec f id) as Hspec.
  destruct (prepare_update _ _ _) as [[sets m]|e].
  - destruct Hspec as (_ & Hm & ->). congruence.
  - destruct Hspec as [Hno|Hno]; [done|]. exfalso. apply Hno. by exists n.
Qed.

Lemma task_prepare_update_fail (f : task_fields) (id : id_param) :
  ~ storable f \/ ~ id_readable id ->
  exists e, prepare_update Task.column_limit (Task.collect_updates f) id = Throw e.
Proof.
  intros Hno. pose proof (task_prepare_update_spec f id) as Hspec.
  destruct (prepare_update _ _ _) as [[sets m]|e]; [|by exists e].
  destruct Hspec as (Hst & Hm & _). destruct Hno as [Hno|Hno]; [done|].
  exfalso. apply Hno. by exists m.
Qed.

Lemma apply_updates_patched (now : Z) (f : task_fields) (t : task_row) :
  Task.apply_updates now (stored_updates f) t = patched now f t.
Proof. destruct f as [[| |?] [| |?] [| |?] [| |?]]; reflexivity. Qed.

(** A row passes when each of its checks does. *)
Lemma first_of_None (checks : list (bool * exn)) :
  first_of checks = None <-> Forall (fun c => c.1 = true) checks.
Proof.
  induction checks as [|[ok e] checks IH]; simpl; [by split; [constructor|]|].
  rewrite Forall_cons. destruct ok; simpl; [by rewrite IH; naive_solver|].
  split; [done | by intros [? _]].
Qed.

Lemma task_row_valid (r : task_row) :
  task_row_violation r = None <->
  varchar_cell 255 (t_title r) = true /\ varchar_cell 50 (t_status r) = true /\
  varchar_cell 50 (t_priority r) = true /\ is_Some (t_title r) /\
  check_in task_priorities (t_priority r) = true /\
  check_in task_statuses (t_status r) = true.
Proof.
  unfold task_row_violation. rewrite first_of_None, !Forall_cons, Forall_nil. simpl.
  rewrite bool_decide_eq_true. naive_solver.
Qed.

Lemma user_row_valid (r : user_row) :
  user_row_violation r = None <->
  varchar_cell 255 (u_name r) = true /\ varchar_cell 255 (u_email r) = true /\
  varchar_cell 255 (u_password r) = true /\ varchar_cell 50 (u_role r) = true /\
  is_Some (u_name r) /\ is_Some (u_email r) /\ is_Some (u_password r) /\
  check_in user_roles (u_role r) = true.
Proof.
  unfold user_row_violation. rewrite first_of_None, !Forall_cons, Forall_nil. simpl.
  rewrite !bool_decide_eq_true. naive_solver.
Qed.

Lemma patch_field_cell (n : nat) (v : jsval) (old : sqltext) :
  varchar_cell n old = true -> varchar_cell n (patch_field (string_take n) v old) = true.
Proof.
  destruct v; simpl; [done|done|]. intros _. apply bool_decide_eq_true, string_take_length.
Qed.

Lemma patch_field_is_Some (store : string -> string) (v : jsval) (old : sqltext) :
  is_Some old -> is_Some (patch_field store v old) <-> v <> JNull.
Proof.
  destruct v; simpl; [done| |done]. intros _. split; [by intros [? ?]|done].
Qed.

Lemma patch_field_check (n : nat) (allowed : list string) (v : jsval) (old : sqltext) :
  Forall (fun a => (String.length a < n)%nat) allowed ->
  check_in allowed old = true ->
  check_in allowed (patch_field (string_take n) v old) = true <->
  check_in allowed (sql_param v) = true.
Proof.
  intros Hall Hold. destruct v as [| |s]; [done|done|].
  by rewrite <- (check_in_stored n allowed (JString s)).
Qed.

Lemma patched_valid (now : Z) (f : task_fields) (t : task_row) :
  task_row_violation t = None -> storable f ->
  task_row_violation (patched now f t) = None <-> valid_values f.
Proof.
  rewrite !task_row_valid. intros (Hc1 & Hc2 & Hc3 & Hsome & Hpr & Hst) (Ha & Hd & _ & _).
  unfold valid_values, patched. cbn [t_title t_status t_priority].
  rewrite (patch_field_is_Some _ _ _ Hsome).
  rewrite (patch_field_check 50 _ _ _ (proj1 task_statuses_short) Hst).
  rewrite (patch_field_check 50 _ _ _ (proj1 task_priorities_short) Hpr).
  pose proof (patch_field_cell 255 (title f) _ Hc1).
  pose proof (patch_field_cell 50 (status f) _ Hc2).
  pose proof (patch_field_cell 50 (priority f) _ Hc3).
  naive_solver.
Qed.

Lemma key_inj {A K : Type} `{EqDecision K} (key : A -> K) (l : list A) (x y : A) :
  NoDup (key <$> l) -> x ∈ l -> y ∈ l -> key y = key x -> y = x.
Proof.
  intros Hnd Hx Hy Hk.
  assert (Hf : filter (fun z => key z = key x) l = [x])
    by (apply (filter_key_hit key); done).
  assert (Hin : y ∈ filter (fun z => key z = key x) l)
    by (apply list_elem_of_filter; done).
  rewrite Hf in Hin. by apply list_elem_of_singleton in Hin.
Qed.

Lemma filter_ext_elem {A : Type} (P Q : A -> Prop)
    `{forall x, Decision (P x)} `{forall x, Decision (Q x)} (l : list A) :
  (forall x, x ∈ l -> P x <-> Q x) -> filter P l = filter Q l.
Proof.
  induction l as [|a l IH]; intros Hext; [done|].
  rewrite !filter_cons.
  destruct (decide (P a)) as [HP|HP], (decide (Q a)) as [HQ|HQ].
  - f_equal. apply IH. intros x Hx. apply Hext. by right.
  - exfalso. apply HQ, Hext; [left|done].
  - exfalso. apply HP, Hext; [left|done].
  - apply IH. intros x Hx. apply Hext. by right.
Qed.

Lemma filter_all {A : Type} (P : A -> Prop) `{forall x, Decision (P x)} (l : list A) :
  (forall x, x ∈ l -> P x) -> filter P l = l.
Proof.
  induction l as [|a l IH]; intros Hall; [done|].
  rewrite filter_cons_True by (apply Hall; left).
  f_equal. apply IH. intros x Hx. apply Hall. by right.
Qed.

Lemma Forall_filter_keeps {A : Type} (P Q : A -> Prop) `{forall x, Decision (P x)}
    (l : list A) :
  Forall Q l -> Forall Q (filter P l).
Proof.
  rewrite !Forall_forall. intros Hall x [_ Hx]%list_elem_of_filter. by apply Hall.
Qed.

Lemma fmap_ext_elem {A B : Type} (g h : A -> B) (l : list A) :
  (forall x, x ∈ l -> g x = h x) -> g <$> l = h <$> l.
Proof.
  induction l as [|a l IH]; intros Hext; [done|].
  rewrite !fmap_cons. f_equal; [apply Hext; left|].
  apply IH. intros x Hx. apply Hext. by right.
Qed.

Lemma with_tasks_same (d : db) : with_tasks d (tasks d) = d.
Proof. by destruct d. Qed.

Section single.
Context (d : db) (Hok : db_ok d).
Context (idp : id_param) (id userId : Z) (isAdmin : bool).
Context (Hid : bind_int4 idp = Return id).

Local Abbreviation where_ := (Task.where_id id userId isAdmin).

(** A task the [WHERE] clause selects is the only one it selects. *)
Lemma where_id_selects_one (t : task_row) :
  t ∈ tasks d -> where_ t = true ->
  filter (fun r => where_ r = true) (tasks d) = [t].
Proof.
  intros Hin Hw. apply (filter_key_hit t_id); try done.
  - apply (tasks_pkey d Hok).
  - intros y _ Hy. apply where_id_true in Hy as [-> _].
    by apply where_id_true in Hw as [-> _].
Qed.

Lemma where_id_selects_none :
  (forall t, t ∈ tasks d -> where_ t <> true) ->
  filter (fun r => where_ r = true) (tasks d) = [].
Proof. intros Hno. by apply filter_key_miss. Qed.

(** Among the stored rows, the selected row is the one with that id. *)
Lemma where_id_is_id (t r : task_row) :
  t ∈ tasks d -> where_ t = true -> r ∈ tasks d ->
  where_ r = true <-> t_id r = id.
Proof.
  intros Hin Hw Hr. split; [by intros [? _]%where_id_true|].
  intros Hid'. apply where_id_true in Hw as Hw'. destruct Hw' as [Hid'' _].
  assert (r = t) as -> by (apply (key_inj t_id (tasks d)); [apply Hok|done|done|congruence]).
  done.
Qed.

Lemma findById_hit (t : task_row) :
  t ∈ tasks d -> where_ t = true ->
  exists v, Task.findById idp userId isAdmin d = Return (Some v) /\
    tv_task v = t /\ v ∈ Task.tasks_join_users d.
Proof.
  intros Hin Hw. unfold Task.findById. rewrite Hid. cbn [mbind js_bind].
  pose proof (filter_fmap_tv_task (fun r => where_ r = true) (Task.tasks_join_users d)) as Hf.
  simpl in Hf. rewrite (tasks_join_users_tasks d Hok), (where_id_selects_one t) in Hf by done.
  destruct (filter _ (Task.tasks_join_users d)) as [|v [|w vs]] eqn:Hsel; try done.
  exists v. simpl. split; [done|]. split; [by injection Hf|].
  assert (Hv : v ∈ filter (fun v => where_ (tv_task v) = true) (Task.tasks_join_users d))
    by (rewrite Hsel; left).
  by apply list_elem_of_filter in Hv as [_ ?].
Qed.

Lemma findById_miss :
  (forall t, t ∈ tasks d -> where_ t <> true) ->
  Task.findById idp userId isAdmin d = Return None.
Proof.
  intros Hno. unfold Task.findById. rewrite Hid. cbn [mbind js_bind].
  rewrite filter_key_miss; [done|].
  intros v Hv Hw. apply (Hno (tv_task v)); [|done].
  rewrite <- (tasks_join_users_tasks d Hok). by apply list_elem_of_fmap_2.
Qed.

Lemma delete_hit (t : task_row) :
  t ∈ tasks d -> where_ t = true ->
  Task.delete idp userId isAdmin d =
    (Return (Some id), with_tasks d (filter (fun r => t_id r <> id) (tasks d))).
Proof.
  intros Hin Hw. unfold Task.delete. rewrite Hid. cbv zeta.
  rewrite (where_id_selects_one t) by done. simpl.
  apply where_id_true in Hw as Hw'. destruct Hw' as [Hid' _]. rewrite Hid'. do 2 f_equal.
  apply filter_ext_elem. intros r Hr.
  rewrite <- (where_id_is_id t r) by done. by destruct (where_ r).
Qed.

Lemma delete_miss :
  (forall t, t ∈ tasks d -> where_ t <> true) ->
  Task.delete idp userId isAdmin d = (Return None, d).
Proof.
  intros Hno. unfold Task.delete. rewrite Hid. cbv zeta.
  rewrite where_id_selects_none by done. simpl. f_equal.
  rewrite filter_all; [apply with_tasks_same|].
  intros r Hr. specialize (Hno r Hr). by destruct (where_ r).
Qed.

Section update.
Context (now : Z) (f : task_fields).

Lemma update_miss :
  storable f ->
  (forall t, t ∈ tasks d -> where_ t <> true) ->
  Task.update now idp userId isAdmin f d = (Return None, d).
Proof.
  intros Hst Hno. unfold Task.update. cbv zeta. case_bool_decide; [done|].
  rewrite (task_prepare_update_ok f idp id) by done.
  unfold Task.update_returning. cbv zeta.
  rewrite where_id_selects_none by done. simpl. f_equal.
  etrans; [|apply with_tasks_same]. f_equal.
  etrans; [|apply list_fmap_id]. apply fmap_ext_elem.
  intros r Hr. specialize (Hno r Hr). by destruct (where_ r).
Qed.

Lemma update_hit (t : task_row) :
  t ∈ tasks d -> where_ t = true -> has_updates f -> storable f ->
  Task.update now idp userId isAdmin f d =
    match task_row_violation (patched now f t) with
    | Some e => (Throw e, d)
    | None =>
        (Return (Some (patched now f t)),
         with_tasks d ((fun r => if bool_decide (t_id r = id) then patched now f r else r)
                         <$> tasks d))
    end.
Proof.
  intros Hin Hw Hup Hst. unfold Task.update. cbv zeta. case_bool_decide as Hlen.
  { exfalso. revert Hup. apply collect_updates_nil. by apply length_zero_iff_nil. }
  rewrite (task_prepare_update_ok f idp id) by done.
  unfold Task.update_returning. cbv zeta.
  rewrite (where_id_selects_one t) by done.
  rewrite fmap_cons, fmap_nil, apply_updates_patched.
  unfold first_violation. simpl.
  destruct (task_row_violation (patched now f t)); simpl; [done|].
  do 2 f_equal. apply fmap_ext_elem. intros r Hr.
  rewrite apply_updates_patched.
  pose proof (where_id_is_id t r Hin Hw Hr) as Hiff.
  destruct (where_ r); case_bool_decide; naive_solver.
Qed.

End update.
End single.

Lemma update_no_fields (now : Z) (idp : id_param) (userId : Z) (isAdmin : bool)
    (f : task_fields) (d : db) :
  ~ has_updates f -> Task.update now idp userId isAdmin f d = (Return None, d).
Proof.
  intros Hno%collect_updates_nil. unfold Task.update. cbv zeta. by rewrite Hno.
Qed.

(** An update whose parameters the server cannot read, or whose values the
    columns do not take, fails before it looks at a row. *)
Lemma update_refused (now : Z) (idp : id_param) (userId : Z) (isAdmin : bool)
    (f : task_fields) (d : db) :
  has_updates f -> ~ storable f \/ ~ id_readable idp ->
  exists e, Task.update now idp userId isAdmin f d = (Throw e, d).
Proof.
  intros Hup Hno. unfold Task.update. cbv zeta. case_bool_decide as Hlen.
  { exfalso. revert Hup. apply collect_updates_nil. by apply length_zero_iff_nil. }
  destruct (task_prepare_update_fail f idp Hno) as [e ->]. by exists e.
Qed.

Lemma findById_refused (idp : id_param) (userId : Z) (isAdmin : bool) (d : db) :
  ~ id_readable idp -> exists e, Task.findById idp userId isAdmin d = Throw e.
Proof.
  intros Hno. unfold Task.findById. destruct (bind_int4 idp) as [n|e] eqn:Hb.
  - exfalso. apply Hno. by exists n.
  - by exists e.
Qed.

Lemma delete_refused (idp : id_param) (userId : Z) (isAdmin : bool) (d : db) :
  ~ id_readable idp -> exists e, Task.delete idp userId isAdmin d = (Throw e, d).
Proof.
  intros Hno. unfold Task.delete. destruct (bind_int4 idp) as [n|e] eqn:Hb.
  - exfalso. apply Hno. by exists n.
  - by exists e.
Qed.

(** ** Listing *)

Lemma demo_db_ok : db_ok demo_db.
Proof. apply (bool_decide_unpack _). vm_compute. reflexivity. Qed.

(** C2.  On a database that satisfies the schema, the list operation answers
    200 with every task when the principal's role is administrator, and with
    exactly the tasks whose owner id is the principal's id otherwise (as a
    permutation: each such task once); in both cases every row of the answer
    was created no earlier than the rows after it. *)
Theorem getAllTasks_visible_sorted (d : db) (req : request) :
  db_ok d ->
  exists vs,
    getAllTasks req d = json_ok 200 None (DataTasks vs (Z.of_nat (length vs))) /\
    (p_role (user req) = "admin" -> tv_task <$> vs ≡ₚ tasks d) /\
    (p_role (user req) <> "admin" ->
       tv_task <$> vs ≡ₚ filter (fun t => t_user_id t = p_id (user req)) (tasks d)) /\
    StronglySorted (fun v w => t_created_at (tv_task w) <= t_created_at (tv_task v)) vs.
Proof.
  intros Hok. unfold getAllTasks. cbv zeta.
  destruct (findAll_returns d Hok (p_id (user req)) (isAdmin_of req))
    as (vs & -> & Hperm & Hsorted).
  exists vs. split; [done|]. unfold isAdmin_of in Hperm.
  split; [|split]; [intros Hadm|intros Hadm|done].
  - by rewrite bool_decide_eq_true_2 in Hperm.
  - by rewrite bool_decide_eq_false_2 in Hperm.
Qed.

Lemma getAllTasks_visible_sorted_witness :
  db_ok demo_db /\
  exists vs,
    getAllTasks {| user := alice; params_id := 0; body := no_fields |} demo_db
      = json_ok 200 None (DataTasks vs (Z.of_nat (length vs))) /\
    (p_role alice = "admin" -> tv_task <$> vs ≡ₚ tasks demo_db) /\
    (p_role alice <> "admin" ->
       tv_task <$> vs ≡ₚ filter (fun t => t_user_id t = p_id alice) (tasks demo_db)) /\
    StronglySorted (fun v w => t_created_at (tv_task w) <= t_created_at (tv_task v)) vs.
Proof.
  split; [exact demo_db_ok|].
  apply (getAllTasks_visible_sorted demo_db
           {| user := alice; params_id := 0; body := no_fields |}).
  apply (bool_decide_unpack _). vm_compute. reflexivity.
Defined.

(** What the two principals of the example see. *)
Example getAllTasks_alice :
  (fun v => t_id (tv_task v))
    <$> match res_data (getAllTasks {| user := alice; params_id := 0; body := no_fields |} demo_db) with
        | DataTasks vs _ => vs
        | _ => []
        end = [3; 1].
Proof. vm_compute. reflexivity. Qed.

Example getAllTasks_root :
  (fun v => t_id (tv_task v))
    <$> match res_data (getAllTasks {| user := root; params_id := 0; body := no_fields |} demo_db) with
        | DataTasks vs _ => vs
        | _ => []
        end = [3; 2; 1].
Proof. vm_compute. reflexivity. Qed.

(** C9.  For two principals whose role is administrator, list and stats give
    the same answer on the same database whatever their user ids: the model
    functions ignore the id once [isAdmin] holds, and so do the controllers. *)
Theorem admin_answers_ignore_user_id (d : db) (req1 req2 : request) :
  p_role (user req1) = "admin" -> p_role (user req2) = "admin" ->
  Task.findAll (p_id (user req1)) true d = Task.findAll (p_id (user req2)) true d /\
  Task.getStats (p_id (user req1)) true d = Task.getStats (p_id (user req2)) true d /\
  getAllTasks req1 d = getAllTasks req2 d /\
  getTaskStats req1 d = getTaskStats req2 d.
Proof.
  intros H1 H2. unfold getAllTasks, getTaskStats, isAdmin_of. cbv zeta.
  rewrite !bool_decide_eq_true_2 by done. done.
Qed.

Lemma admin_answers_ignore_user_id_witness :
  let req1 := {| user := root; params_id := 0; body := no_fields |} in
  let req2 := {| user := {| p_id := 77; p_role := "admin" |}; params_id := 0; body := no_fields |} in
  Task.findAll 3 true demo_db = Task.findAll 77 true demo_db /\
  Task.getStats 3 true demo_db = Task.getStats 77 true demo_db /\
  getAllTasks req1 demo_db = getAllTasks req2 demo_db /\
  getTaskStats req1 demo_db = getTaskStats req2 demo_db.
Proof.
  intros req1 req2.
  apply (admin_answers_ignore_user_id demo_db req1 req2); reflexivity.
Defined.

(** ** Access to a single task *)

Lemma task_fields_eta (f : task_fields) :
  {| title := title f; description := description f;
     status := status f; priority := priority f |} = f.
Proof. by destruct f. Qed.

Lemma accessible_where (d : db) (req : request) (n : Z) :
  bind_int4 (params_id req) = Return n ->
  accessible d (user req) (params_id req) <->
  exists t, t ∈ tasks d /\
    Task.where_id n (p_id (user req)) (isAdmin_of req) t = true.
Proof.
  intros Hn. unfold accessible. rewrite Hn. split.
  - intros (t & Hin & [= ->] & Hperm). exists t. split; [done|].
    apply where_id_permitted. done.
  - intros (t & Hin & Hw). exists t. apply where_id_permitted in Hw as [-> ?]. done.
Qed.

Lemma inaccessible_where (d : db) (req : request) (n : Z) :
  bind_int4 (params_id req) = Return n ->
  ~ accessible d (user req) (params_id req) ->
  forall t, t ∈ tasks d ->
    Task.where_id n (p_id (user req)) (isAdmin_of req) t <> true.
Proof. intros Hn Hno t Hin Hw. apply Hno, (accessible_where d req n Hn). eauto. Qed.

Lemma accessible_readable (d : db) (p : principal) (id : id_param) :
  accessible d p id -> id_readable id.
Proof. intros (t & _ & Hid & _). by exists (t_id t). Qed.

(** Under the schema every stored id is an [INTEGER]. *)
Lemma task_id_in_int4 (d : db) (t : task_row) :
  db_ok d -> t ∈ tasks d -> bind_int4 (t_id t) = Return (t_id t).
Proof.
  intros Hok Hin. apply bind_int4_stored, bool_decide_eq_true.
  pose proof (tasks_id_issued d Hok) as Hids. rewrite Forall_forall in Hids.
  pose proof (tasks_id_seq_range d Hok). specialize (Hids t Hin).
  unfold int4_min, int4_max in *. lia.
Qed.

Lemma user_id_in_int4 (d : db) (u : user_row) :
  db_ok d -> u ∈ users d -> bind_int4 (u_id u) = Return (u_id u).
Proof.
  intros Hok Hin. apply bind_int4_stored, bool_decide_eq_true.
  pose proof (users_id_issued d Hok) as Hids. rewrite Forall_forall in Hids.
  pose proof (users_id_seq_range d Hok). specialize (Hids u Hin).
  unfold int4_min, int4_max in *. lia.
Qed.

Section controllers.
Context (d : db) (Hok : db_ok d) (req : request).

Lemma getTaskById_hit (t : task_row) :
  t ∈ tasks d -> bind_int4 (params_id req) = Return (t_id t) -> permitted (user req) t ->
  exists v, getTaskById req d = json_ok 200 None (DataTaskView v) /\
    tv_task v = t /\ v ∈ Task.tasks_join_users d.
Proof.
  intros Hin Hid Hperm. unfold getTaskById. cbv zeta.
  destruct (findById_hit d Hok (params_id req) (t_id t) (p_id (user req)) (isAdmin_of req)
              Hid t) as (v & -> & Hv); [done|by apply where_id_permitted|by exists v].
Qed.

Lemma getTaskById_miss :
  id_readable (params_id req) -> ~ accessible d (user req) (params_id req) ->
  getTaskById req d = json_fail 404 "Task not found" None.
Proof.
  intros [n Hn] Hno. unfold getTaskById. cbv zeta.
  by rewrite (findById_miss d Hok _ n) by (done || by apply inaccessible_where).
Qed.

Lemma getTaskById_refused :
  ~ id_readable (params_id req) ->
  exists e, getTaskById req d = json_fail 500 "Failed to get task" (Some e).
Proof.
  intros Hno. unfold getTaskById. cbv zeta.
  destruct (findById_refused (params_id req) (p_id (user req)) (isAdmin_of req) d Hno)
    as [e ->]. by exists e.
Qed.

Lemma deleteTask_hit (t : task_row) :
  t ∈ tasks d -> bind_int4 (params_id req) = Return (t_id t) -> permitted (user req) t ->
  deleteTask req d =
    (json_ok 200 (Some "Task deleted successfully") NoData,
     with_tasks d (filter (fun r => t_id r <> t_id t) (tasks d))).
Proof.
  intros Hin Hid Hperm. unfold deleteTask. cbv zeta.
  by rewrite (delete_hit d Hok _ _ _ _ Hid t) by (done || by apply where_id_permitted).
Qed.

Lemma deleteTask_miss :
  id_readable (params_id req) -> ~ accessible d (user req) (params_id req) ->
  deleteTask req d = (delete_not_found, d).
Proof.
  intros [n Hn] Hno. unfold deleteTask. cbv zeta.
  by rewrite (delete_miss d _ n) by (done || by apply inaccessible_where).
Qed.

Lemma deleteTask_refused :
  ~ id_readable (params_id req) ->
  exists e, deleteTask req d = (json_fail 500 "Failed to delete task" (Some e), d).
Proof.
  intros Hno. unfold deleteTask. cbv zeta.
  destruct (delete_refused (params_id req) (p_id (user req)) (isAdmin_of req) d Hno)
    as [e ->]. by exists e.
Qed.

Lemma updateTask_no_fields (now : Z) :
  ~ has_updates (body req) -> updateTask now req d = (update_not_found, d).
Proof.
  intros Hno. unfold updateTask. cbv zeta.
  by rewrite task_fields_eta, update_no_fields.
Qed.

Lemma updateTask_miss (now : Z) :
  id_readable (params_id req) -> storable (body req) ->
  ~ accessible d (user req) (params_id req) ->
  updateTask now req d = (update_not_found, d).
Proof.
  intros [n Hn] Hst Hno. unfold updateTask. cbv zeta.
  by rewrite task_fields_eta, (update_miss d _ n) by (done || by apply inaccessible_where).
Qed.

Lemma updateTask_refused (now : Z) :
  has_updates (body req) -> ~ storable (body req) \/ ~ id_readable (params_id req) ->
  exists e, updateTask now req d = (json_fail 500 "Failed to update task" (Some e), d).
Proof.
  intros Hup Hno. unfold updateTask. cbv zeta. rewrite task_fields_eta.
  destruct (update_refused now (params_id req) (p_id (user req)) (isAdmin_of req)
              (body req) d Hup Hno) as [e ->]. by exists e.
Qed.

Lemma updateTask_hit (now : Z) (t : task_row) :
  t ∈ tasks d -> bind_int4 (params_id req) = Return (t_id t) -> permitted (user req) t ->
  has_updates (body req) -> storable (body req) ->
  updateTask now req d =
    match task_row_violation (patched now (body req) t) with
    | Some e => (json_fail 500 "Failed to update task" (Some e), d)
    | None =>
        (json_ok 200 (Some "Task updated successfully")
           (DataTask (Some (patched now (body req) t))),
         with_tasks d
           ((fun r => if bool_decide (t_id r = t_id t)
                      then patched now (body req) r else r) <$> tasks d))
    end.
Proof.
  intros Hin Hid Hperm Hup Hst. unfold updateTask. cbv zeta.
  rewrite task_fields_eta, (update_hit d Hok _ _ _ _ Hid now (body req) t);
    [|done|by apply where_id_permitted|done|done].
  by destruct (task_row_violation _).
Qed.

(** The one answer of update to a permitted request that names a field: by
    the values. *)
Lemma updateTask_served (now : Z) (t : task_row) :
  t ∈ tasks d -> bind_int4 (params_id req) = Return (t_id t) -> permitted (user req) t ->
  has_updates (body req) ->
  (valid_values (body req) /\
   updateTask now req d =
     (json_ok 200 (Some "Task updated successfully")
        (DataTask (Some (patched now (body req) t))),
      with_tasks d
        ((fun r => if bool_decide (t_id r = t_id t)
                   then patched now (body req) r else r) <$> tasks d))) \/
  (~ valid_values (body req) /\
   exists e, updateTask now req d = (json_fail 500 "Failed to update task" (Some e), d)).
Proof.
  intros Hin Hid Hperm Hup.
  pose proof (tasks_rows_valid d Hok) as Hrows. rewrite Forall_forall in Hrows.
  destruct (decide (storable (body req))) as [Hst|Hst].
  - pose proof (patched_valid now (body req) t (Hrows t Hin) Hst) as Hvalid.
    rewrite (updateTask_hit now t) by done.
    destruct (task_row_violation (patched now (body req) t)) as [e|].
    + right. split; [|by exists e]. intros Hval. by apply Hvalid in Hval.
    + left. split; [by apply Hvalid|done].
  - right. split; [by intros ?%valid_values_storable|].
    apply updateTask_refused; [done|by left].
Qed.

End controllers.

(** C1 (as amended).  On a database that satisfies the schema: fetch by id
    and delete answer 200 exactly when the id is that of a stored task and
    the principal is an administrator or its owner; update answers 200
    exactly when, besides that, the request names one of the four fields and
    its values pass the constraints of the table.  A task body is returned
    only for such a task.  When no such task exists or the rule denies the
    principal, fetch and delete answer 404 without data and leave the
    database as it was, provided the id is an integer of the type
    [INTEGER]; so does update, provided the request names no field, or the
    id is such an integer and the columns take the values.  An id that is no
    such integer is answered 500 by fetch and delete, and by update when the
    request names a field. *)
Theorem single_task_access (d : db) (req : request) (now : Z) :
  db_ok d ->
  let p := user req in
  let id := params_id req in
  let f := body req in
  (res_status (getTaskById req d) = 200 <-> accessible d p id) /\
  (res_status (deleteTask req d).1 = 200 <-> accessible d p id) /\
  (res_status (updateTask now req d).1 = 200 <->
     accessible d p id /\ has_updates f /\ valid_values f) /\
  (forall v, res_data (getTaskById req d) = DataTaskView v ->
     tv_task v ∈ tasks d /\ id = IntegerText (t_id (tv_task v)) /\ permitted p (tv_task v)) /\
  (forall t', res_data (updateTask now req d).1 = DataTask (Some t') ->
     exists t, t ∈ tasks d /\ id = IntegerText (t_id t) /\ permitted p t /\
       t' = patched now f t) /\
  (~ accessible d p id ->
     (id_readable id ->
        getTaskById req d = json_fail 404 "Task not found" None /\
        deleteTask req d = (delete_not_found, d)) /\
     (~ has_updates f \/ (id_readable id /\ storable f) ->
        updateTask now req d = (update_not_found, d))) /\
  (~ id_readable id ->
     (exists e, getTaskById req d = json_fail 500 "Failed to get task" (Some e)) /\
     (exists e, deleteTask req d = (json_fail 500 "Failed to delete task" (Some e), d)) /\
     (has_updates f ->
        exists e, updateTask now req d = (json_fail 500 "Failed to update task" (Some e), d))).
Proof.
  intros Hok p id f. subst f.
  assert (Hrefused : ~ id_readable id ->
     (exists e, getTaskById req d = json_fail 500 "Failed to get task" (Some e)) /\
     (exists e, deleteTask req d = (json_fail 500 "Failed to delete task" (Some e), d)) /\
     (has_updates (body req) ->
        exists e, updateTask now req d = (json_fail 500 "Failed to update task" (Some e), d))).
  { intros Hno. split; [by apply getTaskById_refused|].
    split; [by apply deleteTask_refused|].
    intros Hup. apply updateTask_refused; [done|by right]. }
  destruct (decide (accessible d p id)) as [Hacc|Hno].
  - destruct Hacc as (t & Hin & Hid & Hperm).
    assert (Hacc : accessible d p id) by (exists t; done).
    assert (Hidt : id = IntegerText (t_id t)) by (by apply bind_int4_readable in Hid as [? _]).
    destruct (getTaskById_hit d Hok req t Hin Hid Hperm) as (v & Hget & Hv & _).
    split; [|split; [|split; [|split; [|split; [|split]]]]].
    + by rewrite Hget.
    + by rewrite (deleteTask_hit d Hok req t Hin Hid Hperm).
    + destruct (decide (has_updates (body req))) as [Hup|Hup].
      * destruct (updateTask_served d Hok req now t Hin Hid Hperm Hup)
          as [[Hval ->]|[Hval [e ->]]]; simpl; [done|].
        split; [done | by intros (_ & _ & ?)].
      * rewrite (updateTask_no_fields d req now Hup). simpl.
        split; [done | by intros (_ & ? & _)].
    + intros w Hw. rewrite Hget in Hw. injection Hw as <-. by rewrite Hv.
    + intros t' Ht'. exists t. split; [done|]. split; [done|]. split; [done|].
      destruct (decide (has_updates (body req))) as [Hup|Hup].
      * destruct (updateTask_served d Hok req now t Hin Hid Hperm Hup)
          as [[Hval Hupd]|[Hval [e Hupd]]]; rewrite Hupd in Ht'; simpl in Ht'; [|done].
        by injection Ht'.
      * by rewrite (updateTask_no_fields d req now Hup) in Ht'.
    + done.
    + done.
  - assert (Hupd : res_status (updateTask now req d).1 <> 200 /\
                   forall t', res_data (updateTask now req d).1 <> DataTask (Some t')).
    { destruct (decide (has_updates (body req))) as [Hup|Hup];
        [|by rewrite (updateTask_no_fields d req now Hup)].
      destruct (decide (id_readable id)) as [Hrd|Hrd];
        [|by destruct (Hrefused Hrd) as (_ & _ & Hr); destruct (Hr Hup) as [e ->]].
      destruct (decide (storable (body req))) as [Hst|Hst].
      - by rewrite (updateTask_miss d req now Hrd Hst Hno).
      - by destruct (updateTask_refused d req now Hup (or_introl Hst)) as [e ->]. }
    assert (Hget : res_status (getTaskById req d) <> 200 /\
                   forall v, res_data (getTaskById req d) <> DataTaskView v).
    { destruct (decide (id_readable id)) as [Hrd|Hrd].
      - by rewrite (getTaskById_miss d Hok req Hrd Hno).
      - by destruct (getTaskById_refused d req Hrd) as [e ->]. }
    assert (Hdel : res_status (deleteTask req d).1 <> 200).
    { destruct (decide (id_readable id)) as [Hrd|Hrd].
      - by rewrite (deleteTask_miss d req Hrd Hno).
      - by destruct (deleteTask_refused d req Hrd) as [e ->]. }
    destruct Hupd as [Hupd Hupd'], Hget as [Hget Hget'].
    split; [by split|]. split; [by split|].
    split; [by split; [|intros [? _]]|].
    split; [intros v Hv; by apply Hget' in Hv|].
    split; [intros t' Ht'; by apply Hupd' in Ht'|].
    split; [|done]. intros _. split.
    + intros Hrd. by rewrite (getTaskById_miss d Hok req Hrd Hno), (deleteTask_miss d req Hrd Hno).
    + intros [Hup|[Hrd Hst]]; [by apply updateTask_no_fields | by apply updateTask_miss].
Qed.

(** The scenario of the specification: Bob, who is not an administrator, asks
    for Alice's task 1 and is answered 404 by all three operations, while
    Alice herself is served by all three. *)
Lemma single_task_access_witness :
  let as_bob := {| user := bob; params_id := 1; body := status_only "completed" |} in
  let as_alice := {| user := alice; params_id := 1; body := status_only "completed" |} in
  db_ok demo_db /\
  ~ accessible demo_db bob 1 /\
  (getTaskById as_bob demo_db = json_fail 404 "Task not found" None /\
   deleteTask as_bob demo_db = (delete_not_found, demo_db) /\
   updateTask 400 as_bob demo_db = (update_not_found, demo_db)) /\
  accessible demo_db alice 1 /\
  res_status (getTaskById as_alice demo_db) = 200 /\
  res_status (deleteTask as_alice demo_db).1 = 200 /\
  res_status (updateTask 400 as_alice demo_db).1 = 200.
Proof.
  intros as_bob as_alice.
  assert (Hok : db_ok demo_db) by (apply (bool_decide_unpack _); vm_compute; reflexivity).
  assert (Hno : ~ accessible demo_db bob 1)
    by (apply (bool_decide_unpack _); vm_compute; reflexivity).
  assert (Hacc : accessible demo_db alice 1)
    by (apply (bool_decide_unpack _); vm_compute; reflexivity).
  assert (Hrd : id_readable (params_id as_bob)) by (by exists 1).
  assert (Hst : storable (body as_bob)) by (by repeat split).
  assert (Hval : has_updates (body as_alice) /\ valid_values (body as_alice)).
  { split; [right; right; left; discriminate | by repeat split]. }
  pose proof (single_task_access demo_db as_bob 400 Hok) as Hbob.
  pose proof (single_task_access demo_db as_alice 400 Hok) as Halice.
  cbv zeta in Hbob, Halice.
  destruct Hbob as (_ & _ & _ & _ & _ & Hmiss & _).
  destruct (Hmiss Hno) as [Hfetch Hupd].
  destruct Halice as (Hget & Hdel & Hput & _).
  split; [exact Hok|]. split; [exact Hno|].
  split; [exact (conj (proj1 (Hfetch Hrd))
                   (conj (proj2 (Hfetch Hrd)) (Hupd (or_intror (conj Hrd Hst)))))|].
  split; [exact Hacc|].
  split; [exact (proj2 Hget Hacc)|].
  split; [exact (proj2 Hdel Hacc)|].
  exact (proj2 Hput (conj Hacc Hval)).
Defined.

(** C1 as stated fails for update: Alice owns task 1, so the rule permits
    her, yet an update whose body names none of the four fields is answered
    404 and changes nothing.  It also fails for an id that is no [INTEGER]:
    no task has the id 2147483648, and fetch answers 500, not 404. *)
Lemma update_by_owner_without_fields_not_found :
  let req := {| user := alice; params_id := 1; body := no_fields |} in
  let far := {| user := alice; params_id := 2147483648; body := no_fields |} in
  db_ok demo_db /\
  (exists t, t ∈ tasks demo_db /\ t_id t = 1 /\ p_id alice = t_user_id t) /\
  updateTask 400 req demo_db = (update_not_found, demo_db) /\
  ~ (res_status (updateTask 400 req demo_db).1 = 200 <-> accessible demo_db alice 1) /\
  (forall t, t ∈ tasks demo_db -> t_id t <> 2147483648) /\
  getTaskById far demo_db = json_fail 500 "Failed to get task" (Some NumericValueOutOfRange).
Proof.
  intros req far. split; [exact demo_db_ok|].
  assert (Hown : exists t, t ∈ tasks demo_db /\ t_id t = 1 /\ p_id alice = t_user_id t).
  { exists (demo_task 1 "write report" "pending" "high" 1 100). split; [left|done]. }
  split; [done|]. split; [reflexivity|]. split; [|split; [|reflexivity]].
  - intros [_ Hserved]. destruct Hown as (t & Hin & Hid & Hown).
    assert (Hst : res_status (updateTask 400 req demo_db).1 = 200).
    { apply Hserved. exists t. split; [done|]. split; [by rewrite Hid|]. by right. }
    vm_compute in Hst. discriminate.
  - intros t Hin. unfold demo_db in Hin. simpl in Hin.
    repeat (apply elem_of_cons in Hin as [->|Hin]; [done|]).
    by apply elem_of_nil in Hin.
Qed.

(** ** The outcomes of update *)

(** C4 (as amended).  On a database that satisfies the schema, update answers
    404 exactly when the request names none of the four fields, or the id
    is an integer of the type [INTEGER], the columns take the values, and
    no task with that id exists or the rule denies the principal; the
    database is then unchanged.  A permitted request that names a field is
    answered 200 with the updated row when the values pass the constraints
    of the table.  A request that names a field is answered 500, with the
    database unchanged, when the id is no such integer, when a column does
    not take its value, or when the request is permitted and its values do
    not pass the constraints. *)
Theorem updateTask_outcomes (d : db) (req : request) (now : Z) :
  db_ok d ->
  let p := user req in
  let id := params_id req in
  let f := body req in
  (res_status (updateTask now req d).1 = 404 <->
     ~ has_updates f \/ (id_readable id /\ storable f /\ ~ accessible d p id)) /\
  (~ has_updates f \/ (id_readable id /\ storable f /\ ~ accessible d p id) ->
     updateTask now req d = (update_not_found, d)) /\
  (forall t, t ∈ tasks d -> id = IntegerText (t_id t) -> permitted p t ->
     has_updates f -> valid_values f ->
     updateTask now req d =
       (json_ok 200 (Some "Task updated successfully") (DataTask (Some (patched now f t))),
        with_tasks d
          ((fun r => if bool_decide (t_id r = t_id t) then patched now f r else r)
             <$> tasks d))) /\
  (has_updates f ->
   ~ id_readable id \/ ~ storable f \/ (accessible d p id /\ ~ valid_values f) ->
     exists e, updateTask now req d = (json_fail 500 "Failed to update task" (Some e), d)).
Proof.
  intros Hok p id f. subst f.
  assert (Hnf : ~ has_updates (body req) \/
                (id_readable id /\ storable (body req) /\ ~ accessible d p id) ->
                updateTask now req d = (update_not_found, d)).
  { intros [Hno|(Hrd & Hst & Hno)]; [by apply updateTask_no_fields | by apply updateTask_miss]. }
  assert (Hfail : has_updates (body req) ->
     ~ id_readable id \/ ~ storable (body req) \/
       (accessible d p id /\ ~ valid_values (body req)) ->
     exists e, updateTask now req d = (json_fail 500 "Failed to update task" (Some e), d)).
  { intros Hup [Hrd|[Hst|[(t & Hin & Hid & Hperm) Hval]]].
    - apply updateTask_refused; [done|by right].
    - apply updateTask_refused; [done|by left].
    - by destruct (updateTask_served d Hok req now t Hin Hid Hperm Hup) as [[? _]|[_ ?]]. }
  split; [|split; [done|split; [|done]]].
  - split; [|by intros ->%Hnf].
    intros Hst. destruct (decide (has_updates (body req))) as [Hup|]; [|by left].
    right. destruct (decide (id_readable id)) as [Hrd|Hrd];
      [|by destruct (Hfail Hup (or_introl Hrd)) as [e He]; rewrite He in Hst].
    destruct (decide (storable (body req))) as [Hsto|Hsto];
      [|by destruct (Hfail Hup (or_intror (or_introl Hsto))) as [e He]; rewrite He in Hst].
    split; [done|]. split; [done|]. intros (t & Hin & Hid & Hperm).
    by destruct (updateTask_served d Hok req now t Hin Hid Hperm Hup)
      as [[_ He]|[_ [e He]]]; rewrite He in Hst.
  - intros t Hin Hid Hperm Hup Hval.
    assert (Hb : bind_int4 id = Return (t_id t))
      by (rewrite Hid; by apply (task_id_in_int4 d)).
    by destruct (updateTask_served d Hok req now t Hin Hb Hperm Hup) as [[_ ?]|[? _]].
Qed.

Lemma updateTask_outcomes_witness :
  let req := {| user := root; params_id := 2; body := status_only "completed" |} in
  let t := demo_task 2 "fix login" "in_progress" "medium" 2 200 in
  db_ok demo_db /\
  updateTask 400 req demo_db =
    (json_ok 200 (Some "Task updated successfully")
       (DataTask (Some (patched 400 (status_only "completed") t))),
     with_tasks demo_db
       ((fun r => if bool_decide (t_id r = 2)
                  then patched 400 (status_only "completed") r else r) <$> tasks demo_db)).
Proof.
  intros req t.
  assert (Hok : db_ok demo_db) by (apply (bool_decide_unpack _); vm_compute; reflexivity).
  split; [exact Hok|].
  refine (proj1 (proj2 (proj2 (updateTask_outcomes demo_db req 400 Hok))) t _ _ _ _ _).
  - right; left.
  - reflexivity.
  - left; reflexivity.
  - right; right; left. discriminate.
  - by repeat split.
Defined.

(** C4 as stated fails: task 2 exists and the administrator is permitted on
    it, yet an update that names no field is answered 404; [Task.update]
    returns [null] before any statement is issued.  It fails the other way
    too: no task has the id 2147483648, and an update of it that names a
    field is answered 500, not 404. *)
Lemma update_without_fields_not_found :
  let req := {| user := root; params_id := 2; body := no_fields |} in
  let far := {| user := root; params_id := 2147483648; body := status_only "completed" |} in
  (exists t, t ∈ tasks demo_db /\ t_id t = 2 /\ permitted root t) /\
  Task.update 400 2 3 true no_fields demo_db = (Return None, demo_db) /\
  updateTask 400 req demo_db = (update_not_found, demo_db) /\
  ~ (res_status (updateTask 400 req demo_db).1 = 404 <-> ~ accessible demo_db root 2) /\
  ~ accessible demo_db root 2147483648 /\
  updateTask 400 far demo_db =
    (json_fail 500 "Failed to update task" (Some NumericValueOutOfRange), demo_db).
Proof.
  intros req far.
  assert (Hacc : exists t, t ∈ tasks demo_db /\ t_id t = 2 /\ permitted root t).
  { exists (demo_task 2 "fix login" "in_progress" "medium" 2 200).
    split; [right; left|]. split; [reflexivity|by left]. }
  split; [done|]. split; [reflexivity|]. split; [reflexivity|].
  split; [|split; [|reflexivity]].
  - intros [Hdenied _]. apply Hdenied; [reflexivity|].
    destruct Hacc as (t & Hin & Hid & Hperm). exists t. by rewrite Hid.
  - by intros (t & _ & ? & _).
Qed.

(** The other answers of update to a permitted request: a value the table
    rejects, a title of 256 letters, and an id that is no integer are each
    answered 500, while a title of 256 characters of which the last is a
    space is stored cut to 255. *)
Example updateTask_null_title :
  updateTask 400
    {| user := alice; params_id := 1;
       body := {| title := JNull; description := JUndefined;
                  status := JUndefined; priority := JUndefined |} |} demo_db
  = (json_fail 500 "Failed to update task" (Some (NotNullViolation "title")), demo_db).
Proof. reflexivity. Qed.

Example updateTask_unknown_status :
  updateTask 400 {| user := alice; params_id := 1; body := status_only "done" |} demo_db
  = (json_fail 500 "Failed to update task" (Some (CheckViolation "status")), demo_db).
Proof. reflexivity. Qed.

Example updateTask_long_title :
  updateTask 400 {| user := alice; params_id := 1; body := title_only (letters 256) |} demo_db
  = (json_fail 500 "Failed to update task" (Some (StringDataRightTruncation 255)), demo_db).
Proof. vm_compute. reflexivity. Qed.

Example updateTask_long_title_of_other :
  updateTask 400 {| user := bob; params_id := 1; body := title_only (letters 256) |} demo_db
  = (json_fail 500 "Failed to update task" (Some (StringDataRightTruncation 255)), demo_db).
Proof. vm_compute. reflexivity. Qed.

Example updateTask_padded_title :
  res_data (updateTask 400
    {| user := alice; params_id := 1; body := title_only (letters 255 +:+ " ") |} demo_db).1
  = DataTask (Some (patched 400 (title_only (letters 255)) (demo_task 1 "write report" "pending" "high" 1 100))).
Proof. vm_compute. reflexivity. Qed.

Example updateTask_id_not_numeric :
  updateTask 400 {| user := alice; params_id := OtherText; body := status_only "completed" |}
    demo_db
  = (json_fail 500 "Failed to update task" (Some InvalidTextRepresentation), demo_db).
Proof. reflexivity. Qed.

Example updateTask_priority_reported_first :
  updateTask 400
    {| user := alice; params_id := 1;
       body := {| title := JUndefined; description := JUndefined;
                  status := JString "done"; priority := JString "urgent" |} |} demo_db
  = (json_fail 500 "Failed to update task" (Some (CheckViolation "priority")), demo_db).
Proof. reflexivity. Qed.

(** ** Creating a task *)

Lemma default_accepts (v : jsval) (dflt : string) :
  varchar_accepts 50 (JString dflt) = true ->
  varchar_accepts 50 (default_param v dflt) = varchar_accepts 50 v.
Proof. by destruct v. Qed.

Lemma valid_new_storable (f : task_fields) : valid_new f -> storable f.
Proof.
  intros (_ & Ht & Hd & Hs & Hp). repeat split; [done|done| |].
  - by apply (check_in_allowed_accepts 50 task_statuses), Hs; apply task_statuses_short.
  - by apply (check_in_allowed_accepts 50 task_priorities), Hp; apply task_priorities_short.
Qed.

(** The parameters of the [INSERT] of [Task.create], with the two defaults
    in place. *)
Lemma create_prepare (f : task_fields) :
  match Task.prepare_insert (title f) (description f)
          (default_param (status f) "pending") (default_param (priority f) "medium") with
  | Return x =>
      storable f /\
      x = (stored 255 (title f), sql_param (description f),
           match status f with JUndefined => Some "pending" | v => stored 50 v end,
           match priority f with JUndefined => Some "medium" | v => stored 50 v end)
  | Throw _ => ~ storable f
  end.
Proof.
  pose proof (task_prepare_insert_spec (title f) (description f)
                (default_param (status f) "pending") (default_param (priority f) "medium"))
    as Hspec.
  unfold storable. rewrite !default_accepts in Hspec by done.
  destruct (Task.prepare_insert _ _ _ _) as [x|e]; [|done].
  destruct Hspec as [Hst ->]. split; [done|].
  by destruct (status f), (priority f).
Qed.

Lemma create_unfold (now : Z) (f : task_fields) (owner : Z) (d : db) :
  storable f -> tasks_id_seq d < int4_max ->
  let r := created now f owner (tasks_id_seq d + 1) in
  let d1 := advance_tasks_seq d in
  Task.create now f owner d =
    match task_row_violation r with
    | Some e => (Throw e, d1)
    | None =>
        match task_fk_violation (users d) r with
        | Some e => (Throw e, d1)
        | None => (Return (Some r), with_tasks d1 (tasks d ++ [r]))
        end
    end.
Proof.
  intros Hst Hseq. unfold Task.create, Task.insert_returning, nextval_tasks. cbv zeta.
  pose proof (create_prepare f) as Hspec.
  destruct (Task.prepare_insert _ _ _ _) as [[[[ttl descr] st] prio]|e]; [|done].
  destruct Hspec as [_ [= -> -> -> ->]]. rewrite bool_decide_eq_true_2 by done.
  fold (created now f owner (tasks_id_seq d + 1)).
  destruct (task_row_violation _); [reflexivity|].
  cbn [users advance_tasks_seq]. destruct (task_fk_violation _ _); reflexivity.
Qed.

(** A create request with a value its column does not take, or on a
    sequence that has run out, fails and leaves the database as it was. *)
Lemma create_refused (now : Z) (f : task_fields) (owner : Z) (d : db) :
  ~ storable f \/ ~ tasks_id_seq d < int4_max ->
  exists e, Task.create now f owner d = (Throw e, d).
Proof.
  intros Hno. unfold Task.create, Task.insert_returning, nextval_tasks. cbv zeta.
  pose proof (create_prepare f) as Hspec.
  destruct (Task.prepare_insert _ _ _ _) as [[[[ttl descr] st] prio]|e]; [|by exists e].
  destruct Hspec as [Hst _]. destruct Hno as [Hno|Hno]; [done|].
  rewrite bool_decide_eq_false_2 by done. by eexists.
Qed.

Lemma created_valid (now : Z) (f : task_fields) (owner id : Z) :
  storable f ->
  task_row_violation (created now f owner id) = None <-> valid_new f.
Proof.
  intros (Ha & Hd & Hs & Hp). rewrite task_row_valid. unfold valid_new, created.
  cbn [t_title t_status t_priority].
  pose proof (varchar_cell_stored 255 (title f)) as Hc1.
  assert (Hc2 : varchar_cell 50
                  match status f with JUndefined => Some "pending" | v => stored 50 v end = true)
    by (destruct (status f) eqn:E; [done|done|]; rewrite <- E; apply varchar_cell_stored).
  assert (Hc3 : varchar_cell 50
                  match priority f with JUndefined => Some "medium" | v => stored 50 v end = true)
    by (destruct (priority f) eqn:E; [done|done|]; rewrite <- E; apply varchar_cell_stored).
  assert (Hst : check_in task_statuses
                  match status f with JUndefined => Some "pending" | v => stored 50 v end
                = check_in task_statuses (sql_param (status f))).
  { destruct (status f) eqn:E; [done|done|].
    rewrite <- E. apply check_in_stored, task_statuses_short. }
  assert (Hpr : check_in task_priorities
                  match priority f with JUndefined => Some "medium" | v => stored 50 v end
                = check_in task_priorities (sql_param (priority f))).
  { destruct (priority f) eqn:E; [done|done|].
    rewrite <- E. apply check_in_stored, task_priorities_short. }
  rewrite Hst, Hpr.
  assert (Hsome : is_Some (stored 255 (title f)) <-> exists s, title f = JString s).
  { destruct (title f); simpl; split; try done; try (by intros [? ?]); eauto. }
  rewrite Hsome. naive_solver.
Qed.

(** [Task.create] keeps the schema: the new id is above every stored one. *)
Lemma create_preserves_ok (now : Z) (f : task_fields) (owner : Z) (d : db) :
  db_ok d -> db_ok (Task.create now f owner d).2.
Proof.
  intros Hok.
  destruct (decide (storable f)) as [Hst|Hst];
    [|by destruct (create_refused now f owner d (or_introl Hst)) as [e ->]].
  destruct (decide (tasks_id_seq d < int4_max)) as [Hseq|Hseq];
    [|by destruct (create_refused now f owner d (or_intror Hseq)) as [e ->]].
  rewrite create_unfold by done. cbv zeta.
  destruct Hok as [Hu Ht Hfkey Hus Hts Husr Htsr Hrows Hurows Hmail].
  assert (Hok1 : db_ok (advance_tasks_seq d)).
  { constructor; simpl; try done; [|lia].
    eapply Forall_impl; [exact Hts|]. simpl. intros; lia. }
  destruct (task_row_violation _) eqn:Hrow; [done|].
  unfold task_fk_violation. case_bool_decide as Hfk; [|done]. simpl.
  constructor; simpl; try done.
  - rewrite fmap_app. apply NoDup_app. split; [done|]. split; [|apply NoDup_singleton].
    intros i Hi [->|[]%elem_of_nil]%elem_of_cons.
    apply list_elem_of_fmap in Hi as (t & Hid & Hin).
    rewrite Forall_forall in Hts. specialize (Hts t Hin). simpl in Hid. lia.
  - apply Forall_app. split; [done|]. by apply Forall_singleton.
  - apply Forall_app. split.
    + eapply Forall_impl; [exact Hts|]. simpl. intros; lia.
    + apply Forall_singleton. simpl. lia.
  - lia.
  - apply Forall_app. split; [done|]. by apply Forall_singleton.
Qed.

Lemma createTask_unfold (now : Z) (req : request) (d : db) :
  storable (body req) -> tasks_id_seq d < int4_max ->
  let r := created now (body req) (p_id (user req)) (tasks_id_seq d + 1) in
  let d1 := advance_tasks_seq d in
  createTask now req d =
    match task_row_violation r with
    | Some e => (json_fail 500 "Failed to create task" (Some e), d1)
    | None =>
        match task_fk_violation (users d) r with
        | Some e => (json_fail 500 "Failed to create task" (Some e), d1)
        | None =>
            (json_ok 201 (Some "Task created successfully") (DataTask (Some r)),
             with_tasks d1 (tasks d ++ [r]))
        end
    end.
Proof.
  intros Hst Hseq. unfold createTask. cbv zeta.
  rewrite task_fields_eta, create_unfold by done. cbv zeta.
  destruct (task_row_violation _); [done|]. by destruct (task_fk_violation _ _).
Qed.

Lemma createTask_refused (now : Z) (req : request) (d : db) :
  ~ storable (body req) \/ ~ tasks_id_seq d < int4_max ->
  exists e, createTask now req d = (json_fail 500 "Failed to create task" (Some e), d).
Proof.
  intros Hno. unfold createTask. cbv zeta. rewrite task_fields_eta.
  destruct (create_refused now (body req) (p_id (user req)) d Hno) as [e ->]. by exists e.
Qed.

(** C5.  Whenever create answers 201, the row it returns is the one row it
    appended to the table; that row is owned by the requesting principal, its
    status is pending if the request left status out and its priority is
    medium if the request left priority out.  Any other answer adds no row.
    A request with a string title the column takes, a readable description
    and allowed values, from a principal that exists as a user, is answered
    201 as long as the sequence of task ids has not run out. *)
Theorem createTask_owner_defaults (d : db) (req : request) (now : Z) :
  let p := user req in
  let f := body req in
  let answer := createTask now req d in
  (res_status answer.1 = 201 ->
     exists r, res_data answer.1 = DataTask (Some r) /\
       tasks answer.2 = (tasks d ++ [r])%list /\
       t_user_id r = p_id p /\
       (status f = JUndefined -> t_status r = Some "pending") /\
       (priority f = JUndefined -> t_priority r = Some "medium")) /\
  (res_status answer.1 <> 201 -> tasks answer.2 = tasks d) /\
  (valid_new f -> p_id p ∈ u_id <$> users d -> tasks_id_seq d < int4_max ->
     res_status answer.1 = 201).
Proof.
  intros p f answer. subst p f answer.
  destruct (decide (storable (body req) /\ tasks_id_seq d < int4_max)) as [[Hst Hseq]|Hno].
  - rewrite createTask_unfold by done. cbv zeta.
    pose proof (created_valid now (body req) (p_id (user req)) (tasks_id_seq d + 1) Hst)
      as Hvalid.
    destruct (task_row_violation _) as [e|] eqn:Hrow.
    { split; [done|]. split; [done|]. intros Hv%Hvalid. done. }
    unfold task_fk_violation. case_bool_decide as Hfk.
    + split; [|done]. intros _. eexists. split; [done|]. split; [done|]. split; [done|].
      unfold created. simpl. split; by intros ->.
    + done.
  - destruct (createTask_refused now req d) as [e ->].
    { destruct (decide (storable (body req))); [right|left]; naive_solver. }
    split; [done|]. split; [done|]. intros Hv%valid_new_storable _ Hseq. naive_solver.
Qed.

(** The defaults are those of the destructuring pattern: they stand in for
    an absent field, while an explicit [null] is stored as [NULL]. *)
Example createTask_null_status :
  res_data (createTask 400
              {| user := bob; params_id := 0;
                 body := {| title := JString "plan sprint"; description := JUndefined;
                            status := JNull; priority := JUndefined |} |} demo_db).1
  = DataTask (Some {| t_id := 4; t_title := Some "plan sprint"; t_description := None;
                      t_status := None; t_priority := Some "medium"; t_user_id := 2;
                      t_created_at := 400; t_updated_at := 400 |}).
Proof. reflexivity. Qed.

(** A title of 256 letters is refused. *)
Example createTask_long_title :
  (createTask 400 {| user := bob; params_id := 0; body := title_only (letters 256) |}
     demo_db).1
  = json_fail 500 "Failed to create task" (Some (StringDataRightTruncation 255)).
Proof. vm_compute. reflexivity. Qed.

Lemma createTask_owner_defaults_witness :
  let f := {| title := JString "plan sprint"; description := JNull;
              status := JUndefined; priority := JUndefined |} in
  let answer := createTask 400 {| user := bob; params_id := 0; body := f |} demo_db in
  (valid_new f /\ p_id bob ∈ u_id <$> users demo_db /\ tasks_id_seq demo_db < int4_max) /\
  res_status answer.1 = 201 /\
  exists r, res_data answer.1 = DataTask (Some r) /\
    tasks answer.2 = (tasks demo_db ++ [r])%list /\
    t_user_id r = p_id bob /\
    (status f = JUndefined -> t_status r = Some "pending") /\
    (priority f = JUndefined -> t_priority r = Some "medium").
Proof.
  intros f answer.
  assert (Hvalid : valid_new f) by (split; [by exists "plan sprint"|by repeat split]).
  assert (Huser : p_id bob ∈ u_id <$> users demo_db) by (right; left).
  assert (Hseq : tasks_id_seq demo_db < int4_max) by reflexivity.
  pose proof (createTask_owner_defaults demo_db
                {| user := bob; params_id := 0; body := f |} 400) as (Hrow & _ & Hserved).
  split; [done|]. split; [exact (Hserved Hvalid Huser Hseq)|].
  exact (Hrow (Hserved Hvalid Huser Hseq)).
Defined.

(** ** The statements keep the schema *)

Lemma where_id_cases (d : db) (id userId : Z) (isAdmin : bool) :
  (exists t, t ∈ tasks d /\ Task.where_id id userId isAdmin t = true) \/
  (forall t, t ∈ tasks d -> Task.where_id id userId isAdmin t <> true).
Proof.
  destruct (decide (Exists (fun t => Task.where_id id userId isAdmin t = true) (tasks d)))
    as [Hex|Hno].
  - left. by apply Exists_exists in Hex.
  - right. intros t Hin Hw. apply Hno, Exists_exists. eauto.
Qed.

Lemma patched_rows_ok (d : db) (now id : Z) (f : task_fields) (t : task_row) :
  db_ok d -> t ∈ tasks d -> t_id t = id ->
  task_row_violation (patched now f t) = None ->
  db_ok (with_tasks d
           ((fun r => if bool_decide (t_id r = id) then patched now f r else r) <$> tasks d)).
Proof.
  intros Hok Hin Hid Hval.
  pose proof Hok as [Hu Ht Hfkey Hus Hts Husr Htsr Hrows Hurows Hmail].
  assert (Hsame : forall (g : task_row -> Z),
             (forall r, g (patched now f r) = g r) ->
             g <$> ((fun r => if bool_decide (t_id r = id) then patched now f r else r)
                      <$> tasks d) = g <$> tasks d).
  { intros g Hg. rewrite <- list_fmap_compose. apply fmap_ext_elem.
    intros r _. simpl. by case_bool_decide. }
  constructor; simpl; try done.
  - by rewrite (Hsame t_id).
  - apply Forall_fmap, Forall_forall. intros r Hr. simpl.
    rewrite Forall_forall in Hfkey. specialize (Hfkey r Hr). by case_bool_decide.
  - apply Forall_fmap, Forall_forall. intros r Hr. simpl.
    rewrite Forall_forall in Hts. specialize (Hts r Hr). by case_bool_decide.
  - apply Forall_fmap, Forall_forall. intros r Hr. simpl.
    rewrite Forall_forall in Hrows. case_bool_decide as Hr'; [|by apply Hrows].
    assert (r = t) as -> by (apply (key_inj t_id (tasks d)); [done|done|done|congruence]).
    done.
Qed.

Lemma update_preserves_ok (now : Z) (id : id_param) (userId : Z) (isAdmin : bool)
    (f : task_fields) (d : db) :
  db_ok d -> db_ok (Task.update now id userId isAdmin f d).2.
Proof.
  intros Hok.
  destruct (decide (has_updates f)) as [Hup|Hup]; [|by rewrite update_no_fields].
  destruct (decide (storable f)) as [Hst|Hst];
    [|by destruct (update_refused now id userId isAdmin f d Hup (or_introl Hst)) as [e ->]].
  destruct (decide (id_readable id)) as [[n Hn]|Hrd];
    [|by destruct (update_refused now id userId isAdmin f d Hup (or_intror Hrd)) as [e ->]].
  destruct (where_id_cases d n userId isAdmin) as [(t & Hin & Hw)|Hno];
    [|by rewrite (update_miss d id n)].
  rewrite (update_hit d Hok id n userId isAdmin Hn now f t) by done.
  destruct (task_row_violation (patched now f t)) eqn:Hval; [done|]. simpl.
  apply (patched_rows_ok d now n f t); try done.
  by apply where_id_true in Hw as [? _].
Qed.

Lemma delete_preserves_ok (id : id_param) (userId : Z) (isAdmin : bool) (d : db) :
  db_ok d -> db_ok (Task.delete id userId isAdmin d).2.
Proof.
  intros Hok. unfold Task.delete. destruct (bind_int4 id) as [n|e]; [|done].
  destruct Hok as [Hu Ht Hfkey Hus Hts Husr Htsr Hrows Hurows Hmail]. cbv zeta. simpl.
  constructor; simpl; try done; try by apply Forall_filter_keeps.
  apply (NoDup_fmap_2_strong t_id).
  - intros x y [_ Hx]%list_elem_of_filter [_ Hy]%list_elem_of_filter Hxy.
    symmetry. by apply (key_inj t_id (tasks d)).
  - apply NoDup_filter. by apply NoDup_fmap_1 in Ht.
Qed.

(** ** Partial update *)

(** The answers of update that are not 200. *)
Lemma updateTask_ok_served (d : db) (req : request) (now : Z) :
  db_ok d ->
  res_status (updateTask now req d).1 = 200 ->
  accessible d (user req) (params_id req) /\ has_updates (body req).
Proof.
  intros Hok Hst.
  destruct (decide (has_updates (body req))) as [Hup|Hup];
    [|by rewrite (updateTask_no_fields d req now Hup) in Hst].
  split; [|done].
  destruct (decide (accessible d (user req) (params_id req))) as [|Hno]; [done|].
  destruct (decide (id_readable (params_id req))) as [Hrd|Hrd];
    [|by destruct (updateTask_refused d req now Hup (or_intror Hrd)) as [e He];
         rewrite He in Hst].
  destruct (decide (storable (body req))) as [Hsto|Hsto];
    [|by destruct (updateTask_refused d req now Hup (or_introl Hsto)) as [e He];
         rewrite He in Hst].
  by rewrite (updateTask_miss d req now Hrd Hsto Hno) in Hst.
Qed.

(** What a 200 answer of update tells: the stored row it started from, and
    the database it leaves. *)
Lemma updateTask_ok_inv (d : db) (req : request) (now : Z) (t' : task_row) (d' : db) :
  db_ok d ->
  res_status (updateTask now req d).1 = 200 ->
  res_data (updateTask now req d).1 = DataTask (Some t') ->
  (updateTask now req d).2 = d' ->
  exists t, t ∈ tasks d /\ params_id req = IntegerText (t_id t) /\ permitted (user req) t /\
    has_updates (body req) /\ valid_values (body req) /\ t' = patched now (body req) t /\
    d' = with_tasks d ((fun r => if bool_decide (r = t) then t' else r) <$> tasks d).
Proof.
  intros Hok Hst Hdata Hd.
  destruct (updateTask_ok_served d req now Hok Hst) as ((t & Hin & Hid & Hperm) & Hup).
  destruct (updateTask_served d Hok req now t Hin Hid Hperm Hup)
    as [[Hval Hupd]|[_ [e He]]]; [|by rewrite He in Hst].
  rewrite Hupd in Hdata, Hd. simpl in *.
  injection Hdata as <-. subst d'. exists t.
  split; [done|]. split; [by apply bind_int4_readable in Hid as [? _]|].
  do 4 (split; [done|]).
  f_equal. apply fmap_ext_elem. intros r Hr.
  case_bool_decide as Hr'; case_bool_decide as Hr''; [by subst| |by subst|done].
  exfalso. apply Hr''. apply (key_inj t_id (tasks d)); [apply Hok|done|done|congruence].
Qed.

(** C3.  A successful update changes, in the row with the requested id, the
    fields the request names and [updated_at], and nothing else: an omitted
    field keeps its stored value, a named field takes the value of the
    request as its column stores it (the value itself when it is within the
    length of the column), the id, the owner and the creation time stay,
    every other row and the users table are untouched.  In particular, after
    create, an update of the status alone, and a fetch, the task read back has
    the title, description and priority it was created with and the new
    status; the three steps succeed for every create request the table
    accepts from an existing user while the sequence of task ids has not run
    out. *)
Theorem partial_update_frame :
  (forall (d : db) (req : request) (now : Z) (t' : task_row) (d' : db),
     db_ok d ->
     updateTask now req d =
       (json_ok 200 (Some "Task updated successfully") (DataTask (Some t')), d') ->
     let f := body req in
     exists t, t ∈ tasks d /\ params_id req = IntegerText (t_id t) /\
       (title f = JUndefined -> t_title t' = t_title t) /\
       (description f = JUndefined -> t_description t' = t_description t) /\
       (status f = JUndefined -> t_status t' = t_status t) /\
       (priority f = JUndefined -> t_priority t' = t_priority t) /\
       (title f <> JUndefined -> t_title t' = stored 255 (title f)) /\
       (description f <> JUndefined -> t_description t' = sql_param (description f)) /\
       (status f <> JUndefined -> t_status t' = sql_param (status f)) /\
       (priority f <> JUndefined -> t_priority t' = sql_param (priority f)) /\
       (forall s, title f = JString s -> (String.length s <= 255)%nat -> t_title t' = Some s) /\
       t_id t' = t_id t /\ t_user_id t' = t_user_id t /\
       t_created_at t' = t_created_at t /\ t_updated_at t' = now /\
       tasks d' = (fun r => if bool_decide (r = t) then t' else r) <$> tasks d /\
       users d' = users d) /\
  (forall (d : db) (p : principal) (f0 : task_fields) (s : string) (now0 now1 : Z),
     db_ok d -> valid_new f0 -> p_id p ∈ u_id <$> users d -> tasks_id_seq d < int4_max ->
     s ∈ task_statuses ->
     exists t0 d1 t1 d2 v,
       createTask now0 {| user := p; params_id := 0; body := f0 |} d =
         (json_ok 201 (Some "Task created successfully") (DataTask (Some t0)), d1) /\
       updateTask now1 {| user := p; params_id := t_id t0; body := status_only s |} d1 =
         (json_ok 200 (Some "Task updated successfully") (DataTask (Some t1)), d2) /\
       getTaskById {| user := p; params_id := t_id t0; body := no_fields |} d2 =
         json_ok 200 None (DataTaskView v) /\
       t_title (tv_task v) = t_title t0 /\
       t_description (tv_task v) = t_description t0 /\
       t_priority (tv_task v) = t_priority t0 /\
       t_status (tv_task v) = Some s).
Proof.
  split.
  - intros d req now t' d' Hok Hupd f.
    destruct (updateTask_ok_inv d req now t' d' Hok)
      as (t & Hin & Hid & _ & _ & Hval & -> & ->); [by rewrite Hupd..|].
    exists t. subst f. do 2 (split; [done|]).
    destruct Hval as (_ & _ & _ & Hs & Hp).
    assert (Hst : stored 50 (status (body req)) = sql_param (status (body req))).
    { destruct (status (body req)) as [| |st]; [done|done|]. simpl in *.
      apply bool_decide_eq_true in Hs. f_equal. apply string_take_all.
      pose proof (proj2 task_statuses_short) as Hall. rewrite Forall_forall in Hall.
      by apply Hall. }
    assert (Hpr : stored 50 (priority (body req)) = sql_param (priority (body req))).
    { destruct (priority (body req)) as [| |pr]; [done|done|]. simpl in *.
      apply bool_decide_eq_true in Hp. f_equal. apply string_take_all.
      pose proof (proj2 task_priorities_short) as Hall. rewrite Forall_forall in Hall.
      by apply Hall. }
    rewrite <- Hst, <- Hpr. unfold patched. simpl.
    repeat split; try done; try (by intros ->);
      try match goal with
          | |- ?v <> JUndefined -> _ => intros Hdef; by destruct v
          end.
    intros s -> Hlen. simpl. by rewrite string_take_all.
  - intros d p f0 s now0 now1 Hok Hnew Huser Hseq Hs.
    set (req0 := {| user := p; params_id := 0; body := f0 |}).
    set (t0 := created now0 f0 (p_id p) (tasks_id_seq d + 1)).
    pose proof (valid_new_storable f0 Hnew) as Hsto.
    pose proof (create_preserves_ok now0 f0 (p_id p) d Hok) as Hok1.
    pose proof (createTask_unfold now0 req0 d Hsto Hseq) as Hcreate. cbv zeta in Hcreate.
    pose proof (create_unfold now0 f0 (p_id p) d Hsto Hseq) as Hcreate'. cbv zeta in Hcreate'.
    simpl in Hcreate. fold t0 in Hcreate, Hcreate'.
    assert (Hrow : task_row_violation t0 = None) by by apply created_valid.
    rewrite Hrow in Hcreate, Hcreate'. unfold task_fk_violation in Hcreate, Hcreate'.
    rewrite bool_decide_eq_true_2 in Hcreate, Hcreate' by done.
    rewrite Hcreate' in Hok1. simpl in Hok1.
    set (d1 := with_tasks (advance_tasks_seq d) (tasks d ++ [t0])) in *.
    set (req1 := {| user := p; params_id := t_id t0; body := status_only s |}).
    assert (Hin0 : t0 ∈ tasks d1) by (simpl; apply elem_of_app; right; left).
    assert (Hperm : permitted p t0) by (by right).
    assert (Hsto1 : storable (status_only s)).
    { apply valid_values_storable. repeat split; try done.
      simpl. by apply bool_decide_eq_true_2. }
    assert (Hval1 : task_row_violation (patched now1 (status_only s) t0) = None).
    { apply patched_valid; [done|done|]. repeat split; try done.
      simpl. by apply bool_decide_eq_true_2. }
    pose proof (task_id_in_int4 d1 t0 Hok1 Hin0) as Hid0.
    pose proof (updateTask_hit d1 Hok1 req1 now1 t0 Hin0 Hid0 Hperm) as Hupd.
    simpl in Hupd. rewrite Hval1 in Hupd.
    specialize (Hupd ltac:(right; right; left; done) Hsto1).
    set (t1 := patched now1 (status_only s) t0) in *.
    set (d2 := with_tasks d1 _) in Hupd.
    assert (Hok2 : db_ok d2) by (by apply (patched_rows_ok d1 now1 (t_id t0) _ t0)).
    assert (Hin1 : t1 ∈ tasks d2).
    { simpl. apply list_elem_of_fmap. exists t0. split; [|done].
      by rewrite bool_decide_eq_true_2. }
    destruct (getTaskById_hit d2 Hok2 {| user := p; params_id := t_id t0; body := no_fields |}
                t1 Hin1 Hid0) as (v & Hget & Hv & _); [by right|].
    exists t0, d1, t1, d2, v. rewrite Hv. split; [done|]. split; [done|]. split; [done|].
    split; [done|]. split; [done|]. split; [done|].
    simpl. f_equal. apply string_take_all.
    pose proof (proj2 task_statuses_short) as Hall. rewrite Forall_forall in Hall.
    by apply Hall.
Qed.

Lemma partial_update_frame_witness :
  let req := {| user := alice; params_id := 1; body := status_only "completed" |} in
  let t' := patched 400 (status_only "completed")
              (demo_task 1 "write report" "pending" "high" 1 100) in
  let f0 := {| title := JString "plan sprint"; description := JString "two weeks";
               status := JUndefined; priority := JString "high" |} in
  (exists t, t ∈ tasks demo_db /\ t_id t = 1 /\
     t_title t' = t_title t /\ t_description t' = t_description t /\
     t_priority t' = t_priority t /\ t_status t' = Some "completed" /\
     t_user_id t' = t_user_id t /\ t_created_at t' = t_created_at t) /\
  (exists t0 d1 t1 d2 v,
     createTask 400 {| user := alice; params_id := 0; body := f0 |} demo_db =
       (json_ok 201 (Some "Task created successfully") (DataTask (Some t0)), d1) /\
     updateTask 500 {| user := alice; params_id := t_id t0; body := status_only "completed" |} d1 =
       (json_ok 200 (Some "Task updated successfully") (DataTask (Some t1)), d2) /\
     getTaskById {| user := alice; params_id := t_id t0; body := no_fields |} d2 =
       json_ok 200 None (DataTaskView v) /\
     t_title (tv_task v) = t_title t0 /\
     t_description (tv_task v) = t_description t0 /\
     t_priority (tv_task v) = t_priority t0 /\
     t_status (tv_task v) = Some "completed").
Proof.
  intros req t' f0.
  assert (Hok : db_ok demo_db) by (apply (bool_decide_unpack _); vm_compute; reflexivity).
  split.
  - destruct (proj1 partial_update_frame demo_db req 400 t'
                (updateTask 400 req demo_db).2 Hok eq_refl)
      as (t & Hin & Hid & Httl & Hdesc & _ & Hprio & _ & _ & Hst & _ & _ & _ & Hown & Hcre & _).
    exists t. split; [done|]. split; [by injection Hid|].
    split; [by apply Httl|]. split; [by apply Hdesc|]. split; [by apply Hprio|].
    split; [by apply Hst|]. done.
  - apply (proj2 partial_update_frame demo_db alice f0 "completed" 400 500 Hok).
    + split; [by exists "plan sprint"|]. by repeat split.
    + left.
    + reflexivity.
    + right; right; left.
Defined.

(** ** The parameters of the user statements *)

(** What the parameters of the [INSERT] of a user come to. *)
Lemma user_prepare_insert_spec (name email password role : jsval) :
  match User.prepare_insert name email password role with
  | Return x =>
      (user_storable name email role /\ varchar_accepts 255 password = true) /\
      x = (stored 255 name, stored 255 email, stored 255 password, stored 50 role)
  | Throw _ => ~ (user_storable name email role /\ varchar_accepts 255 password = true)
  end.
Proof.
  unfold User.prepare_insert, user_storable.
  destruct name as [| |name], email as [| |email], password as [| |password],
    role as [| |role];
    cbn -[string_take string_drop];
    repeat match goal with
      | |- context [has_nul ?s] => destruct (has_nul s); cbn -[string_take string_drop]
      | |- context [all_spaces ?s] => destruct (all_spaces s); cbn -[string_take string_drop]
      end;
    first [ by repeat split | by intros [(? & ? & ?) ?] ].
Qed.

Lemma user_assign_name (v : sqltext) :
  assign_set User.column_limit ("name", v) = (v' ← to_varchar 255 v; mret ("name", v')).
Proof. reflexivity. Qed.

Lemma user_assign_email (v : sqltext) :
  assign_set User.column_limit ("email", v) = (v' ← to_varchar 255 v; mret ("email", v')).
Proof. reflexivity. Qed.

Lemma user_assign_role (v : sqltext) :
  assign_set User.column_limit ("role", v) = (v' ← to_varchar 50 v; mret ("role", v')).
Proof. reflexivity. Qed.

(** The [updates] array of [User.update] once its three [if]s have run. *)
Lemma user_collect_updates (name email role : jsval) :
  Task.push_if_defined "role" role
    (Task.push_if_defined "email" email (Task.push_if_defined "name" name [])) =
  ((if is_defined name then [("name", name)] else []) ++
   (if is_defined email then [("email", email)] else []) ++
   (if is_defined role then [("role", role)] else []))%list.
Proof. by destruct name, email, role. Qed.

(** What the parameters of the [UPDATE] of a user come to. *)
Lemma user_prepare_update_spec (name email role : jsval) (id : id_param) :
  match prepare_update User.column_limit
          (Task.push_if_defined "role" role
             (Task.push_if_defined "email" email (Task.push_if_defined "name" name [])))
          id with
  | Return (sets, n) =>
      user_storable name email role /\ bind_int4 id = Return n /\
      sets = user_stored_updates name email role
  | Throw _ => ~ user_storable name email role \/ ~ id_readable id
  end.
Proof.
  unfold prepare_update, user_storable, user_stored_updates, id_readable.
  destruct (bind_int4 id) as [n|e];
  destruct name as [| |name], email as [| |email], role as [| |role];
    cbn -[string_take string_drop assign_set];
    repeat match goal with
      | |- context [has_nul ?s] =>
          destruct (has_nul s); cbn -[string_take string_drop assign_set]
      end;
    rewrite ?user_assign_name, ?user_assign_email, ?user_assign_role;
    cbn -[string_take string_drop];
    repeat match goal with
      | |- context [all_spaces ?s] => destruct (all_spaces s); cbn -[string_take string_drop]
      end;
    first [ by repeat split
          | left; by intros (? & ? & ?)
          | right; by intros [? ?] ].
Qed.

Lemma user_updates_nil (name email role : jsval) :
  Task.push_if_defined "role" role
    (Task.push_if_defined "email" email (Task.push_if_defined "name" name [])) = [] <->
  name = JUndefined /\ email = JUndefined /\ role = JUndefined.
Proof. destruct name, email, role; simpl; naive_solver. Qed.

(** The three ways [User.update] goes: no statement, a statement the server
    refuses, and the [UPDATE] of the row with the id. *)
Lemma user_update_unfold (now : Z) (id : id_param) (name email role : jsval) (d : db) :
  (name = JUndefined /\ email = JUndefined /\ role = JUndefined /\
   User.update now id name email role d = (Return None, d)) \/
  (~ (name = JUndefined /\ email = JUndefined /\ role = JUndefined) /\
   (~ user_storable name email role \/ ~ id_readable id) /\
   exists e, User.update now id name email role d = (Throw e, d)) \/
  (~ (name = JUndefined /\ email = JUndefined /\ role = JUndefined) /\
   user_storable name email role /\
   exists n, bind_int4 id = Return n /\
     User.update now id name email role d =
       let '(result, d') :=
         User.update_returning now ["id"; "name"; "email"; "role"; "updated_at"]
           (user_stored_updates name email role) n d in
       (Task.first_row result, d')).
Proof.
  unfold User.update. cbv zeta.
  pose proof (user_updates_nil name email role) as Hnil.
  pose proof (user_prepare_update_spec name email role id) as Hspec.
  case_bool_decide as Hlen.
  - left. apply length_zero_iff_nil, Hnil in Hlen. naive_solver.
  - right. assert (Hsome : ~ (name = JUndefined /\ email = JUndefined /\ role = JUndefined)).
    { intros Hall%Hnil. by rewrite Hall in Hlen. }
    destruct (prepare_update _ _ _) as [[sets n]|e].
    + right. destruct Hspec as (Hst & Hn & ->). split; [done|]. split; [done|].
      exists n. done.
    + left. split; [done|]. split; [done|]. by exists e.
Qed.

(** The three ways [User.create] goes before the row is checked: no
    password to hash, parameters the server refuses or a sequence that has
    run out, and the [INSERT] of the new row. *)
Lemma user_create_unfold (bcrypt_hash : string -> Z -> string -> string)
    (now : Z) (salt : string) (name email password role : jsval) (d : db) :
  ((password = JUndefined \/ password = JNull) /\
   User.create bcrypt_hash now salt name email password role d = (Throw IllegalArguments, d)) \/
  (exists plain, password = JString plain /\
     let hashed := bcrypt_hash plain 10 salt in
     let role' := default_param role "user" in
     (((~ user_storable name email role \/ varchar_accepts 255 (JString hashed) <> true \/
        ~ users_id_seq d < int4_max) /\
       exists e, User.create bcrypt_hash now salt name email password role d = (Throw e, d)) \/
      (user_storable name email role /\ varchar_accepts 255 (JString hashed) = true /\
       users_id_seq d < int4_max /\
       let r := {| u_id := users_id_seq d + 1; u_name := stored 255 name;
                   u_email := stored 255 email;
                   u_password := Some (string_take 255 hashed);
                   u_role := stored 50 role';
                   u_created_at := now; u_updated_at := now |} in
       User.create bcrypt_hash now salt name email password role d =
         match user_row_violation r with
         | Some e => (Throw e, advance_users_seq d)
         | None =>
             match User.email_violation (users d) r with
             | Some e => (Throw e, advance_users_seq d)
             | None =>
                 (Return (Some (User.select ["id"; "name"; "email"; "role"; "created_at"] r)),
                  with_users (advance_users_seq d) (users d ++ [r]))
             end
         end))).
Proof.
  unfold User.create. destruct password as [| |plain]; [left; naive_solver..|].
  right. exists plain. split; [done|]. cbv zeta.
  unfold User.insert_returning, nextval_users.
  pose proof (user_prepare_insert_spec name email (JString (bcrypt_hash plain 10 salt))
                (default_param role "user")) as Hspec.
  assert (Hrole : user_storable name email (default_param role "user") <->
                  user_storable name email role).
  { unfold user_storable. by rewrite default_accepts. }
  destruct (User.prepare_insert _ _ _ _) as [[[[nm em] pw] rl]|e]; rewrite Hrole in Hspec.
  - destruct Hspec as [[Hst Hpw] [= -> -> -> ->]].
    case_bool_decide as Hseq.
    + right. do 3 (split; [done|]).
      cbn [stored users advance_users_seq].
      destruct (user_row_violation _); [done|].
      by destruct (User.email_violation _ _).
    + left. split; [by right; right|]. by eexists.
  - left. split; [|by exists e].
    destruct (decide (user_storable name email role)); [|by left].
    right; left. intros Hpw. by apply Hspec.
Qed.

(** ** Result rows of the user model *)

Lemma head_fmap_Some {A B : Type} (g : A -> B) (l : list A) (y : B) :
  head (g <$> l) = Some y -> exists x, x ∈ l /\ y = g x.
Proof. destruct l as [|x l]; [done|]. intros [= <-]. exists x. split; [left|done]. Qed.

Lemma cell_is_Some (u : user_row) (col : string) :
  col ∈ User.all_columns -> is_Some (User.cell u col).
Proof.
  unfold User.all_columns. intros Hcol.
  repeat (apply elem_of_cons in Hcol as [->|Hcol]; [by eexists|]).
  by apply elem_of_nil in Hcol.
Qed.

Lemma select_columns_fst (cols : list string) (u : user_row) :
  Forall (fun col => col ∈ User.all_columns) cols ->
  (omap (fun col => pair col <$> User.cell u col) cols).*1 = cols.
Proof.
  induction 1 as [|col cols Hcol _ IH]; [done|]. simpl.
  destruct (cell_is_Some u col Hcol) as [v ->]. simpl. f_equal. exact IH.
Qed.

(** A result row holds exactly the columns of the select list. *)
Lemma select_dom (cols : list string) (u : user_row) :
  Forall (fun col => col ∈ User.all_columns) cols ->
  dom (User.select cols u) = list_to_set cols.
Proof.
  intros Hcols. unfold User.select.
  rewrite dom_list_to_map_L. f_equal. by apply select_columns_fst.
Qed.

Lemma select_omits (cols : list string) (u : user_row) (col : string) :
  Forall (fun col => col ∈ User.all_columns) cols ->
  col ∉ cols -> User.select cols u !! col = None.
Proof.
  intros Hcols Hcol. apply not_elem_of_dom. rewrite select_dom by done.
  by rewrite elem_of_list_to_set.
Qed.

Lemma select_all_password (u : user_row) :
  User.select User.all_columns u !! "password" = Some (text_cell (u_password u)).
Proof. reflexivity. Qed.

Section user_rows.
Context (bcrypt_hash : string -> Z -> string -> string).

Local Abbreviation created_columns := ["id"; "name"; "email"; "role"; "created_at"].
Local Abbreviation updated_columns := ["id"; "name"; "email"; "role"; "updated_at"].

Lemma created_columns_known : Forall (fun col => col ∈ User.all_columns) created_columns.
Proof. by apply (bool_decide_unpack _). Qed.

Lemma updated_columns_known : Forall (fun col => col ∈ User.all_columns) updated_columns.
Proof. by apply (bool_decide_unpack _). Qed.

Lemma select_shows_only (cols : list string) (u : user_row) :
  Forall (fun col => col ∈ User.all_columns) cols -> "password" ∉ cols ->
  shows_only cols (User.select cols u).
Proof. intros Hcols Hpw. split; [by apply select_dom | by apply select_omits]. Qed.

Lemma create_row (now : Z) (salt : string) (name email password role : jsval)
    (d d' : db) (row : result_row) :
  User.create bcrypt_hash now salt name email password role d = (Return (Some row), d') ->
  exists plain u, password = JString plain /\
    u_password u = Some (string_take 255 (bcrypt_hash plain 10 salt)) /\
    users d' = (users d ++ [u])%list /\
    row = User.select created_columns u.
Proof.
  destruct (user_create_unfold bcrypt_hash now salt name email password role d)
    as [[_ ->]|(plain & -> & [[_ [e ->]]|(_ & _ & _ & ->)])]; [done|done|].
  cbv zeta. destruct (user_row_violation _); [done|].
  destruct (User.email_violation _ _); [done|].
  intros Heq. apply pair_equal_spec in Heq as [Hrow <-].
  eexists plain, _. split; [done|]. split; [|split]; [| |by injection Hrow]; done.
Qed.

Lemma findById_row (id : id_param) (d : db) (row : result_row) :
  User.findById id d = Return (Some row) ->
  exists u, u ∈ users d /\ id = IntegerText (u_id u) /\ row = User.select created_columns u.
Proof.
  unfold User.findById. destruct (bind_int4 id) as [n|e] eqn:Hn; [|done].
  apply bind_int4_readable in Hn as [-> _]. simpl. intros Heq.
  assert (Hhead : head (User.select created_columns
                          <$> filter (fun u => u_id u = n) (users d)) = Some row)
    by by injection Heq.
  apply head_fmap_Some in Hhead as (u & [<- ?]%list_elem_of_filter & ->). by exists u.
Qed.

Lemma findAll_rows (d : db) (rows : list result_row) (row : result_row) :
  User.findAll d = Return rows -> row ∈ rows ->
  exists u, u ∈ users d /\ row = User.select created_columns u.
Proof.
  unfold User.findAll. intros Heq. injection Heq as <-.
  intros (u & -> & Hu)%list_elem_of_fmap.
  exists u. split; [|done]. by rewrite merge_sort_Permutation in Hu.
Qed.

Lemma update_row (now : Z) (id : id_param) (name email role : jsval) (d d' : db)
    (row : result_row) :
  User.update now id name email role d = (Return (Some row), d') ->
  exists u, row = User.select updated_columns u.
Proof.
  destruct (user_update_unfold now id name email role d)
    as [(_ & _ & _ & ->)|[(_ & _ & [e ->])|(_ & _ & n & _ & ->)]]; [done|done|].
  unfold User.update_returning. cbv zeta.
  destruct (first_violation user_row_violation _); [done|].
  destruct (first_violation _ _); [done|]. simpl.
  intros Heq. apply pair_equal_spec in Heq as [Hhead _]. injection Hhead as Hhead.
  apply head_fmap_Some in Hhead as (u & _ & ->). by exists u.
Qed.

Lemma findByEmail_row (email : jsval) (d : db) (row : result_row) :
  User.findByEmail email d = Return (Some row) ->
  exists u, u ∈ users d /\ u_email u = sql_param email /\
    row = User.select User.all_columns u.
Proof.
  unfold User.findByEmail. rewrite bind_text_readable.
  destruct (text_readable email); [|done]. simpl. intros Hhead. injection Hhead as Hhead.
  apply head_fmap_Some in Hhead as (u & [Heq ?]%list_elem_of_filter & ->).
  exists u. split; [done|]. split; [|done].
  unfold User.sql_eq in Heq. destruct (u_email u), (sql_param email); try done.
  apply bool_decide_eq_true in Heq. by subst.
Qed.

End user_rows.

(** C10.  Every row the user model returns from create, findById, findAll
    and update holds exactly the columns id, name, email, role and one
    timestamp (created_at, or updated_at for update), and no password
    column; the row findByEmail returns holds the password column, with the
    stored hash of the user of that email. *)
Theorem user_rows_omit_password (bcrypt_hash : string -> Z -> string -> string) (d : db) :
  (forall now salt name email password role row d',
     User.create bcrypt_hash now salt name email password role d = (Return (Some row), d') ->
     shows_only ["id"; "name"; "email"; "role"; "created_at"] row) /\
  (forall id row,
     User.findById id d = Return (Some row) ->
     shows_only ["id"; "name"; "email"; "role"; "created_at"] row) /\
  (forall rows row,
     User.findAll d = Return rows -> row ∈ rows ->
     shows_only ["id"; "name"; "email"; "role"; "created_at"] row) /\
  (forall now id name email role row d',
     User.update now id name email role d = (Return (Some row), d') ->
     shows_only ["id"; "name"; "email"; "role"; "updated_at"] row) /\
  (forall email row,
     User.findByEmail email d = Return (Some row) ->
     exists u, u ∈ users d /\ u_email u = sql_param email /\
       row !! "password" = Some (text_cell (u_password u))).
Proof.
  assert (Hpw1 : "password" ∉ ["id"; "name"; "email"; "role"; "created_at"])
    by by apply (bool_decide_unpack _).
  assert (Hpw2 : "password" ∉ ["id"; "name"; "email"; "role"; "updated_at"])
    by by apply (bool_decide_unpack _).
  split; [|split; [|split; [|split]]].
  - intros now salt name email password role row d' Hc.
    apply create_row in Hc as (plain & u & _ & _ & _ & ->).
    apply select_shows_only; [apply created_columns_known|done].
  - intros id row (u & _ & _ & ->)%findById_row.
    apply select_shows_only; [apply created_columns_known|done].
  - intros rows row Hall Hrow.
    destruct (findAll_rows d rows row Hall Hrow) as (u & _ & ->).
    apply select_shows_only; [apply created_columns_known|done].
  - intros now id name email role row d' (u & ->)%update_row.
    apply select_shows_only; [apply updated_columns_known|done].
  - intros email row (u & Hin & Hmail & ->)%findByEmail_row.
    exists u. split; [done|]. split; [done|]. apply select_all_password.
Qed.

Lemma user_rows_omit_password_witness :
  (exists row d',
     User.create demo_hash 400 "N9qo8uLOickgx2ZMRZoMye"
       (JString "Carol") (JString "carol@x.com") (JString "secret1") JUndefined demo_db
       = (Return (Some row), d') /\
     shows_only ["id"; "name"; "email"; "role"; "created_at"] row) /\
  (exists row,
     User.findById 2 demo_db = Return (Some row) /\
     shows_only ["id"; "name"; "email"; "role"; "created_at"] row) /\
  (exists row d',
     User.update 400 2 JUndefined JUndefined (JString "admin") demo_db
       = (Return (Some row), d') /\
     shows_only ["id"; "name"; "email"; "role"; "updated_at"] row) /\
  (exists row u,
     User.findByEmail (JString "bob@x.com") demo_db = Return (Some row) /\
     u ∈ users demo_db /\ u_email u = Some "bob@x.com" /\
     row !! "password" = Some (text_cell (u_password u))).
Proof.
  pose proof (user_rows_omit_password demo_hash demo_db)
    as (Hcreate & Hfind & _ & Hupdate & Hemail).
  pose (first_of := fun (res : js (option result_row)) =>
                      match res with Return (Some row) => row | _ => ∅ end).
  split; [|split; [|split]].
  - pose (res := User.create demo_hash 400 "N9qo8uLOickgx2ZMRZoMye"
                   (JString "Carol") (JString "carol@x.com") (JString "secret1")
                   JUndefined demo_db).
    assert (Hres : res = (Return (Some (first_of res.1)), res.2)) by reflexivity.
    exists (first_of res.1), res.2. split; [exact Hres|].
    exact (Hcreate _ _ _ _ _ _ _ _ Hres).
  - pose (res := User.findById 2 demo_db).
    assert (Hres : res = Return (Some (first_of res))) by reflexivity.
    exists (first_of res). split; [exact Hres|]. exact (Hfind _ _ Hres).
  - pose (res := User.update 400 2 JUndefined JUndefined (JString "admin") demo_db).
    assert (Hres : res = (Return (Some (first_of res.1)), res.2)) by reflexivity.
    exists (first_of res.1), res.2. split; [exact Hres|].
    exact (Hupdate _ _ _ _ _ _ _ Hres).
  - pose (res := User.findByEmail (JString "bob@x.com") demo_db).
    assert (Hres : res = Return (Some (first_of res))) by reflexivity.
    destruct (Hemail _ _ Hres) as (u & Hu & Hmail & Hrow).
    exists (first_of res), u. split; [exact Hres|]. done.
Defined.

(** ** Tokens *)

Section tokens.
Context (hmac_sha256 : string -> string -> string) (signing_input : Jwt.claims -> string).
Context (timespan : string -> Z -> option Z).
Context (env_JWT_SECRET env_JWT_EXPIRE : option string).

Local Abbreviation generateToken :=
  (Jwt.generateToken hmac_sha256 signing_input timespan env_JWT_SECRET env_JWT_EXPIRE).
Local Abbreviation verifyToken :=
  (Jwt.verifyToken hmac_sha256 signing_input env_JWT_SECRET).

(** A token is generated exactly when the library reads [JWT_EXPIRE] as a
    time span, and carries the payload, the time of issue and the expiry the
    library computes. *)
Lemma generateToken_claims (now_ms : Z) (p : principal) (expiry : Z) :
  timespan (Jwt.JWT_EXPIRE env_JWT_EXPIRE) (now_ms / 1000) = Some expiry ->
  exists tk, generateToken now_ms p = Return tk /\
    Jwt.tk_claims tk = {| Jwt.payload := p; Jwt.iat := now_ms / 1000; Jwt.exp := expiry |} /\
    Jwt.tk_signature tk =
      hmac_sha256 (Jwt.JWT_SECRET env_JWT_SECRET) (signing_input (Jwt.tk_claims tk)).
Proof.
  intros Hspan. unfold Jwt.generateToken, Jwt.sign, Jwt.clock_timestamp.
  rewrite Hspan. by eexists.
Qed.

Lemma generateToken_unreadable (now_ms : Z) (p : principal) :
  timespan (Jwt.JWT_EXPIRE env_JWT_EXPIRE) (now_ms / 1000) = None ->
  generateToken now_ms p = Throw InvalidTimespan.
Proof.
  intros Hspan. unfold Jwt.generateToken, Jwt.sign, Jwt.clock_timestamp. by rewrite Hspan.
Qed.

(** From its expiry on, a token is refused. *)
Lemma verifyToken_expired (t_ms : Z) (tk : Jwt.token) :
  Jwt.exp (Jwt.tk_claims tk) <= t_ms / 1000 -> verifyToken t_ms tk = None.
Proof.
  intros Hexp. unfold Jwt.verifyToken, Jwt.verify, Jwt.clock_timestamp.
  destruct (negb _); [done|]. by rewrite bool_decide_eq_true_2.
Qed.

(** A token whose signature is not the keyed hash of its claims is refused. *)
Lemma verifyToken_forged (t_ms : Z) (tk : Jwt.token) :
  Jwt.tk_signature tk <>
    hmac_sha256 (Jwt.JWT_SECRET env_JWT_SECRET) (signing_input (Jwt.tk_claims tk)) ->
  verifyToken t_ms tk = None.
Proof.
  intros Hsig. unfold Jwt.verifyToken, Jwt.verify.
  by rewrite bool_decide_eq_false_2.
Qed.

End tokens.

(** C6.  Whenever the library reads [JWT_EXPIRE] (the environment value, or
    ['24h'] in its place) as a time span, a token is generated for a user id
    and role; it expires when the library says, and verified at any time
    before its expiry (on the second-granular clock of the library) it is
    accepted, and the decoded claims carry that id and that role.  When the
    library cannot read [JWT_EXPIRE], no token is generated: the call
    throws. *)
Theorem verifyToken_generateToken_roundtrip
    (hmac_sha256 : string -> string -> string) (signing_input : Jwt.claims -> string)
    (timespan : string -> Z -> option Z)
    (env_JWT_SECRET env_JWT_EXPIRE : option string)
    (now_ms t_ms : Z) (p : principal) :
  let generated :=
    Jwt.generateToken hmac_sha256 signing_input timespan env_JWT_SECRET env_JWT_EXPIRE
      now_ms p in
  let read := timespan (Jwt.JWT_EXPIRE env_JWT_EXPIRE) (Jwt.clock_timestamp now_ms) in
  (forall expiry, read = Some expiry ->
     exists tk, generated = Return tk /\
       Jwt.exp (Jwt.tk_claims tk) = expiry /\
       (Jwt.clock_timestamp t_ms < expiry ->
        exists c, Jwt.verifyToken hmac_sha256 signing_input env_JWT_SECRET t_ms tk = Some c /\
          p_id (Jwt.payload c) = p_id p /\ p_role (Jwt.payload c) = p_role p /\
          Jwt.iat c = Jwt.clock_timestamp now_ms /\ Jwt.exp c = expiry)) /\
  (read = None -> generated = Throw InvalidTimespan).
Proof.
  intros generated read. subst generated read. split.
  - intros expiry Hspan.
    destruct (generateToken_claims hmac_sha256 signing_input timespan env_JWT_SECRET
                env_JWT_EXPIRE now_ms p expiry Hspan) as (tk & -> & Hclaims & Hsig).
    exists tk. split; [done|]. split; [by rewrite Hclaims|].
    intros Hlive. exists (Jwt.tk_claims tk). split; [|by rewrite Hclaims].
    unfold Jwt.verifyToken, Jwt.verify.
    rewrite bool_decide_eq_true_2 by done. simpl.
    rewrite bool_decide_eq_false_2; [done|]. rewrite Hclaims. simpl. lia.
  - apply generateToken_unreadable.
Qed.

Lemma verifyToken_generateToken_roundtrip_witness :
  demo_timespan (Jwt.JWT_EXPIRE None) (Jwt.clock_timestamp 1700000000000) = Some 1700086400 /\
  Jwt.clock_timestamp 1700003600000 < 1700086400 /\
  exists tk,
    Jwt.generateToken demo_hmac demo_signing_input demo_timespan None None 1700000000000 bob
      = Return tk /\
    Jwt.exp (Jwt.tk_claims tk) = 1700086400 /\
    exists c, Jwt.verifyToken demo_hmac demo_signing_input None 1700003600000 tk = Some c /\
      p_id (Jwt.payload c) = 2 /\ p_role (Jwt.payload c) = "user" /\
      Jwt.iat c = 1700000000 /\ Jwt.exp c = 1700086400.
Proof.
  split; [reflexivity|]. split; [reflexivity|].
  destruct (proj1 (verifyToken_generateToken_roundtrip demo_hmac demo_signing_input
                     demo_timespan None None 1700000000000 1700003600000 bob)
              1700086400 eq_refl) as (tk & Hgen & Hexp & Hver).
  exists tk. split; [exact Hgen|]. split; [exact Hexp|]. exact (Hver eq_refl).
Defined.

(** The same token a day later, and a [JWT_EXPIRE] the library cannot
    read. *)
Example verifyToken_after_a_day :
  exists tk,
    Jwt.generateToken demo_hmac demo_signing_input demo_timespan None None 1700000000000 bob
      = Return tk /\
    Jwt.verifyToken demo_hmac demo_signing_input None (1700000000000 + 24 * 60 * 60 * 1000) tk
      = None.
Proof. eexists. split; reflexivity. Qed.

Example generateToken_unreadable_expiry :
  Jwt.generateToken demo_hmac demo_signing_input demo_timespan None (Some "soon")
    1700000000000 bob = Throw InvalidTimespan.
Proof. reflexivity. Qed.

(** ** The user statements keep the schema *)

Lemma user_row_valid_email (r : user_row) :
  user_row_violation r = None -> is_Some (u_email r).
Proof. rewrite user_row_valid. naive_solver. Qed.

(** A row that passes the [UNIQUE] check has an email no other row has. *)
Lemma email_fresh (others : list user_row) (r : user_row) :
  user_row_violation r = None -> User.email_violation others r = None ->
  u_email r ∉ u_email <$> others.
Proof.
  intros [e He]%user_row_valid_email. unfold User.email_violation.
  case_bool_decide as Hex; [done|]. intros _ (u & Hmail & Hu)%list_elem_of_fmap.
  apply Hex, Exists_exists. exists u. split; [done|].
  rewrite <- Hmail, He. simpl. by apply bool_decide_eq_true_2.
Qed.

Lemma advance_users_seq_ok (d : db) :
  db_ok d -> users_id_seq d < int4_max -> db_ok (advance_users_seq d).
Proof.
  intros [Hu Ht Hfkey Hus Hts Husr Htsr Hrows Hurows Hmails] Hseq.
  constructor; simpl; try done; [|lia].
  eapply Forall_impl; [exact Hus|]. simpl. intros; lia.
Qed.

Lemma user_create_preserves_ok (bcrypt_hash : string -> Z -> string -> string)
    (now : Z) (salt : string) (name email password role : jsval) (d : db) :
  db_ok d -> db_ok (User.create bcrypt_hash now salt name email password role d).2.
Proof.
  intros Hok.
  destruct (user_create_unfold bcrypt_hash now salt name email password role d)
    as [[_ ->]|(plain & -> & [[_ [e ->]]|(_ & _ & Hseq & ->)])]; [done|done|].
  cbv zeta. pose proof (advance_users_seq_ok d Hok Hseq) as Hok1.
  destruct (user_row_violation _) eqn:Hrow; [done|].
  destruct (User.email_violation _ _) eqn:Hmail; [done|]. simpl in *.
  destruct Hok as [Hu Ht Hfkey Hus Hts Husr Htsr Hrows Hurows Hmails].
  constructor; simpl; try done.
  - rewrite fmap_app. apply NoDup_app. split; [done|]. split; [|apply NoDup_singleton].
    intros i Hi [->|[]%elem_of_nil]%elem_of_cons.
    apply list_elem_of_fmap in Hi as (u & Hid & Hin).
    rewrite Forall_forall in Hus. specialize (Hus u Hin). simpl in Hid. lia.
  - eapply Forall_impl; [exact Hfkey|]. simpl. intros t Hin.
    rewrite fmap_app. apply elem_of_app. by left.
  - apply Forall_app. split.
    + eapply Forall_impl; [exact Hus|]. simpl. intros; lia.
    + apply Forall_singleton. simpl. lia.
  - lia.
  - apply Forall_app. split; [done|]. by apply Forall_singleton.
  - rewrite fmap_app. apply NoDup_app. split; [done|]. split; [|apply NoDup_singleton].
    intros e He [->|[]%elem_of_nil]%elem_of_cons.
    by apply (email_fresh (users d) _ Hrow Hmail).
Qed.

Lemma user_delete_preserves_ok (id : id_param) (d : db) :
  db_ok d -> db_ok (User.delete id d).2.
Proof.
  intros Hok. unfold User.delete. destruct (bind_int4 id) as [n|e]; [|done].
  destruct Hok as [Hu Ht Hfkey Hus Hts Husr Htsr Hrows Hurows Hmails]. simpl.
  constructor; simpl; try done; try by apply Forall_filter_keeps.
  - apply (NoDup_fmap_2_strong u_id).
    + intros x y [_ Hx]%list_elem_of_filter [_ Hy]%list_elem_of_filter Hxy.
      symmetry. by apply (key_inj u_id (users d)).
    + apply NoDup_filter. by apply NoDup_fmap_1 in Hu.
  - apply (NoDup_fmap_2_strong t_id).
    + intros x y [_ Hx]%list_elem_of_filter [_ Hy]%list_elem_of_filter Hxy.
      symmetry. by apply (key_inj t_id (tasks d)).
    + apply NoDup_filter. by apply NoDup_fmap_1 in Ht.
  - rewrite Forall_forall in Hfkey. apply Forall_forall.
    intros t [Hne Hin]%list_elem_of_filter.
    apply Hfkey in Hin as (u & Hid & Hu')%list_elem_of_fmap.
    apply list_elem_of_fmap. exists u. split; [done|].
    apply list_elem_of_filter. split; [congruence|done].
  - apply (NoDup_fmap_2_strong u_email).
    + intros x y [_ Hx]%list_elem_of_filter [_ Hy]%list_elem_of_filter Hxy.
      symmetry. by apply (key_inj u_email (users d)).
    + apply NoDup_filter. by apply NoDup_fmap_1 in Hu.
Qed.

Lemma first_violation_None {A : Type} (viol : A -> option exn) (rows : list A) :
  first_violation viol rows = None -> Forall (fun r => viol r = None) rows.
Proof.
  unfold first_violation. induction rows as [|r rows IH]; [constructor|].
  simpl. destruct (viol r) eqn:Hr; [done|]. intros Hrest. constructor; [done|by apply IH].
Qed.

Lemma user_set_column_id (col : string) (v : sqltext) (r : user_row) :
  u_id (User.set_column col v r) = u_id r.
Proof. unfold User.set_column. by repeat case_bool_decide. Qed.

Lemma user_apply_updates_id (now : Z) (updates : list (string * sqltext)) (r : user_row) :
  u_id (User.apply_updates now updates r) = u_id r.
Proof.
  unfold User.apply_updates. simpl. revert r.
  induction updates as [|[col v] updates IH]; intros r; [done|].
  simpl. by rewrite IH, user_set_column_id.
Qed.

Lemma user_update_preserves_ok (now : Z) (id : id_param) (name email role : jsval) (d : db) :
  db_ok d -> db_ok (User.update now id name email role d).2.
Proof.
  intros Hok.
  destruct (user_update_unfold now id name email role d)
    as [(_ & _ & _ & ->)|[(_ & _ & [e ->])|(_ & _ & n & _ & ->)]]; [done|done|].
  unfold User.update_returning. cbv zeta.
  set (updates := user_stored_updates _ _ _).
  destruct (first_violation user_row_violation _) eqn:Hrow; [done|].
  destruct (first_violation (User.email_violation _) _) eqn:Hmail; [done|]. simpl.
  apply first_violation_None in Hrow, Hmail.
  rewrite Forall_fmap, Forall_forall in Hrow, Hmail.
  pose proof Hok as [Hu Ht Hfkey Hus Hts Husr Htsr Hrows Hurows Hmails].
  set (f := fun r => if bool_decide (u_id r = n) then User.apply_updates now updates r else r).
  assert (Hid : forall r, u_id (f r) = u_id r).
  { intros r. unfold f. case_bool_decide; [apply user_apply_updates_id|done]. }
  assert (Hids : u_id <$> (f <$> users d) = u_id <$> users d).
  { rewrite <- list_fmap_compose. apply fmap_ext_elem. intros r _. apply Hid. }
  constructor; simpl; try done.
  - by rewrite Hids.
  - by rewrite Hids.
  - apply Forall_fmap, Forall_forall. intros r Hr. simpl. rewrite Hid.
    rewrite Forall_forall in Hus. by apply Hus.
  - apply Forall_fmap, Forall_forall. intros r Hr. simpl. unfold f.
    rewrite Forall_forall in Hurows. case_bool_decide; [|by apply Hurows].
    apply Hrow. by apply list_elem_of_filter.
  - rewrite <- list_fmap_compose. apply NoDup_fmap_2_strong; [|by apply NoDup_fmap_1 in Hu].
    intros x y Hx Hy. unfold f. simpl.
    assert (Hclash : forall a b, a ∈ users d -> b ∈ users d -> u_id a = n -> u_id b <> n ->
              u_email (User.apply_updates now updates a) <> u_email b).
    { intros a b Ha Hb Hida Hidb Heq.
      assert (Hin : a ∈ filter (fun r => u_id r = n) (users d))
        by by apply list_elem_of_filter.
      apply (email_fresh (filter (fun r => u_id r <> n) (users d)) _ (Hrow a Hin) (Hmail a Hin)).
      rewrite Heq. apply list_elem_of_fmap_2. by apply list_elem_of_filter. }
    case_bool_decide as Hxid; case_bool_decide as Hyid; intros Heq.
    + apply (key_inj u_id (users d)); [done..|congruence].
    + by apply Hclash in Heq.
    + symmetry in Heq. by apply Hclash in Heq.
    + by apply (key_inj u_email (users d)).
Qed.

(** X4.  Every state the calls can reach from the migrated, empty database
    satisfies the schema: unique ids and emails, every task owned by a stored
    user, every row within its column types and its [NOT NULL] and [CHECK]
    constraints, every id issued by its sequence, and both sequences within
    the type [INTEGER]. *)
Lemma reachable_db_ok (bcrypt_hash : string -> Z -> string -> string) (d : db) :
  reachable bcrypt_hash d -> db_ok d.
Proof.
  induction 1 as [|d c _ IH].
  - by apply (bool_decide_unpack _).
  - destruct c as [now req|now req|req|now salt name email password role
                  |now id name email role|id]; simpl.
    + unfold createTask. cbv zeta. rewrite task_fields_eta.
      pose proof (create_preserves_ok now (body req) (p_id (user req)) d IH) as Hc.
      by destruct (Task.create _ _ _ _) as [[?|?] ?].
    + unfold updateTask. cbv zeta. rewrite task_fields_eta.
      pose proof (update_preserves_ok now (params_id req) (p_id (user req))
                    (isAdmin_of req) (body req) d IH) as Hc.
      by destruct (Task.update _ _ _ _ _ _) as [[[?|]|?] ?].
    + unfold deleteTask. cbv zeta.
      pose proof (delete_preserves_ok (params_id req) (p_id (user req))
                    (isAdmin_of req) d IH) as Hc.
      by destruct (Task.delete _ _ _ _) as [[[?|]|?] ?].
    + by apply user_create_preserves_ok.
    + by apply user_update_preserves_ok.
    + by apply user_delete_preserves_ok.
Qed.

(** Stats count the rows list returns. *)
Lemma getStats_total (d : db) (userId : Z) (isAdmin : bool) :
  db_ok d ->
  exists vs st, Task.findAll userId isAdmin d = Return vs /\
    Task.getStats userId isAdmin d = Return (Some st) /\
    total st = Z.of_nat (length vs).
Proof.
  intros Hok. destruct (findAll_returns d Hok userId isAdmin) as (vs & Hall & Hperm & _).
  exists vs. eexists. split; [done|]. split; [reflexivity|]. simpl.
  f_equal. rewrite <- (length_fmap tv_task vs), Hperm. by destruct isAdmin.
Qed.

(** ** The stored password *)

(** What [User.create] stores in the password column is the library hash of
    the submitted plaintext at cost 10, as the column stores it: the hash
    itself when it has at most 255 characters.  Whether that string can
    coincide with the plaintext is a property of the hash alone. *)
Lemma create_stores_hash (bcrypt_hash : string -> Z -> string -> string)
    (now : Z) (salt : string) (name email password role : jsval)
    (d d' : db) (row : result_row) :
  User.create bcrypt_hash now salt name email password role d = (Return (Some row), d') ->
  exists plain u,
    password = JString plain /\
    users d' = (users d ++ [u])%list /\
    u_password u = Some (string_take 255 (bcrypt_hash plain 10 salt)) /\
    ((String.length (bcrypt_hash plain 10%Z salt) <= 255)%nat ->
     u_password u = Some (bcrypt_hash plain 10 salt) /\
     (u_password u = Some plain <-> bcrypt_hash plain 10 salt = plain)).
Proof.
  intros (plain & u & Hpw & Hstored & Husers & _)%create_row.
  exists plain, u. split; [done|]. split; [done|]. split; [done|].
  intros Hlen. rewrite Hstored, string_take_all by done. split; [done|]. split; congruence.
Qed.

Example create_stores_hash_demo :
  exists d' u,
    (User.create demo_hash 400 "N9qo8uLOickgx2ZMRZoMye"
       (JString "Carol") (JString "carol@x.com") (JString "secret1") JUndefined demo_db).2 = d' /\
    users d' = (users demo_db ++ [u])%list /\
    u_password u = Some "$2a$10$N9qo8uLOickgx2ZMRZoMye1terces" /\
    u_role u = Some "user".
Proof. eexists _, _. split; [reflexivity|]. split; [reflexivity|]. split; reflexivity. Qed.

(** * Further properties of the stores *)

(** ** What a write leaves in the tasks table *)

Lemma createTask_db (now : Z) (req : request) (d : db) :
  (createTask now req d).2 = (Task.create now (body req) (p_id (user req)) d).2.
Proof.
  unfold createTask. cbv zeta. rewrite task_fields_eta.
  by destruct (Task.create _ _ _ _) as [[?|?] ?].
Qed.

Lemma updateTask_db (now : Z) (req : request) (d : db) :
  (updateTask now req d).2 =
  (Task.update now (params_id req) (p_id (user req)) (isAdmin_of req) (body req) d).2.
Proof.
  unfold updateTask. cbv zeta. rewrite task_fields_eta.
  by destruct (Task.update _ _ _ _ _ _) as [[[?|]|?] ?].
Qed.

Lemma deleteTask_db (req : request) (d : db) :
  (deleteTask req d).2 =
  (Task.delete (params_id req) (p_id (user req)) (isAdmin_of req) d).2.
Proof.
  unfold deleteTask. cbv zeta.
  by destruct (Task.delete _ _ _ _) as [[[?|]|?] ?].
Qed.

Lemma task_set_column_identity (col : string) (v : sqltext) (r : task_row) :
  t_id (Task.set_column col v r) = t_id r /\
  t_user_id (Task.set_column col v r) = t_user_id r /\
  t_created_at (Task.set_column col v r) = t_created_at r.
Proof. unfold Task.set_column. by repeat case_bool_decide. Qed.

Lemma task_apply_updates_identity (now : Z) (updates : list (string * sqltext)) (r : task_row) :
  t_id (Task.apply_updates now updates r) = t_id r /\
  t_user_id (Task.apply_updates now updates r) = t_user_id r /\
  t_created_at (Task.apply_updates now updates r) = t_created_at r.
Proof.
  unfold Task.apply_updates. simpl. revert r.
  induction updates as [|[col v] updates IH]; intros r; [done|]. simpl.
  destruct (IH (Task.set_column col v r)) as (-> & -> & ->).
  apply task_set_column_identity.
Qed.

(** The tasks table after [Task.create]: as before, or with one row more. *)
Lemma create_tasks (now : Z) (f : task_fields) (owner : Z) (d : db) :
  let d' := (Task.create now f owner d).2 in
  users d' = users d /\
  (tasks d' = tasks d \/
   tasks d' = (tasks d ++ [created now f owner (tasks_id_seq d + 1)])%list).
Proof.
  cbv zeta.
  destruct (decide (storable f)) as [Hst|Hst];
    [|by destruct (create_refused now f owner d (or_introl Hst)) as [e ->]; split; [|left]].
  destruct (decide (tasks_id_seq d < int4_max)) as [Hseq|Hseq];
    [|by destruct (create_refused now f owner d (or_intror Hseq)) as [e ->]; split; [|left]].
  rewrite create_unfold by done. cbv zeta.
  destruct (task_row_violation _); [by split; [|left]|].
  destruct (task_fk_violation _ _); [by split; [|left]|]. by split; [|right].
Qed.

(** The tasks table after [Task.update]: as before, or with the selected
    rows rewritten in place. *)
Lemma update_tasks (now : Z) (id : id_param) (userId : Z) (isAdmin : bool)
    (f : task_fields) (d : db) :
  let d' := (Task.update now id userId isAdmin f d).2 in
  users d' = users d /\
  (tasks d' = tasks d \/
   exists n sets,
     tasks d' = (fun r => if Task.where_id n userId isAdmin r
                          then Task.apply_updates now sets r else r)
                  <$> tasks d).
Proof.
  cbv zeta. unfold Task.update. cbv zeta. case_bool_decide; [by split; [|left]|].
  destruct (prepare_update _ _ _) as [[sets n]|e]; [|by split; [|left]].
  unfold Task.update_returning. cbv zeta.
  destruct (first_violation _ _); [by split; [|left]|]. split; [done|]. right. by exists n, sets.
Qed.

(** X1.  Whatever call runs, a task row found afterwards is either a row
    that was there before under the same id, with the same owner and the same
    creation time, or the row a create call has just inserted: its id is
    above the sequence, its owner is the caller.  No call moves a task to
    another owner or changes its id or creation time. *)
Theorem tasks_keep_identity (bcrypt_hash : string -> Z -> string -> string)
    (d : db) (c : call) (t' : task_row) :
  t' ∈ tasks (run bcrypt_hash c d) ->
  (exists t, t ∈ tasks d /\ t_id t = t_id t' /\
     t_user_id t = t_user_id t' /\ t_created_at t = t_created_at t') \/
  (exists now req, c = CallCreateTask now req /\
     t_id t' = tasks_id_seq d + 1 /\
     t_user_id t' = p_id (user req) /\ t_created_at t' = now).
Proof.
  assert (Hsame : t' ∈ tasks d ->
            exists t, t ∈ tasks d /\ t_id t = t_id t' /\
              t_user_id t = t_user_id t' /\ t_created_at t = t_created_at t')
    by (intros Hin; by exists t').
  destruct c as [now req|now req|req|now salt name email password role
                |now id name email role|id]; simpl.
  - rewrite createTask_db.
    destruct (create_tasks now (body req) (p_id (user req)) d) as [_ [->| ->]];
      [by left; apply Hsame|].
    intros [Hin|Hin]%elem_of_app; [by left; apply Hsame|].
    apply list_elem_of_singleton in Hin as ->. right. by exists now, req.
  - rewrite updateTask_db.
    destruct (update_tasks now (params_id req) (p_id (user req)) (isAdmin_of req)
                (body req) d) as [_ [->|(n & sets & ->)]]; [by left; apply Hsame|].
    intros (r & -> & Hr)%list_elem_of_fmap. left. exists r. split; [done|].
    destruct (Task.where_id _ _ _ r); [|done].
    by destruct (task_apply_updates_identity now sets r) as (-> & -> & ->).
  - rewrite deleteTask_db. unfold Task.delete.
    destruct (bind_int4 _) as [n|e]; [|by left; apply Hsame]. simpl.
    intros [_ Hin]%list_elem_of_filter. by left; apply Hsame.
  - destruct (user_create_unfold bcrypt_hash now salt name email password role d)
      as [[_ ->]|(plain & -> & [[_ [e ->]]|(_ & _ & _ & ->)])];
      [by left; apply Hsame..|].
    cbv zeta. destruct (user_row_violation _); [by left; apply Hsame|].
    destruct (User.email_violation _ _); by left; apply Hsame.
  - destruct (user_update_unfold now id name email role d)
      as [(_ & _ & _ & ->)|[(_ & _ & [e ->])|(_ & _ & n & _ & ->)]];
      [by left; apply Hsame..|].
    unfold User.update_returning. cbv zeta.
    destruct (first_violation user_row_violation _); [by left; apply Hsame|].
    destruct (first_violation _ _); by left; apply Hsame.
  - unfold User.delete. destruct (bind_int4 _) as [n|e]; [|by left; apply Hsame]. simpl.
    intros [_ Hin]%list_elem_of_filter. by left; apply Hsame.
Qed.

Lemma tasks_keep_identity_witness :
  let req := {| user := root; params_id := 1;
                body := {| title := JString "rewrite report"; description := JNull;
                           status := JString "completed"; priority := JString "low" |} |} in
  let t' := patched 400 (body req) (demo_task 1 "write report" "pending" "high" 1 100) in
  t' ∈ tasks (run demo_hash (CallUpdateTask 400 req) demo_db) /\
  exists t, t ∈ tasks demo_db /\ t_id t = t_id t' /\
    t_user_id t = t_user_id t' /\ t_created_at t = t_created_at t'.
Proof.
  intros req t'.
  assert (Hin : t' ∈ tasks (run demo_hash (CallUpdateTask 400 req) demo_db)) by left.
  split; [exact Hin|].
  destruct (tasks_keep_identity demo_hash demo_db (CallUpdateTask 400 req) t' Hin)
    as [Hold|(now & req' & Hc & _)]; [exact Hold|discriminate Hc].
Defined.

(** ** Members do not see each other's writes *)

Lemma filter_join_users (P : task_row -> Prop) `{forall t, Decision (P t)}
    (us : list user_row) (ts : list task_row) :
  filter (fun v => P (tv_task v)) (ts ≫= Task.join_users us)
  = filter P ts ≫= Task.join_users us.
Proof.
  induction ts as [|t ts IH]; [done|].
  rewrite bind_cons, filter_app, IH. destruct (decide (P t)) as [HP|HP].
  - rewrite (filter_cons_True P) by done. rewrite bind_cons. f_equal.
    apply filter_all. intros v (u & -> & _)%list_elem_of_fmap. done.
  - rewrite (filter_cons_False P) by done.
    rewrite filter_key_miss; [done|]. intros v (u & -> & _)%list_elem_of_fmap. done.
Qed.

Lemma filter_filter_sub {A : Type} (P Q : A -> Prop)
    `{forall x, Decision (P x)} `{forall x, Decision (Q x)} (l : list A) :
  (forall x, P x -> Q x) -> filter P (filter Q l) = filter P l.
Proof.
  intros Hsub. induction l as [|a l IH]; [done|].
  destruct (decide (Q a)) as [HQ|HQ].
  - rewrite (filter_cons_True Q) by done. rewrite !(filter_cons P), IH. done.
  - rewrite (filter_cons_False Q) by done.
    rewrite (filter_cons_False P) by (intros HP; by apply HQ, Hsub). done.
Qed.

(** What a member reads depends on the users table and on the member's own
    tasks only. *)
Lemma member_reads_own_tasks (req : request) (d d' : db) :
  p_role (user req) <> "admin" ->
  users d' = users d ->
  filter (fun t => t_user_id t = p_id (user req)) (tasks d')
  = filter (fun t => t_user_id t = p_id (user req)) (tasks d) ->
  same_answers req d d'.
Proof.
  intros Hrole Hus Hts.
  assert (Hadm : isAdmin_of req = false) by by apply bool_decide_eq_false_2.
  unfold same_answers, getAllTasks, getTaskById, getTaskStats. cbv zeta. rewrite Hadm.
  unfold Task.findAll, Task.findById, Task.getStats, Task.tasks_join_users. simpl.
  pose proof (filter_join_users (fun t => t_user_id t = p_id (user req))) as Hown.
  simpl in Hown. rewrite !Hown, Hus, Hts.
  split; [done|]. split; [|done].
  destruct (bind_int4 (params_id req)) as [n|e]; [|done]. simpl.
  pose proof (filter_join_users
                (fun t => Task.where_id n (p_id (user req)) false t = true))
    as Hsel.
  simpl in Hsel. rewrite !Hsel.
  assert (Hsub : forall l : list task_row,
            filter (fun t => Task.where_id n (p_id (user req)) false t = true) l
            = filter (fun t => Task.where_id n (p_id (user req)) false t = true)
                (filter (fun t => t_user_id t = p_id (user req)) l)).
  { intros l. symmetry. apply filter_filter_sub.
    intros t Ht. apply where_id_true in Ht as [_ [?|?]]; done. }
  by rewrite (Hsub (tasks d')), (Hsub (tasks d)), Hts.
Qed.

(** A member's write keeps the rows of every other owner. *)
Lemma member_write_keeps_others (now : Z) (w : request) (q : Z) (d : db) :
  p_role (user w) <> "admin" -> q <> p_id (user w) ->
  Forall (fun d' => users d' = users d /\
            filter (fun t => t_user_id t = q) (tasks d')
            = filter (fun t => t_user_id t = q) (tasks d))
    [ (createTask now w d).2; (updateTask now w d).2; (deleteTask w d).2 ].
Proof.
  intros Hrole Hq.
  assert (Hadm : isAdmin_of w = false) by by apply bool_decide_eq_false_2.
  assert (Hwhere : forall n r, Task.where_id n (p_id (user w)) false r = true ->
                     t_user_id r <> q).
  { intros n r [_ [?|?]]%where_id_true; [done|congruence]. }
  repeat apply Forall_cons_2; [| | |constructor].
  - rewrite createTask_db.
    destruct (create_tasks now (body w) (p_id (user w)) d) as [-> [->| ->]]; [done|].
    split; [done|]. rewrite filter_app, filter_cons_False, filter_nil by done.
    apply app_nil_r.
  - rewrite updateTask_db, Hadm.
    destruct (update_tasks now (params_id w) (p_id (user w)) false (body w) d)
      as [-> [->|(n & sets & ->)]]; [done|].
    split; [done|]. induction (tasks d) as [|r rs IH]; [done|].
    rewrite fmap_cons, !filter_cons, IH.
    destruct (Task.where_id _ _ _ r) eqn:Hw; [|done].
    destruct (task_apply_updates_identity now sets r) as (_ & Hown & _).
    apply Hwhere in Hw.
    destruct (decide (t_user_id (Task.apply_updates _ _ r) = q)) as [Hyes|_]; [congruence|].
    by destruct (decide (t_user_id r = q)).
  - rewrite deleteTask_db, Hadm. unfold Task.delete.
    destruct (bind_int4 (params_id w)) as [n|e]; [|done]. simpl. split; [done|].
    set (wh := Task.where_id n (p_id (user w)) false) in *.
    induction (tasks d) as [|r rs IH]; [done|].
    rewrite (filter_cons (fun r => wh r = false)).
    destruct (decide (wh r = false)) as [Hw|Hw].
    + rewrite !(filter_cons (fun t => t_user_id t = q)), IH. done.
    + rewrite IH, (filter_cons_False (fun t => t_user_id t = q)); [done|].
      apply (Hwhere n). change (wh r = true). by destruct (wh r).
Qed.

(** X2.  When a principal that is not an administrator creates, updates or
    deletes a task, every other non-administrator gets the same answers as
    before from list, fetch by id and stats. *)
Theorem member_writes_invisible_to_other_members (now : Z) (w r : request) (d : db) :
  p_role (user w) <> "admin" -> p_role (user r) <> "admin" ->
  p_id (user r) <> p_id (user w) ->
  same_answers r d (createTask now w d).2 /\
  same_answers r d (updateTask now w d).2 /\
  same_answers r d (deleteTask w d).2.
Proof.
  intros Hw Hr Hne.
  pose proof (member_write_keeps_others now w (p_id (user r)) d Hw Hne) as Hkeep.
  rewrite !Forall_cons in Hkeep. destruct Hkeep as ([? ?] & [? ?] & [? ?] & _).
  split; [|split]; by apply member_reads_own_tasks.
Qed.

(** Bob creates a task, completes his task 2 and deletes it: each write is
    served and changes the tasks table, and Alice's answers stay as they
    were. *)
Lemma member_writes_invisible_to_other_members_witness :
  let w := {| user := bob; params_id := 2;
              body := {| title := JString "fix logout"; description := JUndefined;
                         status := JString "completed"; priority := JUndefined |} |} in
  let r := {| user := alice; params_id := 1; body := no_fields |} in
  (res_status (createTask 400 w demo_db).1 = 201 /\
   res_status (updateTask 400 w demo_db).1 = 200 /\
   res_status (deleteTask w demo_db).1 = 200) /\
  (tasks (createTask 400 w demo_db).2 <> tasks demo_db /\
   tasks (updateTask 400 w demo_db).2 <> tasks demo_db /\
   tasks (deleteTask w demo_db).2 <> tasks demo_db) /\
  same_answers r demo_db (createTask 400 w demo_db).2 /\
  same_answers r demo_db (updateTask 400 w demo_db).2 /\
  same_answers r demo_db (deleteTask w demo_db).2.
Proof.
  intros w r.
  split; [by repeat split|]. split; [by repeat split|].
  apply (member_writes_invisible_to_other_members 400 w r demo_db); discriminate.
Defined.

(** An administrator's write, by contrast, shows: Root completes Alice's
    task 1, and Alice's stats change. *)
Example admin_write_is_visible :
  let w := {| user := root; params_id := 1; body := status_only "completed" |} in
  let r := {| user := alice; params_id := 1; body := no_fields |} in
  getTaskStats r (updateTask 400 w demo_db).2 <> getTaskStats r demo_db.
Proof. vm_compute. discriminate. Qed.

(** ** After a delete *)

(** X3.  When delete is served, exactly the row with the requested id leaves
    the tasks table: the other rows and the users stay, and from then on
    fetch and delete of that id are answered 404 for every principal,
    administrators included; so is an update of that id, unless it names a
    field with a value its column does not take, which is answered 500. *)
Theorem deleteTask_then_not_found (d : db) (req : request) :
  db_ok d -> accessible d (user req) (params_id req) ->
  let d' := (deleteTask req d).2 in
  users d' = users d /\
  (forall t, t ∈ tasks d' <-> t ∈ tasks d /\ params_id req <> IntegerText (t_id t)) /\
  S (length (tasks d')) = length (tasks d) /\
  (forall (req' : request) (now : Z), params_id req' = params_id req ->
     getTaskById req' d' = json_fail 404 "Task not found" None /\
     deleteTask req' d' = (delete_not_found, d') /\
     (~ has_updates (body req') \/ storable (body req') ->
        updateTask now req' d' = (update_not_found, d')) /\
     (has_updates (body req') -> ~ storable (body req') ->
        exists e, updateTask now req' d' =
                    (json_fail 500 "Failed to update task" (Some e), d'))).
Proof.
  intros Hok (t0 & Hin0 & Hid0 & Hperm0). cbv zeta.
  rewrite (deleteTask_hit d Hok req t0 Hin0 Hid0 Hperm0). simpl.
  set (d' := with_tasks d _).
  pose proof Hid0 as [Hreq _]%bind_int4_readable.
  assert (Hok' : db_ok d').
  { pose proof (delete_preserves_ok (params_id req) (p_id (user req)) (isAdmin_of req) d Hok)
      as Hp.
    rewrite <- deleteTask_db, (deleteTask_hit d Hok req t0 Hin0 Hid0 Hperm0) in Hp. exact Hp. }
  assert (Hmem : forall t, t ∈ tasks d' <->
                   t ∈ tasks d /\ params_id req <> IntegerText (t_id t)).
  { intros t. simpl. rewrite list_elem_of_filter, Hreq. split.
    - intros [Hne ?]. split; [done|]. intros [= Heq]. by apply Hne.
    - intros [? Hne]. split; [|done]. intros Heq. apply Hne. by rewrite Heq. }
  split; [done|]. split; [exact Hmem|]. split.
  - simpl.
    pose proof (filter_app_complement (fun r => t_id r <> t_id t0) (tasks d)) as Hlen.
    apply Permutation_length in Hlen. rewrite length_app in Hlen.
    assert (Hone : filter (fun r => ~ t_id r <> t_id t0) (tasks d) = [t0]).
    { apply (filter_key_hit t_id); [apply Hok|done|by intros ?|].
      intros y _ Hy. by apply dec_stable in Hy. }
    rewrite Hone in Hlen. simpl in Hlen. lia.
  - intros req' now Hid.
    assert (Hrd : id_readable (params_id req')) by (exists (t_id t0); by rewrite Hid).
    assert (Hno : ~ accessible d' (user req') (params_id req')).
    { intros (t & Hin & Hid' & _). apply Hmem in Hin as [_ Hne].
      apply Hne. rewrite <- Hid. by apply bind_int4_readable in Hid' as [? _]. }
    split; [by apply getTaskById_miss|]. split; [by apply deleteTask_miss|].
    split.
    + intros [Hup|Hst]; [by apply updateTask_no_fields | by apply updateTask_miss].
    + intros Hup Hst. apply updateTask_refused; [done|by left].
Qed.

Lemma deleteTask_then_not_found_witness :
  let req := {| user := alice; params_id := 3; body := no_fields |} in
  let d' := (deleteTask req demo_db).2 in
  (db_ok demo_db /\ accessible demo_db alice 3) /\
  S (length (tasks d')) = length (tasks demo_db) /\
  getTaskById {| user := root; params_id := 3; body := no_fields |} d'
    = json_fail 404 "Task not found" None.
Proof.
  intros req d'.
  assert (Hok : db_ok demo_db) by (apply (bool_decide_unpack _); vm_compute; reflexivity).
  assert (Hacc : accessible demo_db alice 3)
    by (apply (bool_decide_unpack _); vm_compute; reflexivity).
  split; [done|].
  destruct (deleteTask_then_not_found demo_db req Hok Hacc) as (_ & _ & Hlen & Hgone).
  split; [exact Hlen|].
  exact (proj1 (Hgone {| user := root; params_id := 3; body := no_fields |} 0 eq_refl)).
Defined.

(** ** Reachable states *)

Lemma reachable_run_all (bcrypt_hash : string -> Z -> string -> string)
    (cs : list call) (d : db) :
  reachable bcrypt_hash d -> reachable bcrypt_hash (run_all bcrypt_hash cs d).
Proof.
  revert d. induction cs as [|c cs IH]; intros d Hd; [done|].
  simpl. apply IH. by constructor.
Qed.

Lemma reachable_db_ok_witness :
  reachable demo_hash (run_all demo_hash demo_run empty_db) /\
  db_ok (run_all demo_hash demo_run empty_db) /\
  length (tasks (run_all demo_hash demo_run empty_db)) = 1%nat.
Proof.
  assert (Hreach : reachable demo_hash (run_all demo_hash demo_run empty_db))
    by (apply reachable_run_all; constructor).
  split; [exact Hreach|]. split; [|reflexivity].
  exact (reachable_db_ok demo_hash _ Hreach).
Defined.

Lemma user_set_column_password (col : string) (v : sqltext) (r : user_row) :
  u_password (User.set_column col v r) = u_password r.
Proof. unfold User.set_column. by repeat case_bool_decide. Qed.

Lemma user_apply_updates_password (now : Z) (updates : list (string * sqltext))
    (r : user_row) :
  u_password (User.apply_updates now updates r) = u_password r.
Proof.
  unfold User.apply_updates. simpl. revert r.
  induction updates as [|[col v] updates IH]; intros r; [done|].
  simpl. by rewrite IH, user_set_column_password.
Qed.

(** The users table after [User.update]: as before, or with the rows of that
    id rewritten in place. *)
Lemma user_update_users (now : Z) (id : id_param) (name email role : jsval) (d : db) :
  let d' := (User.update now id name email role d).2 in
  tasks d' = tasks d /\
  (users d' = users d \/
   exists n updates,
     users d' = (fun r => if bool_decide (u_id r = n)
                          then User.apply_updates now updates r else r) <$> users d).
Proof.
  cbv zeta.
  destruct (user_update_unfold now id name email role d)
    as [(_ & _ & _ & ->)|[(_ & _ & [e ->])|(_ & _ & n & _ & ->)]];
    [by split; [|left]..|].
  unfold User.update_returning. cbv zeta.
  destruct (first_violation user_row_violation _); [by split; [|left]|].
  destruct (first_violation _ _); [by split; [|left]|].
  split; [done|]. right. by eexists _, _.
Qed.

(** X5.  In every reachable state, the password column of every user row
    holds an output of the library hash at cost 10, as the column stores it
    (the output itself when it has at most 255 characters, as a bcrypt hash
    has): registration stores nothing else, and no other call writes that
    column. *)
Theorem reachable_passwords_hashed (bcrypt_hash : string -> Z -> string -> string) (d : db) :
  reachable bcrypt_hash d -> Forall (password_hashed bcrypt_hash) (users d).
Proof.
  induction 1 as [|d c _ IH]; [constructor|].
  destruct c as [now req|now req|req|now salt name email password role
                |now id name email role|id]; simpl.
  - rewrite createTask_db.
    by destruct (create_tasks now (body req) (p_id (user req)) d) as [-> _].
  - rewrite updateTask_db.
    by destruct (update_tasks now (params_id req) (p_id (user req)) (isAdmin_of req)
                   (body req) d) as [-> _].
  - rewrite deleteTask_db. unfold Task.delete.
    by destruct (bind_int4 _).
  - destruct (user_create_unfold bcrypt_hash now salt name email password role d)
      as [[_ ->]|(plain & -> & [[_ [e ->]]|(_ & _ & _ & ->)])]; [done|done|].
    cbv zeta. destruct (user_row_violation _); [done|].
    destruct (User.email_violation _ _); [done|]. simpl.
    apply Forall_app. split; [done|]. apply Forall_singleton. exists plain, salt.
    simpl. split; [done|]. intros Hlen. by rewrite string_take_all.
  - destruct (user_update_users now id name email role d)
      as [_ [->|(n & updates & ->)]]; [done|].
    apply Forall_fmap. eapply Forall_impl; [exact IH|].
    intros u (plain & salt & Hpw). simpl. exists plain, salt.
    case_bool_decide; [by rewrite user_apply_updates_password|done].
  - unfold User.delete. destruct (bind_int4 id) as [n|e]; [|done].
    simpl. by apply Forall_filter_keeps.
Qed.

Lemma reachable_passwords_hashed_witness :
  reachable demo_hash (run_all demo_hash demo_run empty_db) /\
  Forall (password_hashed demo_hash) (users (run_all demo_hash demo_run empty_db)) /\
  u_password <$> users (run_all demo_hash demo_run empty_db)
    = [Some "$2a$10$N9qo8uLOickgx2ZMRZoMye1terces"].
Proof.
  assert (Hreach : reachable demo_hash (run_all demo_hash demo_run empty_db))
    by (apply reachable_run_all; constructor).
  split; [exact Hreach|]. split; [|reflexivity].
  exact (reachable_passwords_hashed demo_hash _ Hreach).
Defined.

(** ** Statistics *)

Lemma count_status_split (rows : list task_row) :
  Forall (fun t => task_row_violation t = None) rows ->
  Task.count_status "pending" rows + Task.count_status "in_progress" rows +
  Task.count_status "completed" rows +
  Z.of_nat (length (filter (fun t => t_status t = None) rows))
  = Z.of_nat (length rows).
Proof.
  unfold Task.count_status. induction 1 as [|t rows Ht _ IH]; [done|].
  rewrite !filter_cons. simpl length. rewrite Nat2Z.inj_succ, <- IH. clear IH.
  apply task_row_valid in Ht as (_ & _ & _ & _ & _ & Ht).
  destruct (t_status t) as [st|]; simpl in Ht.
  - apply bool_decide_eq_true in Ht as Hs. clear Ht.
    repeat (apply elem_of_cons in Hs as [->|Hs];
            [repeat (destruct (decide _); try done); simpl length; lia|]).
    by apply elem_of_nil in Hs.
  - repeat (destruct (decide _); try done). simpl length. lia.
Qed.

(** X6.  Stats and list agree for every principal: [total] is the number of
    tasks list returns, and the three status counts together with the number
    of listed tasks that have no status add up to [total]. *)
Theorem getTaskStats_adds_up (d : db) (req : request) :
  db_ok d ->
  exists st vs,
    getTaskStats req d = json_ok 200 None (DataStats (Some st)) /\
    getAllTasks req d = json_ok 200 None (DataTasks vs (total st)) /\
    pending st + in_progress st + completed st +
    Z.of_nat (length (filter (fun v => t_status (tv_task v) = None) vs)) = total st.
Proof.
  intros Hok. unfold getTaskStats, getAllTasks. cbv zeta.
  destruct (findAll_returns d Hok (p_id (user req)) (isAdmin_of req))
    as (vs & -> & Hperm & _).
  set (rows := if isAdmin_of req then tasks d
               else filter (fun t => t_user_id t = p_id (user req)) (tasks d)) in *.
  assert (Hstats : Task.getStats (p_id (user req)) (isAdmin_of req) d =
            Return (Some {| total := Z.of_nat (length rows);
                            pending := Task.count_status "pending" rows;
                            in_progress := Task.count_status "in_progress" rows;
                            completed := Task.count_status "completed" rows |})).
  { unfold Task.getStats, rows. by destruct (isAdmin_of req). }
  rewrite Hstats. eexists _, vs. split; [done|]. simpl.
  assert (Hlen : length vs = length rows) by by rewrite <- Hperm, length_fmap.
  split; [by rewrite Hlen|].
  assert (Hnull : length (filter (fun v => t_status (tv_task v) = None) vs)
                  = length (filter (fun t => t_status t = None) rows)).
  { pose proof (filter_fmap_tv_task (fun t => t_status t = None) vs) as Hf. simpl in Hf.
    by rewrite <- (length_fmap tv_task), Hf, Hperm. }
  rewrite Hnull. apply count_status_split.
  pose proof (tasks_rows_valid d Hok) as Hrows. unfold rows.
  destruct (isAdmin_of req); [done|by apply Forall_filter_keeps].
Qed.

Lemma getTaskStats_adds_up_witness :
  db_ok demo_db /\
  exists st vs,
    getTaskStats {| user := root; params_id := 0; body := no_fields |} demo_db
      = json_ok 200 None (DataStats (Some st)) /\
    getAllTasks {| user := root; params_id := 0; body := no_fields |} demo_db
      = json_ok 200 None (DataTasks vs (total st)) /\
    pending st + in_progress st + completed st +
    Z.of_nat (length (filter (fun v => t_status (tv_task v) = None) vs)) = total st.
Proof.
  assert (Hok : db_ok demo_db) by (apply (bool_decide_unpack _); vm_compute; reflexivity).
  split; [exact Hok|].
  exact (getTaskStats_adds_up demo_db {| user := root; params_id := 0; body := no_fields |} Hok).
Defined.

Example getTaskStats_root :
  res_data (getTaskStats {| user := root; params_id := 0; body := no_fields |} demo_db)
  = DataStats (Some {| total := 3; pending := 1; in_progress := 1; completed := 1 |}).
Proof. reflexivity. Qed.

(** ** Reading back what was written *)

Lemma createTask_created_inv (d : db) (now : Z) (req : request) (t : task_row) (d' : db) :
  db_ok d ->
  createTask now req d =
    (json_ok 201 (Some "Task created successfully") (DataTask (Some t)), d') ->
  t = created now (body req) (p_id (user req)) (tasks_id_seq d + 1) /\
  tasks d' = (tasks d ++ [t])%list /\ users d' = users d /\ db_ok d'.
Proof.
  intros Hok Hc.
  pose proof (create_preserves_ok now (body req) (p_id (user req)) d Hok) as Hok'.
  rewrite <- createTask_db, Hc in Hok'. simpl in Hok'.
  destruct (decide (storable (body req))) as [Hst|Hst];
    [|by destruct (createTask_refused now req d (or_introl Hst)) as [e He];
         rewrite He in Hc].
  destruct (decide (tasks_id_seq d < int4_max)) as [Hseq|Hseq];
    [|by destruct (createTask_refused now req d (or_intror Hseq)) as [e He];
         rewrite He in Hc].
  rewrite createTask_unfold in Hc by done. cbv zeta in Hc.
  destruct (task_row_violation _); [done|]. destruct (task_fk_violation _ _); [done|].
  injection Hc as <- <-. done.
Qed.

(** X7.  A task that create has answered with 201 carries an id above every
    id already stored, and can be read back at once: fetch by that id returns
    the created row, joined with the name and email of its owner, to the
    owner and to every administrator, and answers 404 to everyone else. *)
Theorem createTask_then_getTaskById (d : db) (now : Z) (req : request)
    (t : task_row) (d' : db) :
  db_ok d ->
  createTask now req d =
    (json_ok 201 (Some "Task created successfully") (DataTask (Some t)), d') ->
  (forall r, r ∈ tasks d -> t_id r < t_id t) /\
  (forall reader : request, params_id reader = t_id t ->
     (permitted (user reader) t ->
        exists v u, getTaskById reader d' = json_ok 200 None (DataTaskView v) /\
          tv_task v = t /\ u ∈ users d /\ u_id u = p_id (user req) /\
          tv_user_name v = u_name u /\ tv_user_email v = u_email u) /\
     (~ permitted (user reader) t ->
        getTaskById reader d' = json_fail 404 "Task not found" None)).
Proof.
  intros Hok Hc.
  destruct (createTask_created_inv d now req t d' Hok Hc) as (Ht & Hts & Hus & Hok').
  assert (Hin : t ∈ tasks d') by (rewrite Hts; apply elem_of_app; right; left).
  split.
  - intros r Hr. pose proof (tasks_id_issued d Hok) as Hseq.
    rewrite Forall_forall in Hseq. specialize (Hseq r Hr). subst t. simpl. lia.
  - intros reader Hid.
    assert (Hbind : bind_int4 (params_id reader) = Return (t_id t))
      by (rewrite Hid; by apply (task_id_in_int4 d')).
    split.
    + intros Hperm.
      destruct (getTaskById_hit d' Hok' reader t Hin Hbind Hperm)
        as (v & Hget & Hv & Hjoin).
      unfold Task.tasks_join_users in Hjoin.
      apply list_elem_of_bind in Hjoin as (t0 & Hv0 & _).
      apply list_elem_of_fmap in Hv0 as (u & -> & [Hu Hin_u]%list_elem_of_filter).
      simpl in Hv. subst t0. eexists _, u. split; [exact Hget|].
      rewrite Hus in Hin_u. subst t. done.
    + intros Hno. apply getTaskById_miss; [done|by exists (t_id t)|].
      intros (t2 & Hin2 & Hid2 & Hperm2). apply Hno.
      assert (t2 = t) as <-
        by (apply (key_inj t_id (tasks d')); [apply Hok'|done|done|congruence]).
      done.
Qed.

Lemma createTask_then_getTaskById_witness :
  let req := {| user := bob; params_id := 0;
                body := {| title := JString "plan sprint"; description := JUndefined;
                           status := JUndefined; priority := JUndefined |} |} in
  let t := created 400 (body req) 2 4 in
  let d' := (createTask 400 req demo_db).2 in
  db_ok demo_db /\
  (forall r, r ∈ tasks demo_db -> t_id r < 4) /\
  (exists v u, getTaskById {| user := root; params_id := 4; body := no_fields |} d'
                 = json_ok 200 None (DataTaskView v) /\
     tv_task v = t /\ u ∈ users demo_db /\ u_id u = 2 /\
     tv_user_name v = u_name u /\ tv_user_email v = u_email u) /\
  getTaskById {| user := alice; params_id := 4; body := no_fields |} d'
    = json_fail 404 "Task not found" None.
Proof.
  intros req t d'.
  assert (Hok : db_ok demo_db) by (apply (bool_decide_unpack _); vm_compute; reflexivity).
  destruct (createTask_then_getTaskById demo_db 400 req t d' Hok eq_refl) as [Hfresh Hread].
  split; [exact Hok|]. split; [exact Hfresh|]. split.
  - apply (proj1 (Hread {| user := root; params_id := 4; body := no_fields |} eq_refl)).
    by left.
  - apply (proj2 (Hread {| user := alice; params_id := 4; body := no_fields |} eq_refl)).
    intros [Hadm|Hown]; discriminate.
Defined.

Lemma patched_twice (now now2 : Z) (f : task_fields) (t : task_row) :
  patched now2 f (patched now f t) = Task.set_updated_at now2 (patched now f t).
Proof. unfold patched, Task.set_updated_at. simpl. by destruct f as [[| |?] [| |?] [| |?] [| |?]]. Qed.

Lemma set_updated_at_violation (now : Z) (t : task_row) :
  task_row_violation (Task.set_updated_at now t) = task_row_violation t.
Proof. done. Qed.

(** X8.  After an update answered with 200, fetch by the same principal
    returns the updated row; sending the same update again is served again
    and changes nothing but the [updated_at] of that row, and nothing at all
    when it runs at the same time stamp. *)
Theorem updateTask_read_back_and_repeat (d : db) (now : Z) (req : request)
    (t' : task_row) (d' : db) :
  db_ok d ->
  updateTask now req d =
    (json_ok 200 (Some "Task updated successfully") (DataTask (Some t')), d') ->
  (exists v, getTaskById req d' = json_ok 200 None (DataTaskView v) /\ tv_task v = t') /\
  (forall now2,
     updateTask now2 req d' =
       (json_ok 200 (Some "Task updated successfully")
          (DataTask (Some (Task.set_updated_at now2 t'))),
        with_tasks d'
          ((fun r => if bool_decide (r = t') then Task.set_updated_at now2 t' else r)
             <$> tasks d'))) /\
  updateTask now req d' =
    (json_ok 200 (Some "Task updated successfully") (DataTask (Some t')), d').
Proof.
  intros Hok Hupd.
  destruct (updateTask_ok_inv d req now t' d' Hok)
    as (t & Hin & Hid & Hperm & Hup & Hval & Ht' & Hd'); [by rewrite Hupd..|].
  pose proof (valid_values_storable _ Hval) as Hsto.
  assert (Hok' : db_ok d').
  { pose proof (update_preserves_ok now (params_id req) (p_id (user req)) (isAdmin_of req)
                  (body req) d Hok) as Hp.
    by rewrite <- updateTask_db, Hupd in Hp. }
  assert (Hin' : t' ∈ tasks d').
  { rewrite Hd'. simpl. apply list_elem_of_fmap. exists t.
    by rewrite bool_decide_eq_true_2. }
  assert (Hidt : t_id t' = t_id t) by by subst t'.
  assert (Hid' : bind_int4 (params_id req) = Return (t_id t'))
    by (rewrite Hid, Hidt; by apply (task_id_in_int4 d)).
  assert (Hperm' : permitted (user req) t') by by subst t'.
  assert (Hvalid : task_row_violation t' = None).
  { pose proof (tasks_rows_valid d' Hok') as Hrows. rewrite Forall_forall in Hrows.
    by apply Hrows. }
  assert (Hagain : forall now2,
            updateTask now2 req d' =
              (json_ok 200 (Some "Task updated successfully")
                 (DataTask (Some (Task.set_updated_at now2 t'))),
               with_tasks d'
                 ((fun r => if bool_decide (r = t') then Task.set_updated_at now2 t' else r)
                    <$> tasks d'))).
  { intros now2. rewrite (updateTask_hit d' Hok' req now2 t') by done.
    rewrite Ht', patched_twice, set_updated_at_violation, <- Ht', Hvalid.
    do 2 f_equal. apply fmap_ext_elem. intros r Hr.
    case_bool_decide as Hrid; case_bool_decide as Hr'; [|exfalso|exfalso|done].
    - subst r. by rewrite Ht', patched_twice.
    - apply Hr'. apply (key_inj t_id (tasks d')); [apply Hok'|done|done|done].
    - by subst r. }
  split; [|split].
  - destruct (getTaskById_hit d' Hok' req t' Hin' Hid' Hperm') as (v & Hget & Hv & _).
    by exists v.
  - exact Hagain.
  - rewrite Hagain. f_equal.
    + do 3 f_equal. by subst t'.
    + etrans; [|apply with_tasks_same]. f_equal.
      etrans; [|apply list_fmap_id]. apply fmap_ext_elem. intros r Hr.
      case_bool_decide as Hrid; [|done]. subst r. by subst t'.
Qed.

Lemma updateTask_read_back_and_repeat_witness :
  let req := {| user := alice; params_id := 1; body := status_only "completed" |} in
  let t' := patched 400 (status_only "completed")
              (demo_task 1 "write report" "pending" "high" 1 100) in
  let d' := (updateTask 400 req demo_db).2 in
  db_ok demo_db /\
  (exists v, getTaskById req d' = json_ok 200 None (DataTaskView v) /\ tv_task v = t') /\
  updateTask 400 req d' =
    (json_ok 200 (Some "Task updated successfully") (DataTask (Some t')), d').
Proof.
  intros req t' d'.
  assert (Hok : db_ok demo_db) by (apply (bool_decide_unpack _); vm_compute; reflexivity).
  destruct (updateTask_read_back_and_repeat demo_db 400 req t' d' Hok eq_refl)
    as (Hread & _ & Hsame).
  split; [exact Hok|]. split; [exact Hread|exact Hsame].
Defined.

(** Every row list returns is the join of a stored task. *)
Lemma getAllTasks_db_rows (d : db) (Hok : db_ok d) (req : request)
    (vs : list task_view) (n : Z) :
  getAllTasks req d = json_ok 200 None (DataTasks vs n) ->
  forall v, v ∈ vs -> tv_task v ∈ tasks d /\ v ∈ Task.tasks_join_users d.
Proof.
  unfold getAllTasks, Task.findAll. cbv zeta. intros Hall v Hv.
  injection Hall as <- _. rewrite merge_sort_Permutation in Hv.
  assert (Hjoin : v ∈ Task.tasks_join_users d).
  { destruct (negb (isAdmin_of req)); [|done]. by apply list_elem_of_filter in Hv as [_ ?]. }
  split; [|done]. rewrite <- (tasks_join_users_tasks d Hok). by apply list_elem_of_fmap_2.
Qed.

(** ** Deleting a user *)

(** X9.  [User.delete] removes the user row of that id and, through the
    cascade of the foreign key, every task that user owns, and nothing else;
    afterwards [User.findById] finds no such user and no principal's list
    shows a task of that owner.  It returns no row exactly when the id is an
    integer of the type [INTEGER] that no user has; an id that is no such
    integer makes it throw and change nothing. *)
Theorem user_delete_cascades (d : db) (id : id_param) :
  db_ok d ->
  let d' := (User.delete id d).2 in
  (forall u, u ∈ users d' <-> u ∈ users d /\ id <> IntegerText (u_id u)) /\
  (forall t, t ∈ tasks d' <-> t ∈ tasks d /\ id <> IntegerText (t_user_id t)) /\
  (id_readable id -> User.findById id d' = Return None) /\
  (forall req vs n, getAllTasks req d' = json_ok 200 None (DataTasks vs n) ->
     forall v, v ∈ vs -> id <> IntegerText (t_user_id (tv_task v))) /\
  ((User.delete id d).1 = Return None <->
     id_readable id /\ forall u, u ∈ users d -> id <> IntegerText (u_id u)) /\
  (~ id_readable id -> exists e, User.delete id d = (Throw e, d)).
Proof.
  intros Hok. cbv zeta.
  pose proof (user_delete_preserves_ok id d Hok) as Hok'.
  assert (Hstored : forall u, u ∈ users d -> bind_int4 (u_id u) = Return (u_id u))
    by (intros u Hu; by apply (user_id_in_int4 d)).
  assert (Howner : forall t, t ∈ tasks d ->
            bind_int4 (t_user_id t) = Return (t_user_id t)).
  { intros t Ht. pose proof (tasks_user_id_fkey d Hok) as Hfk.
    rewrite Forall_forall in Hfk. apply Hfk in Ht as (u & -> & Hu)%list_elem_of_fmap.
    by apply Hstored. }
  unfold User.delete in *. destruct (bind_int4 id) as [n|e] eqn:Hn.
  - apply bind_int4_readable in Hn as Hn'. destruct Hn' as [-> Hint]. simpl in *.
    set (d' := {| users := _; tasks := _; users_id_seq := _; tasks_id_seq := _ |}) in *.
    assert (Hne : forall m : Z, IntegerText n <> IntegerText m <-> m <> n).
    { intros m. split; [intros Hm ->; by apply Hm | intros Hm [= ->]; by apply Hm]. }
    assert (Hts : forall t, t ∈ tasks d' <->
                    t ∈ tasks d /\ IntegerText n <> IntegerText (t_user_id t)).
    { intros t. simpl. rewrite list_elem_of_filter, Hne. tauto. }
    split; [|split; [exact Hts|split; [|split; [|split]]]].
    + intros u. rewrite list_elem_of_filter, Hne. tauto.
    + intros _. unfold User.findById. rewrite (bind_int4_stored n Hint). simpl.
      rewrite filter_key_miss; [done|].
      intros u [Hneq _]%list_elem_of_filter. done.
    + intros req vs m Hall v Hv.
      destruct (getAllTasks_db_rows d' Hok' req vs m Hall v Hv) as [Hin _].
      by apply Hts in Hin as [_ ?].
    + destruct (filter (fun u => u_id u = n) (users d)) as [|u us] eqn:Hsel; simpl.
      * split; [intros _|done]. split; [by exists n|].
        intros u Hu [= Heq]. apply (filter_nil_not_elem_of _ _ u Hsel); done.
      * split; [done|]. intros [_ Hno]. exfalso.
        assert (Hu : u ∈ filter (fun u => u_id u = n) (users d)) by (rewrite Hsel; left).
        apply list_elem_of_filter in Hu as [<- Hu]. by apply (Hno u).
    + intros Hno. exfalso. apply Hno. by exists n.
  - simpl. assert (Hrd : ~ id_readable id) by (intros [n Hn']; congruence).
    split; [|split; [|split; [|split; [|split]]]].
    + intros u. split; [|tauto]. intros Hu. split; [done|]. intros ->.
      rewrite (Hstored u Hu) in Hn. done.
    + intros t. split; [|tauto]. intros Ht. split; [done|]. intros ->.
      rewrite (Howner t Ht) in Hn. done.
    + done.
    + intros req vs m Hall v Hv.
      destruct (getAllTasks_db_rows d Hok req vs m Hall v Hv) as [Hin _].
      intros ->. rewrite (Howner _ Hin) in Hn. done.
    + split; [done | by intros [? _]].
    + intros _. by exists e.
Qed.

Lemma user_delete_cascades_witness :
  let d' := (User.delete 1 demo_db).2 in
  db_ok demo_db /\
  t_id <$> tasks d' = [2] /\
  User.findById 1 d' = Return None /\
  (forall t, t ∈ tasks d' <-> t ∈ tasks demo_db /\ IntegerText 1 <> IntegerText (t_user_id t)).
Proof.
  intros d'.
  assert (Hok : db_ok demo_db) by (apply (bool_decide_unpack _); vm_compute; reflexivity).
  destruct (user_delete_cascades demo_db 1 Hok) as (_ & Hts & Hfind & _).
  split; [exact Hok|]. split; [reflexivity|].
  split; [apply Hfind; by exists 1|exact Hts].
Defined.

(** ** Registering and looking up a user *)

Lemma user_create_inv (bcrypt_hash : string -> Z -> string -> string)
    (now : Z) (salt : string) (name email password role : jsval)
    (d d' : db) (row : result_row) :
  User.create bcrypt_hash now salt name email password role d = (Return (Some row), d') ->
  exists plain e0,
    password = JString plain /\ email = JString e0 /\
    user_storable name email role /\
    varchar_accepts 255 (JString (bcrypt_hash plain 10 salt)) = true /\
    let u := {| u_id := users_id_seq d + 1; u_name := stored 255 name;
                u_email := Some (string_take 255 e0);
                u_password := Some (string_take 255 (bcrypt_hash plain 10 salt));
                u_role := stored 50 (default_param role "user");
                u_created_at := now; u_updated_at := now |} in
    row = User.select ["id"; "name"; "email"; "role"; "created_at"] u /\
    users d' = (users d ++ [u])%list /\ tasks d' = tasks d.
Proof.
  destruct (user_create_unfold bcrypt_hash now salt name email password role d)
    as [[_ ->]|(plain & -> & [[_ [e ->]]|(Hst & Hpw & _ & ->)])]; [done|done|].
  cbv zeta. destruct (user_row_violation _) eqn:Hrow; [done|].
  destruct (User.email_violation _ _); [done|]. simpl.
  intros Heq. apply pair_equal_spec in Heq as [Hres <-].
  apply user_row_valid_email in Hrow as [e He]. simpl in He.
  destruct email as [| |e0]; try done.
  exists plain, e0. split; [done|]. split; [done|]. split; [done|]. split; [done|]. simpl.
  split; [by injection Hres|done].
Qed.

(** X10.  A user that [User.create] has returned can be looked up at once:
    its id is above every stored id and its email, as the column stores it
    (the submitted email itself when it has at most 255 characters), was not
    stored before; [User.findById] of the new id returns the very row create
    returned, and [User.findByEmail] of the stored email returns the same
    user with, besides, the password column holding the hash of the
    submitted password (as the column stores it: the hash itself when it has
    at most 255 characters). *)
Theorem user_create_then_lookup (bcrypt_hash : string -> Z -> string -> string)
    (now : Z) (salt : string) (name email password role : jsval)
    (d d' : db) (row : result_row) :
  db_ok d ->
  User.create bcrypt_hash now salt name email password role d = (Return (Some row), d') ->
  exists id e0 e plain,
    email = JString e0 /\ password = JString plain /\
    e = string_take 255 e0 /\ ((String.length e0 <= 255)%nat -> e = e0) /\
    row !! "id" = Some (VInt id) /\ row !! "email" = Some (VText e) /\
    (forall u, u ∈ users d -> u_id u < id /\ u_email u <> Some e) /\
    User.findById id d' = Return (Some row) /\
    exists full,
      User.findByEmail (JString e) d' = Return (Some full) /\
      full !! "password" = Some (VText (string_take 255 (bcrypt_hash plain 10 salt))) /\
      ((String.length (bcrypt_hash plain 10%Z salt) <= 255)%nat ->
       full !! "password" = Some (VText (bcrypt_hash plain 10 salt))) /\
      (forall col, col ∈ ["id"; "name"; "email"; "role"; "created_at"] ->
         full !! col = row !! col).
Proof.
  intros Hok Hc.
  pose proof (user_create_preserves_ok bcrypt_hash now salt name email password role d Hok)
    as Hok'.
  rewrite Hc in Hok'. simpl in Hok'.
  destruct (user_create_inv _ _ _ _ _ _ _ _ _ _ Hc)
    as (plain & e0 & -> & -> & (_ & Hmail & _) & Hhash & Hu).
  cbv zeta in Hu. destruct Hu as (-> & Hus & _).
  set (e := string_take 255 e0) in *.
  set (u := {| u_id := users_id_seq d + 1; u_email := Some e |}) in *.
  assert (Hin : u ∈ users d') by (rewrite Hus; apply elem_of_app; right; left).
  assert (Hnul : has_nul e = false).
  { apply has_nul_take. simpl in Hmail. apply andb_true_iff in Hmail as [Hn _].
    by destruct (has_nul e0). }
  exists (users_id_seq d + 1), e0, e, plain. split; [done|]. split; [done|].
  split; [done|]. split; [intros Hlen; by apply string_take_all|].
  split; [reflexivity|]. split; [reflexivity|]. split; [|split].
  - intros v Hv. split.
    + pose proof (users_id_issued d Hok) as Hseq. rewrite Forall_forall in Hseq.
      specialize (Hseq v Hv). lia.
    + intros Hm. pose proof (users_email_key d' Hok') as Hnd.
      rewrite Hus, fmap_app in Hnd. apply NoDup_app in Hnd as (_ & Hfresh & _).
      apply (Hfresh (Some e)); [rewrite <- Hm; by apply list_elem_of_fmap_2|left].
  - unfold User.findById. change (IntegerText (users_id_seq d + 1)) with (IntegerText (u_id u)).
    rewrite (user_id_in_int4 d' u Hok' Hin). simpl.
    rewrite (filter_key_hit u_id _ (users d') u); [done|apply Hok'|done|done|].
    intros y _ Hy. by rewrite Hy.
  - exists (User.select User.all_columns u). split; [|split; [|split]].
    + unfold User.findByEmail. simpl. rewrite Hnul. simpl.
      rewrite (filter_key_hit u_email _ (users d') u);
        [done|apply Hok'|done|simpl; by apply bool_decide_eq_true_2|].
      intros y _ Hy. unfold User.sql_eq in Hy. destruct (u_email y); [|done].
      apply bool_decide_eq_true in Hy. by subst.
    + reflexivity.
    + intros Hlen.
      transitivity (Some (VText (string_take 255 (bcrypt_hash plain 10 salt))));
        [reflexivity|]. by rewrite string_take_all.
    + intros col Hcol.
      repeat (apply elem_of_cons in Hcol as [->|Hcol]; [reflexivity|]).
      by apply elem_of_nil in Hcol.
Qed.

Lemma user_create_then_lookup_witness :
  let res := User.create demo_hash 400 "N9qo8uLOickgx2ZMRZoMye"
               (JString "Carol") (JString "carol@x.com") (JString "secret1")
               JUndefined demo_db in
  db_ok demo_db /\
  exists row, res.1 = Return (Some row) /\
    row !! "id" = Some (VInt 4) /\
    User.findById 4 res.2 = Return (Some row) /\
    exists full,
      User.findByEmail (JString "carol@x.com") res.2 = Return (Some full) /\
      full !! "password" = Some (VText (demo_hash "secret1" 10 "N9qo8uLOickgx2ZMRZoMye")).
Proof.
  intros res.
  assert (Hok : db_ok demo_db) by (apply (bool_decide_unpack _); vm_compute; reflexivity).
  split; [exact Hok|].
  pose (row := match res.1 with Return (Some r) => r | _ => ∅ end).
  assert (Hres : res = (Return (Some row), res.2)) by reflexivity.
  exists row. split; [reflexivity|].
  destruct (user_create_then_lookup demo_hash _ _ _ _ _ _ _ _ _ Hok Hres)
    as (id & e0 & e & plain & He & Hp & He' & _ & Hid & _ & _ & Hfind & full & Hmail & _
        & Hpw & _).
  injection He as <-. injection Hp as <-.
  assert (id = 4) as -> by (assert (Some (VInt id) = Some (VInt 4)) as [= ->]
                              by (rewrite <- Hid; reflexivity); reflexivity).
  assert (e = "carol@x.com") as -> by (rewrite He'; reflexivity).
  split; [reflexivity|]. split; [exact Hfind|]. exists full. split; [exact Hmail|].
  apply Hpw. vm_compute. lia.
Defined.

(** X11.  On a database that satisfies the schema, registering with an email
    that a stored user already has stores nothing: [User.create] returns no
    row and leaves both tables as they were.  When, besides, the name and the
    password are strings, the role is allowed, the columns take the name,
    the email and the hash, and the sequence of user ids has not run out,
    what it throws is the violation of the [UNIQUE] constraint on [email]. *)
Theorem user_create_duplicate_email (bcrypt_hash : string -> Z -> string -> string)
    (now : Z) (salt e : string) (name password role : jsval) (d : db) :
  db_ok d ->
  Some e ∈ u_email <$> users d ->
  let res := User.create bcrypt_hash now salt name (JString e) password role d in
  (forall row, res.1 <> Return row) /\
  users res.2 = users d /\ tasks res.2 = tasks d /\
  (forall n plain, name = JString n -> password = JString plain ->
   check_in user_roles (sql_param (default_param role "user")) = true ->
   user_storable name (JString e) role ->
   varchar_accepts 255 (JString (bcrypt_hash plain 10 salt)) = true ->
   users_id_seq d < int4_max ->
   res.1 = Throw (UniqueViolation "email")).
Proof.
  intros Hok (u & Hmail & Hu)%list_elem_of_fmap. cbv zeta.
  assert (Hlen : (String.length e <= 255)%nat).
  { pose proof (users_rows_valid d Hok) as Hrows. rewrite Forall_forall in Hrows.
    specialize (Hrows u Hu). apply user_row_valid in Hrows as (_ & Hc & _).
    rewrite <- Hmail in Hc. simpl in Hc. by apply bool_decide_eq_true in Hc. }
  destruct (user_create_unfold bcrypt_hash now salt name (JString e) password role d)
    as [[Hpw ->]|(plain & -> & [[Hno [ex ->]]|(Hst & Hhash & Hseq & ->)])].
  - split; [done|]. split; [done|]. split; [done|]. intros n plain _ ->. by destruct Hpw.
  - simpl. split; [done|]. split; [done|]. split; [done|].
    intros n plain' _ [= <-] _ Hst Hhash Hseq. exfalso.
    destruct Hno as [Hno|[Hno|Hno]]; done.
  - cbv zeta. simpl stored. rewrite (string_take_all 255 e) by done.
    set (r := {| u_id := users_id_seq d + 1; u_email := Some e |}).
    assert (Hdup : User.email_violation (users d) r = Some (UniqueViolation "email")).
    { unfold User.email_violation. rewrite bool_decide_eq_true_2; [done|].
      apply Exists_exists. exists u. split; [done|].
      rewrite <- Hmail. simpl. by apply bool_decide_eq_true_2. }
    rewrite Hdup.
    destruct (user_row_violation r) as [ex|] eqn:Hrow; simpl.
    + split; [done|]. split; [done|]. split; [done|].
      intros n plain' -> [= <-] Hrole _ _ _. exfalso.
      assert (Hvalid : user_row_violation r = None); [|congruence].
      apply user_row_valid. subst r. cbn [u_name u_email u_password u_role].
      pose proof (varchar_cell_stored 255 (JString n)).
      pose proof (varchar_cell_stored 50 (default_param role "user")).
      rewrite (check_in_stored 50 user_roles) by apply user_roles_short.
      repeat split; try done; try (by eexists).
      * simpl. by apply bool_decide_eq_true.
      * simpl. apply bool_decide_eq_true, string_take_length.
    + done.
Qed.

Lemma user_create_duplicate_email_witness :
  let res := User.create demo_hash 400 "N9qo8uLOickgx2ZMRZoMye"
               (JString "Bobby") (JString "bob@x.com") (JString "secret2")
               JUndefined demo_db in
  db_ok demo_db /\
  Some "bob@x.com" ∈ u_email <$> users demo_db /\
  res.1 = Throw (UniqueViolation "email") /\ users res.2 = users demo_db.
Proof.
  intros res.
  assert (Hok : db_ok demo_db) by (apply (bool_decide_unpack _); vm_compute; reflexivity).
  assert (Hin : Some "bob@x.com" ∈ u_email <$> users demo_db) by (right; left).
  destruct (user_create_duplicate_email demo_hash 400 "N9qo8uLOickgx2ZMRZoMye" "bob@x.com"
              (JString "Bobby") (JString "secret2") JUndefined demo_db Hok Hin)
    as (_ & Hus & _ & Hthrow).
  split; [exact Hok|]. split; [exact Hin|]. split; [|exact Hus].
  apply (Hthrow "Bobby" "secret2"); try reflexivity; by repeat split.
Defined.

(** A name of 256 letters is refused before the [UNIQUE] constraint is
    looked at. *)
Example user_create_long_name :
  (User.create demo_hash 400 "N9qo8uLOickgx2ZMRZoMye"
     (JString (letters 256)) (JString "bob@x.com") (JString "secret2") JUndefined demo_db).1
  = Throw (StringDataRightTruncation 255).
Proof. vm_compute. reflexivity. Qed.

(** ** Updating a user *)

Lemma user_apply_updates_patched (now : Z) (name email role : jsval) (u : user_row) :
  User.apply_updates now (user_stored_updates name email role) u
  = user_patched now name email role u.
Proof. destruct name as [| |?], email as [| |?], role as [| |?]; reflexivity. Qed.

(** X12.  [User.update] returns [null] and changes nothing when the request
    names none of name, email, role, and also when the columns take the
    values and the id is an integer of the type [INTEGER] that no user has.
    When it returns a row, that row shows the one stored user of that id
    after the change: the named fields take the request's values as their
    columns store them, the omitted ones, the id, the password and the
    creation time are kept; every other user and the tasks table are
    untouched.  A request that names a field with a value its column does
    not take, or with an id that is no such integer, makes it throw and
    change nothing. *)
Theorem user_update_frame (now : Z) (id : id_param) (name email role : jsval) (d : db) :
  db_ok d ->
  (name = JUndefined /\ email = JUndefined /\ role = JUndefined ->
     User.update now id name email role d = (Return None, d)) /\
  (user_storable name email role -> id_readable id ->
   (forall u, u ∈ users d -> id <> IntegerText (u_id u)) ->
     User.update now id name email role d = (Return None, d)) /\
  (forall row d',
     User.update now id name email role d = (Return (Some row), d') ->
     exists u, u ∈ users d /\ id = IntegerText (u_id u) /\
       user_storable name email role /\
       row = User.select ["id"; "name"; "email"; "role"; "updated_at"]
               (user_patched now name email role u) /\
       users d' = (fun r => if bool_decide (r = u)
                            then user_patched now name email role u else r) <$> users d /\
       tasks d' = tasks d) /\
  (~ (name = JUndefined /\ email = JUndefined /\ role = JUndefined) ->
   ~ user_storable name email role \/ ~ id_readable id ->
     exists e, User.update now id name email role d = (Throw e, d)).
Proof.
  intros Hok.
  destruct (user_update_unfold now id name email role d)
    as [(-> & -> & -> & Hupd)|[(Hsome & Hno & [e Hupd])|(Hsome & Hst & n & Hn & Hupd)]];
    rewrite Hupd; clear Hupd.
  - split; [done|]. split; [done|]. split; [done|]. by intros [].
  - split; [done|]. split; [|split; [done|by exists e]].
    intros Hst Hrd _. by destruct Hno.
  - assert (Hrd : id_readable id) by (by exists n).
    apply bind_int4_readable in Hn as [-> Hint].
    split; [done|]. unfold User.update_returning. cbv zeta.
    split; [|split; [|by intros _ [?|?]]].
    + intros _ _ Hno.
      assert (Hsel : filter (fun r => u_id r = n) (users d) = []).
      { apply filter_key_miss. intros u Hu Hid. apply (Hno u Hu). by rewrite Hid. }
      rewrite Hsel. simpl. f_equal.
      rewrite <- (with_tasks_same d) at 2. destruct d as [us ts su st]. simpl in *.
      unfold with_users, with_tasks. simpl. f_equal.
      etrans; [|apply list_fmap_id]. apply fmap_ext_elem. intros u Hu.
      case_bool_decide as Hid; [|done]. exfalso. apply (Hno u Hu). by rewrite Hid.
    + intros row d'.
      destruct (first_violation user_row_violation _); [done|].
      destruct (first_violation _ _); [done|]. simpl.
      intros Heq. apply pair_equal_spec in Heq as [Hrow <-].
      destruct (filter (fun r => u_id r = n) (users d)) as [|u us] eqn:Hsel; [done|].
      assert (Hu : u ∈ filter (fun r => u_id r = n) (users d)) by (rewrite Hsel; left).
      apply list_elem_of_filter in Hu as [Hid Hu].
      exists u. split; [done|]. split; [by rewrite Hid|]. split; [done|].
      rewrite fmap_cons, user_apply_updates_patched in Hrow. simpl in Hrow.
      split; [by injection Hrow|]. split; [|done]. simpl.
      apply fmap_ext_elem. intros r Hr.
      case_bool_decide as Hrid; case_bool_decide as Hru.
      * subst r. apply user_apply_updates_patched.
      * exfalso. apply Hru. apply (key_inj u_id (users d)); [apply Hok|done|done|congruence].
      * by subst r.
      * done.
Qed.

Lemma user_update_frame_witness :
  let res := User.update 400 2 JUndefined JUndefined (JString "admin") demo_db in
  let u := demo_user 2 "Bob" "bob@x.com" "user" 20 in
  db_ok demo_db /\
  exists row, res = (Return (Some row), res.2) /\
    row !! "role" = Some (VText "admin") /\ row !! "name" = Some (VText "Bob") /\
    u_password <$> users res.2 = u_password <$> users demo_db /\
    tasks res.2 = tasks demo_db.
Proof.
  intros res u.
  assert (Hok : db_ok demo_db) by (apply (bool_decide_unpack _); vm_compute; reflexivity).
  split; [exact Hok|].
  pose (row := match res.1 with Return (Some r) => r | _ => ∅ end).
  assert (Hres : res = (Return (Some row), res.2)) by reflexivity.
  exists row. split; [exact Hres|].
  destruct (proj1 (proj2 (proj2 (user_update_frame 400 2 JUndefined JUndefined
                                   (JString "admin") demo_db Hok))) row res.2 Hres)
    as (u' & Hin & Hid & _ & Hrow & Hus & Hts).
  split; [reflexivity|]. split; [reflexivity|]. split; [reflexivity|exact Hts].
Defined.

(** ** Listing users *)

(** X13.  [User.findAll] returns one row for each stored user, the most
    recently created first, and each of these rows is the row
    [User.findById] returns for that user's id. *)
Theorem user_findAll_lists_every_user (d : db) :
  db_ok d ->
  exists us,
    us ≡ₚ users d /\
    StronglySorted (fun u v => u_created_at v <= u_created_at u) us /\
    User.findAll d
      = Return (User.select ["id"; "name"; "email"; "role"; "created_at"] <$> us) /\
    forall u, u ∈ us ->
      User.findById (u_id u) d
        = Return (Some (User.select ["id"; "name"; "email"; "role"; "created_at"] u)).
Proof.
  intros Hok. exists (merge_sort User.created_desc (users d)).
  split; [apply merge_sort_Permutation|]. split; [|split; [done|]].
  - change (StronglySorted User.created_desc (merge_sort User.created_desc (users d))).
    apply StronglySorted_merge_sort.
    + intros x y z. unfold User.created_desc. lia.
    + intros x y. unfold User.created_desc. lia.
  - intros u Hu. rewrite merge_sort_Permutation in Hu.
    unfold User.findById. rewrite (user_id_in_int4 d u Hok Hu). simpl.
    rewrite (filter_key_hit u_id _ (users d) u); [done|apply Hok|done|done|].
    intros y _ Hy. done.
Qed.

Lemma user_findAll_lists_every_user_witness :
  db_ok demo_db /\
  exists us,
    us ≡ₚ users demo_db /\
    StronglySorted (fun u v => u_created_at v <= u_created_at u) us /\
    User.findAll demo_db
      = Return (User.select ["id"; "name"; "email"; "role"; "created_at"] <$> us) /\
    forall u, u ∈ us ->
      User.findById (u_id u) demo_db
        = Return (Some (User.select ["id"; "name"; "email"; "role"; "created_at"] u)).
Proof.
  assert (Hok : db_ok demo_db) by (apply (bool_decide_unpack _); vm_compute; reflexivity).
  split; [exact Hok|]. exact (user_findAll_lists_every_user demo_db Hok).
Defined.

Example user_findAll_demo_ids :
  match User.findAll demo_db with
  | Return rows => (fun row : result_row => row !! "id") <$> rows
  | Throw _ => []
  end = [Some (VInt 3); Some (VInt 2); Some (VInt 1)].
Proof. reflexivity. Qed.

(** ** List and fetch agree *)

Lemma joined_row_unique (d : db) (Hok : db_ok d) (v w : task_view) :
  v ∈ Task.tasks_join_users d -> w ∈ Task.tasks_join_users d ->
  tv_task v = tv_task w -> v = w.
Proof.
  unfold Task.tasks_join_users.
  intros (t & Hv & Ht)%list_elem_of_bind (t' & Hw & Ht')%list_elem_of_bind Heq.
  assert (tv_task v = t) as Hvt by (by apply list_elem_of_fmap in Hv as (? & -> & _)).
  assert (tv_task w = t') as Hwt by (by apply list_elem_of_fmap in Hw as (? & -> & _)).
  assert (t' = t) as -> by congruence.
  destruct (join_users_owner d Hok t Ht) as (u & _ & _ & Hone). rewrite Hone in Hv, Hw.
  apply list_elem_of_singleton in Hv, Hw. congruence.
Qed.

(** X15.  List and fetch show a principal the same rows: fetch by id answers
    200 with a row exactly when list returns that row under that id, so a
    task is listed if and only if it can be fetched, with the same content. *)
Theorem getTaskById_iff_listed (d : db) (req : request) (vs : list task_view) (n : Z)
    (v : task_view) :
  db_ok d ->
  getAllTasks req d = json_ok 200 None (DataTasks vs n) ->
  getTaskById req d = json_ok 200 None (DataTaskView v) <->
  v ∈ vs /\ params_id req = IntegerText (t_id (tv_task v)).
Proof.
  intros Hok Hall.
  assert (Hlisted : forall w, w ∈ vs <->
            w ∈ Task.tasks_join_users d /\
            (isAdmin_of req = true \/ t_user_id (tv_task w) = p_id (user req))).
  { unfold getAllTasks, Task.findAll in Hall. cbv zeta in Hall. injection Hall as <- _.
    intros w. rewrite merge_sort_Permutation.
    destruct (isAdmin_of req); simpl; [|rewrite list_elem_of_filter]; naive_solver. }
  split.
  - intros Hget.
    unfold getTaskById, Task.findById in Hget. cbv zeta in Hget.
    destruct (bind_int4 (params_id req)) as [m|e] eqn:Hm; [|done].
    apply bind_int4_readable in Hm as [Hreq _].
    assert (Hsel : v ∈ filter (fun w => Task.where_id m (p_id (user req))
                                          (isAdmin_of req) (tv_task w) = true)
                          (Task.tasks_join_users d)).
    { simpl in Hget.
      destruct (filter _ (Task.tasks_join_users d)) as [|w ws]; [done|].
      simpl in Hget. injection Hget as ->. left. }
    apply list_elem_of_filter in Hsel as [[Hid Hvis]%where_id_true Hjoin].
    split; [by apply Hlisted | by rewrite Hreq, Hid].
  - intros [[Hjoin Hvis]%Hlisted Hid].
    destruct (getAllTasks_db_rows d Hok req vs n Hall v) as [Hin _]; [by apply Hlisted|].
    assert (Hb : bind_int4 (params_id req) = Return (t_id (tv_task v)))
      by (rewrite Hid; by apply (task_id_in_int4 d)).
    destruct (getTaskById_hit d Hok req (tv_task v) Hin Hb) as (w & Hget & Hw & Hwjoin).
    + unfold permitted. destruct Hvis as [Hadm|Hown]; [left|by right].
      unfold isAdmin_of in Hadm. by apply bool_decide_eq_true in Hadm.
    + rewrite Hget. by rewrite (joined_row_unique d Hok w v Hwjoin Hjoin Hw).
Qed.

Lemma getTaskById_iff_listed_witness :
  let req := {| user := alice; params_id := 3; body := no_fields |} in
  let v := {| tv_task := demo_task 3 "call client" "completed" "low" 1 300;
              tv_user_name := Some "Alice"; tv_user_email := Some "alice@x.com" |} in
  db_ok demo_db /\
  exists vs, getAllTasks req demo_db = json_ok 200 None (DataTasks vs 2) /\
    v ∈ vs /\ getTaskById req demo_db = json_ok 200 None (DataTaskView v).
Proof.
  intros req v.
  assert (Hok : db_ok demo_db) by (apply (bool_decide_unpack _); vm_compute; reflexivity).
  split; [exact Hok|].
  pose (vs := match res_data (getAllTasks req demo_db) with DataTasks l _ => l | _ => [] end).
  assert (Hall : getAllTasks req demo_db = json_ok 200 None (DataTasks vs 2)) by reflexivity.
  assert (Hin : v ∈ vs) by left.
  exists vs. split; [exact Hall|]. split; [exact Hin|].
  apply (getTaskById_iff_listed demo_db req vs 2 v Hok Hall). split; [exact Hin|reflexivity].
Defined.

(** ** The status label of the task card *)

Lemma string_take_S (n : nat) (c : ascii) (s : string) :
  string_take (S n) (String c s) = String c (string_take n s).
Proof. reflexivity. Qed.

(** [replace] with a string pattern, position by position: the first
    underscore becomes a space, every other character stays. *)
Lemma replace_first_get (s : string) (i : nat) :
  String.get i (TaskCard.replace_first "_" " " s) =
    if TaskCard.first_underscore s i then Some " "%char else String.get i s.
Proof.
  unfold TaskCard.first_underscore. revert i.
  induction s as [|c s IH]; intros i; [by destruct i|].
  simpl TaskCard.replace_first. destruct (Ascii.eqb c "_") eqn:Hc.
  - destruct i as [|j]; [simpl; by rewrite Hc|].
    rewrite string_take_S. simpl. rewrite Hc. simpl.
    destruct (String.get j s) as [c'|]; [|done]. by rewrite andb_false_r.
  - destruct i as [|j]; [simpl; by rewrite Hc|].
    rewrite string_take_S. simpl. by rewrite IH, Hc.
Qed.

(** The regular-expression [replace], position by position: the character
    that starts a word is put in upper case, every other character stays. *)
Lemma upcase_word_starts_get (b : bool) (s : string) (i : nat) :
  String.get i (TaskCard.upcase_word_starts b s) =
    match String.get i s with
    | Some c =>
        Some (if TaskCard.is_word c &&
                 negb (match i with O => b | S _ => TaskCard.follows_word s i end)
              then TaskCard.toUpperCase c else c)
    | None => None
    end.
Proof.
  revert b i. induction s as [|c s IH]; intros b i; [by destruct i|].
  destruct i as [|j]; [reflexivity|].
  simpl TaskCard.upcase_word_starts. simpl String.get. rewrite IH.
  destruct (String.get j s) as [c'|]; [|done].
  by destruct j as [|k].
Qed.

Lemma upcase_word_starts_length (after_word : bool) (s : string) :
  String.length (TaskCard.upcase_word_starts after_word s) = String.length s.
Proof. revert after_word. induction s as [|c s IH]; intros b; simpl; [done|by rewrite IH]. Qed.

Lemma replace_first_length (from to : ascii) (s : string) :
  String.length (TaskCard.replace_first from to s) = String.length s.
Proof.
  induction s as [|c s IH]; simpl; [done|].
  destruct (Ascii.eqb c from); simpl; [done|by rewrite IH].
Qed.

(** X16.  [formatStatus] throws on a [null] status.  On a text it returns a
    label of the same length, made in two steps: the first underscore of the
    text, and no other character, becomes a space; then every character that
    starts a word (a letter, digit or underscore that follows none of these)
    is put in upper case, which turns a letter [a-z] into [A-Z] and keeps
    any other character, and every other character stays. *)
Theorem formatStatus_shape :
  TaskCard.formatStatus None = Throw TypeError /\
  forall status : string, exists spaced label,
    TaskCard.formatStatus (Some status) = Return label /\
    (forall i, String.get i spaced =
       if TaskCard.first_underscore status i then Some " "%char else String.get i status) /\
    (forall i, String.get i label =
       if TaskCard.starts_word spaced i
       then TaskCard.toUpperCase <$> String.get i spaced
       else String.get i spaced) /\
    String.length label = String.length status.
Proof.
  split; [reflexivity|]. intros status.
  exists (TaskCard.replace_first "_" " " status),
    (TaskCard.upcase_word_starts false (TaskCard.replace_first "_" " " status)).
  split; [reflexivity|]. split; [apply replace_first_get|]. split.
  - intros i. rewrite upcase_word_starts_get. unfold TaskCard.starts_word.
    destruct (String.get i _) as [c|]; [|done].
    assert (Hprev : match i with O => false | S _ => TaskCard.follows_word
                      (TaskCard.replace_first "_" " " status) i end
                    = TaskCard.follows_word (TaskCard.replace_first "_" " " status) i)
      by (by destruct i).
    rewrite Hprev. by destruct (TaskCard.is_word c && negb _).
  - by rewrite upcase_word_starts_length, replace_first_length.
Qed.

(** The labels of the statuses the schema allows, of one it does not, and
    of a missing status. *)
Example formatStatus_labels :
  (TaskCard.formatStatus ∘ Some) <$> task_statuses
    = [Return "Pending"; Return "In Progress"; Return "Completed"] /\
  TaskCard.formatStatus (Some "on_hold_again") = Return "On Hold_again" /\
  TaskCard.formatStatus None = Throw TypeError.
Proof. repeat split; reflexivity. Qed.
